(** * Banner service: resolution, tag association, listing and authorization

    A shallow embedding of [main.py] and [src/banners.py].  The tables of the
    persistence layer are lists of rows, held in the order in which the store
    hands rows back to a [SELECT] that has no [ORDER BY]; a request handler is
    a computation over an open session that may raise; each route is its
    token-verification dependency followed by its handler. *)

From Stdlib Require Import ZArith List Bool Lia Sorted Permutation.
From Stdlib Require String.
Import ListNotations.

Import String.StringSyntax.
Delimit Scope string_scope with string.
Bind Scope string_scope with String.string.

Abbreviation string := String.string.

Local Open Scope Z_scope.

(** ** Data model ([src/banners.py]) *)

Module Tag.
Record t := mk { tag_id : Z }.
End Tag.

Module Banner.
Record t := mk {
  banner_id : Z;
  feature_id : Z;
  content : string;
  is_active : bool;
  created_at : string;
  updated_at : string }.
End Banner.

Module BannerTag.
Record t := mk { banner_tag_id : Z; banner_id : Z; tag_id : Z }.
End BannerTag.

Module User.
(** Modelled from the spec: the [User] table of [src/users.py], which is not
    among the sources; the handlers and the tests use its columns [user_id],
    [username], [token] and [admin]. *)
Record t := mk { user_id : Z; username : string; token : string; admin : bool }.
End User.

Record Database := mkDatabase {
  users : list User.t;
  tags : list Tag.t;
  banners : list Banner.t;
  banner_tags : list BannerTag.t }.

(** ** Request payloads and responses *)

Module PostBanner.
Record t := mk {
  tag_ids : list Z;
  feature_id : Z;
  content : string;
  is_active : bool }.
End PostBanner.

(** A field of [PatchBanner] left out of the request is [None]. *)
Module PatchBanner.
Record t := mk {
  tag_ids : option (list Z);
  feature_id : option Z;
  content : option string;
  is_active : option bool }.
End PatchBanner.

(** The dictionary built by [Banner.get_as_dict]. *)
Module BannerDict.
Record t := mk {
  banner_id : Z;
  tag_ids : list Z;
  feature_id : Z;
  content : string;
  is_active : bool;
  created_at : string;
  updated_at : string }.
End BannerDict.

Inductive Content :=
| JStr (s : string)
| JInt (n : Z)
| JBannerId (banner_id : Z)
| JList (l : list BannerDict.t).

(** What a handler hands back to the framework: a response object, or a plain
    value, which the framework serialises under the route's default status. *)
Inductive Returned :=
| JSONResponse (content : Content) (status_code : Z)
| Response (status_code : Z)
| Plain (value : Content).

Inductive Raised :=
| HTTPException (status_code : Z)
| TypeError.

Definition Outcome := (Raised + Returned)%type.

Definition HTTP_200_OK := 200.
Definition HTTP_201_CREATED := 201.
Definition HTTP_204_NO_CONTENT := 204.
Definition HTTP_401_UNAUTHORIZED := 401.
Definition HTTP_403_FORBIDDEN := 403.
Definition HTTP_404_NOT_FOUND := 404.
Definition HTTP_500_INTERNAL_SERVER_ERROR := 500.

(** Status line seen by the caller. *)
Definition http_status (o : Outcome) : Z :=
  match o with
  | inl (HTTPException code) => code
  | inl TypeError => HTTP_500_INTERNAL_SERVER_ERROR
  | inr (JSONResponse _ code) => code
  | inr (Response code) => code
  | inr (Plain _) => HTTP_200_OK
  end.

(** ** Sessions: state passing with exceptions *)

Record AsyncSession := mkSession {
  committed : Database;
  current : Database }.

Definition Sess (A : Type) : Type := AsyncSession -> (Raised + A) * AsyncSession.

Definition ret {A} (a : A) : Sess A := fun s => (inr a, s).

Definition bind {A B} (m : Sess A) (k : A -> Sess B) : Sess B :=
  fun s =>
    match m s with
    | (inl e, s') => (inl e, s')
    | (inr a, s') => k a s'
    end.

Definition raise {A} (e : Raised) : Sess A := fun s => (inl e, s).

Declare Scope sess_scope.
Delimit Scope sess_scope with sess.
Notation "x <- m ;; k" := (bind m (fun x => k))
  (at level 61, m at next level, right associativity) : sess_scope.
Notation "m ;; k" := (bind m (fun _ => k))
  (at level 61, right associativity) : sess_scope.
Local Open Scope sess_scope.

Definition query {A} (f : Database -> A) : Sess A :=
  fun s => (inr (f (current s)), s).

Definition modify (f : Database -> Database) : Sess unit :=
  fun s => (inr tt, mkSession (committed s) (f (current s))).

Definition commit : Sess unit :=
  fun s => (inr tt, mkSession (current s) (current s)).

(** [async with create_session() as session: body]; what was not committed
    when the block is left is lost. *)
Definition create_session {A} (body : Sess A) (db : Database)
  : (Raised + A) * Database :=
  let '(r, s) := body (mkSession db db) in (r, committed s).

Fixpoint for_each {A} (l : list A) (body : A -> Sess unit) : Sess unit :=
  match l with
  | [] => ret tt
  | x :: l' => body x ;; for_each l' body
  end.

Fixpoint collect {A B} (l : list A) (body : A -> Sess B) : Sess (list B) :=
  match l with
  | [] => ret []
  | x :: l' => y <- body x ;; ys <- collect l' body ;; ret (y :: ys)
  end.

(** ** Store operations *)

Definition get_tag (tag_id : Z) (db : Database) : option Tag.t :=
  find (fun t => Tag.tag_id t =? tag_id) (tags db).

Definition get_banner (banner_id : Z) (db : Database) : option Banner.t :=
  find (fun b => Banner.banner_id b =? banner_id) (banners db).

(** Key given to a row inserted without one. *)
Definition next_id (ids : list Z) : Z := 1 + fold_right Z.max 0 ids.

Definition add_tag (t : Tag.t) (db : Database) : Database :=
  mkDatabase (users db) (tags db ++ [t]) (banners db) (banner_tags db).

Definition add_banner (b : Banner.t) (db : Database) : Database :=
  mkDatabase (users db) (tags db) (banners db ++ [b]) (banner_tags db).

Definition update_banner (banner_id : Z) (f : Banner.t -> Banner.t)
    (db : Database) : Database :=
  mkDatabase (users db) (tags db)
    (map (fun b => if Banner.banner_id b =? banner_id then f b else b)
       (banners db))
    (banner_tags db).

(** [banner.tags.append(tag)]: one association row per call. *)
Definition append_tag (banner_id : Z) (t : Tag.t) (db : Database) : Database :=
  mkDatabase (users db) (tags db) (banners db)
    (banner_tags db ++
       [BannerTag.mk (next_id (map BannerTag.banner_tag_id (banner_tags db)))
          banner_id (Tag.tag_id t)]).

(** One association row for each entry of a list of tags. *)
Definition append_all (banner_id : Z) (l : list Tag.t) (db : Database)
  : Database :=
  fold_left (fun db tag => append_tag banner_id tag db) l db.

(** [session.delete(banner)] takes the banner's association rows with it. *)
Definition delete (banner_id : Z) (db : Database) : Database :=
  mkDatabase (users db) (tags db)
    (filter (fun b => negb (Banner.banner_id b =? banner_id)) (banners db))
    (filter (fun bt => negb (BannerTag.banner_id bt =? banner_id))
       (banner_tags db)).

(** The relationship [Banner.tags], through [banner_tags]. *)
Definition Banner_tags (db : Database) (b : Banner.t) : list Tag.t :=
  flat_map
    (fun bt =>
       if BannerTag.banner_id bt =? Banner.banner_id b
       then filter (fun t => Tag.tag_id t =? BannerTag.tag_id bt) (tags db)
       else [])
    (banner_tags db).

Definition get_as_dict (db : Database) (b : Banner.t) : BannerDict.t :=
  BannerDict.mk (Banner.banner_id b)
    (map Tag.tag_id (Banner_tags db b))
    (Banner.feature_id b) (Banner.content b) (Banner.is_active b)
    (Banner.created_at b) (Banner.updated_at b).

(** ** Queries *)

(** An operand of [&] in a [where(...)]: the Python constant [True] or an SQL
    expression over the joined row. *)
Inductive Clause :=
| PyTrue
| Expr (p : Banner.t -> Tag.t -> bool).

(** Python's [a & b].  [True & True] is [True]; an expression on the left
    builds the conjunction; for [True & expression], [bool.__and__] declines
    the operand and expressions define no reflected [__rand__], so the
    operator raises [TypeError]. *)
Definition py_and (a b : Clause) : Raised + Clause :=
  match a, b with
  | PyTrue, PyTrue => inr PyTrue
  | PyTrue, Expr _ => inl TypeError
  | Expr p, PyTrue => inr (Expr p)
  | Expr p, Expr q => inr (Expr (fun x y => p x y && q x y))
  end.

Definition holds (c : Clause) (b : Banner.t) (t : Tag.t) : bool :=
  match c with
  | PyTrue => true
  | Expr p => p b t
  end.

(** The rows that the association [bt] has in the inner join of [banners],
    [banner_tags] and [tags] under the clause [c]: the banner and the tag
    that [bt] refers to are looked up by their keys. *)
Definition joined_rows (c : Clause) (db : Database) (bt : BannerTag.t)
  : list Banner.t :=
  flat_map
    (fun b =>
       if Banner.banner_id b =? BannerTag.banner_id bt
       then flat_map
              (fun t =>
                 if (Tag.tag_id t =? BannerTag.tag_id bt) && holds c b t
                 then [b] else [])
              (tags db)
       else [])
    (banners db).

(** [select(Banner).join(Banner.tags).where(c)], then [.scalars().all()]:
    one [Banner] per joined row that satisfies [c].  The statement has no
    [ORDER BY]; the association table, which has no index on its two
    foreign keys, is the one the store walks, in the order of its rows, so
    the rows of the answer follow the rows of [banner_tags]. *)
Definition select_banner_join_tags (c : Clause) (db : Database)
  : list Banner.t :=
  flat_map (joined_rows c db) (banner_tags db).

Definition select_user_where_token (token : string) (db : Database)
  : list User.t :=
  filter (fun u => String.eqb (User.token u) token) (users db).

(** Python's [l[start:stop]], negative indices counted from the end. *)
Definition slice_index (i len : Z) : Z :=
  if i <? 0 then Z.max 0 (i + len) else Z.min i len.

Definition py_slice {A} (l : list A) (start stop : Z) : list A :=
  let len := Z.of_nat (length l) in
  let lo := slice_index start len in
  let hi := slice_index stop len in
  firstn (Z.to_nat (hi - lo)) (skipn (Z.to_nat lo) l).

(** ** Token verification ([main.py], lines 20-41) *)

Definition user_token_verification (token : option string) : Sess unit :=
  match token with
  | None => raise (HTTPException HTTP_401_UNAUTHORIZED)
  | Some token =>
      result <- query (select_user_where_token token) ;;
      if Z.of_nat (length result) <? 1
      then raise (HTTPException HTTP_401_UNAUTHORIZED)
      else ret tt
  end.

Definition admin_token_verification (token : option string) : Sess unit :=
  match token with
  | None => raise (HTTPException HTTP_401_UNAUTHORIZED)
  | Some token =>
      result <- query (select_user_where_token token) ;;
      match result with
      | [] => raise (HTTPException HTTP_401_UNAUTHORIZED)
      | user :: _ =>
          if negb (User.admin user)
          then raise (HTTPException HTTP_403_FORBIDDEN)
          else ret tt
      end
  end.

(** ** Handlers *)

(** The [where(...)] of lines 50-52. *)
Definition resolve_clause (feature_id tag_id : Z) : Clause :=
  Expr (fun b t =>
          (Banner.feature_id b =? feature_id)
          && (Tag.tag_id t =? tag_id)
          && Banner.is_active b).

(** [user_banner] ([main.py], lines 45-57); [use_last_revision] is not read. *)
Definition user_banner (tag_id feature_id : Z) (use_last_revision : bool)
  : Sess Returned :=
  tag <- query (get_tag tag_id) ;;
  match tag with
  | None => raise (HTTPException HTTP_404_NOT_FOUND)
  | Some _ =>
      results <- query (select_banner_join_tags
                          (resolve_clause feature_id tag_id)) ;;
      match results with
      | [] => raise (HTTPException HTTP_404_NOT_FOUND)
      | first :: _ =>
          ret (JSONResponse (JStr (Banner.content first)) HTTP_200_OK)
      end
  end.

Definition feature_clause (feature_id : option Z) : Clause :=
  match feature_id with
  | Some f => Expr (fun b _ => Banner.feature_id b =? f)
  | None => PyTrue
  end.

Definition tag_clause (tag_id : option Z) : Clause :=
  match tag_id with
  | Some i => Expr (fun _ t => Tag.tag_id t =? i)
  | None => PyTrue
  end.

Definition lift {A} (r : Raised + A) : Sess A := fun s => (r, s).

(** [get_banners] ([main.py], lines 61-77). *)
Definition get_banners (feature_id tag_id limit : option Z) (offset : Z)
  : Sess Returned :=
  tag <- match tag_id with
         | Some i => query (get_tag i)
         | None => ret None
         end ;;
  match tag_id, tag with
  | Some _, None => ret (JSONResponse (JList []) HTTP_200_OK)
  | _, _ =>
      clause <- lift (py_and (feature_clause feature_id) (tag_clause tag_id)) ;;
      results <- query (select_banner_join_tags clause) ;;
      let results :=
        match limit with
        | Some limit => py_slice results offset (offset + limit)
        | None => results
        end in
      dicts <- query (fun db => map (get_as_dict db) results) ;;
      ret (JSONResponse (JList dicts) HTTP_200_OK)
  end.

(** Get-or-create of lines 94-97 and 122-125. *)
Definition ensure_tag (tag_id : Z) : Sess Tag.t :=
  tag <- query (get_tag tag_id) ;;
  match tag with
  | Some tag => ret tag
  | None => modify (add_tag (Tag.mk tag_id)) ;; ret (Tag.mk tag_id)
  end.

(** [post_banner] ([main.py], lines 88-102); [created] and [updated] are the
    two clock readings of lines 91 and 92; [banner_tags] is the list
    [banner.tags] filled by the loop.  The flush writes the row under the
    next free key, and one association per entry of the list. *)
Definition post_banner (args : PostBanner.t) (created updated : string)
  : Sess Returned :=
  banner_tags <- collect (PostBanner.tag_ids args) ensure_tag ;;
  banner_id <- query (fun db => next_id (map Banner.banner_id (banners db))) ;;
  modify (add_banner
            (Banner.mk banner_id (PostBanner.feature_id args)
               (PostBanner.content args) (PostBanner.is_active args)
               created updated)) ;;
  for_each banner_tags (fun tag => modify (append_tag banner_id tag)) ;;
  commit ;;
  ret (JSONResponse (JBannerId banner_id) HTTP_201_CREATED).

Definition when {A} (o : option A) (body : A -> Sess unit) : Sess unit :=
  match o with
  | Some a => body a
  | None => ret tt
  end.

Definition set_feature_id (v : Z) (b : Banner.t) : Banner.t :=
  Banner.mk (Banner.banner_id b) v (Banner.content b) (Banner.is_active b)
    (Banner.created_at b) (Banner.updated_at b).

Definition set_content (v : string) (b : Banner.t) : Banner.t :=
  Banner.mk (Banner.banner_id b) (Banner.feature_id b) v (Banner.is_active b)
    (Banner.created_at b) (Banner.updated_at b).

Definition set_is_active (v : bool) (b : Banner.t) : Banner.t :=
  Banner.mk (Banner.banner_id b) (Banner.feature_id b) (Banner.content b) v
    (Banner.created_at b) (Banner.updated_at b).

Definition set_updated_at (v : string) (b : Banner.t) : Banner.t :=
  Banner.mk (Banner.banner_id b) (Banner.feature_id b) (Banner.content b)
    (Banner.is_active b) (Banner.created_at b) v.

(** *** The collection [banner.tags] of a stored banner

    A stored banner comes with its tags loaded ([lazy="selectin"]).  The
    session writes a collection when it flushes, and what it writes is the
    difference between the collection as loaded or last flushed and the
    collection as it is then.  It flushes when it commits, and before it
    reads the store for a [session.get] that the identity map cannot
    answer. *)

(** The collection, by tag key: what it held when it was loaded or last
    flushed, what it holds now (one entry per [append]), and the tags that
    were added to the session since and are not written yet. *)
Record Collection := mkCollection {
  flushed : list Z;
  items : list Z;
  created : list Z }.

Definition mem (i : Z) (l : list Z) : bool := existsb (Z.eqb i) l.

(** The tags that [session.get] answers without reading the store.  The
    identity map holds the stored objects that are still referred to: the
    tags of the collection as loaded or last flushed, and the stored tags
    appended since; a tag that was only added to the session is not in it. *)
Definition in_identity_map (c : Collection) (tag_id : Z) : bool :=
  mem tag_id (flushed c)
  || (mem tag_id (items c) && negb (mem tag_id (created c))).

(** The flush of the collection: the associations of the banner with the
    tags that left the collection are deleted, then every entry whose tag
    the collection did not hold gets a row. *)
Definition flush_tags (banner_id : Z) (c : Collection) (db : Database)
  : Database :=
  append_all banner_id
    (map Tag.mk (filter (fun i => negb (mem i (flushed c))) (items c)))
    (mkDatabase (users db) (tags db) (banners db)
       (filter
          (fun bt =>
             negb ((BannerTag.banner_id bt =? banner_id)
                   && mem (BannerTag.tag_id bt) (flushed c)
                   && negb (mem (BannerTag.tag_id bt) (items c))))
          (banner_tags db))).

Definition after_flush (c : Collection) : Collection :=
  mkCollection (items c) (items c) [].

Fixpoint fold_each {A S} (l : list A) (s : S) (body : S -> A -> Sess S)
  : Sess S :=
  match l with
  | [] => ret s
  | x :: l' => s' <- body s x ;; fold_each l' s' body
  end.

(** One round of the loop of lines 121-126, [c] being [banner.tags]. *)
Definition append_to_tags (banner_id : Z) (c : Collection) (tag_id : Z)
  : Sess Collection :=
  c <- (if in_identity_map c tag_id
        then ret c
        else modify (flush_tags banner_id c) ;; ret (after_flush c)) ;;
  tag <- query (get_tag tag_id) ;;
  match tag with
  | Some tag =>
      ret (mkCollection (flushed c) (items c ++ [Tag.tag_id tag]) (created c))
  | None =>
      modify (add_tag (Tag.mk tag_id)) ;;
      ret (mkCollection (flushed c) (items c ++ [tag_id])
             (created c ++ [tag_id]))
  end.

(** [patch_banner] ([main.py], lines 113-136); [now] is the clock reading of
    line 133; [loaded] is [banner.tags] as it came with the banner, and
    line 120 empties the collection.  The commit of line 135 flushes. *)
Definition patch_banner (args : PatchBanner.t) (banner_id : Z) (now : string)
  : Sess Returned :=
  banner <- query (get_banner banner_id) ;;
  match banner with
  | None => raise (HTTPException HTTP_404_NOT_FOUND)
  | Some banner =>
      loaded <- query (fun db => map Tag.tag_id (Banner_tags db banner)) ;;
      banner_tags <-
        match PatchBanner.tag_ids args with
        | Some tag_ids =>
            fold_each tag_ids (mkCollection loaded [] [])
              (append_to_tags banner_id)
        | None => ret (mkCollection loaded loaded [])
        end ;;
      when (PatchBanner.feature_id args)
        (fun v => modify (update_banner banner_id (set_feature_id v))) ;;
      when (PatchBanner.content args)
        (fun v => modify (update_banner banner_id (set_content v))) ;;
      when (PatchBanner.is_active args)
        (fun v => modify (update_banner banner_id (set_is_active v))) ;;
      modify (update_banner banner_id (set_updated_at now)) ;;
      modify (flush_tags banner_id banner_tags) ;;
      commit ;;
      ret (Response HTTP_200_OK)
  end.

(** [delete_banner] ([main.py], lines 140-148): the [else] branch returns the
    number 404 as the handler's value. *)
Definition delete_banner (banner_id : Z) : Sess Returned :=
  banner <- query (get_banner banner_id) ;;
  match banner with
  | Some _ =>
      modify (delete banner_id) ;;
      commit ;;
      ret (Response HTTP_204_NO_CONTENT)
  | None => ret (Plain (JInt HTTP_404_NOT_FOUND))
  end.

(** ** Routes: the dependency runs in a session of its own, then the handler *)

Definition route (dependency : option string -> Sess unit)
    (handler : Sess Returned) (token : option string) (db : Database)
  : Outcome * Database :=
  match create_session (dependency token) db with
  | (inl e, db') => (inl e, db')
  | (inr _, db') => create_session handler db'
  end.

Definition GET_user_banner (token : option string) (tag_id feature_id : Z)
    (use_last_revision : bool) :=
  route user_token_verification
    (user_banner tag_id feature_id use_last_revision) token.

(** [offset] left out of the query string is 0. *)
Definition GET_banner (token : option string)
    (feature_id tag_id limit offset : option Z) :=
  route admin_token_verification
    (get_banners feature_id tag_id limit
       (match offset with Some o => o | None => 0 end)) token.

Definition POST_banner (token : option string) (args : PostBanner.t)
    (created updated : string) :=
  route admin_token_verification (post_banner args created updated) token.

Definition PATCH_banner (token : option string) (args : PatchBanner.t)
    (banner_id : Z) (now : string) :=
  route admin_token_verification (patch_banner args banner_id now) token.

Definition DELETE_banner (token : option string) (banner_id : Z) :=
  route admin_token_verification (delete_banner banner_id) token.

(** ** Test fixtures ([tests/banner_test.py]) *)

Definition add_user (u : User.t) (db : Database) : Database :=
  mkDatabase (users db ++ [u]) (tags db) (banners db) (banner_tags db).

Definition get_user (user_id : Z) (db : Database) : option User.t :=
  find (fun u => User.user_id u =? user_id) (users db).

Definition delete_user (user_id : Z) (db : Database) : Database :=
  mkDatabase
    (filter (fun u => negb (User.user_id u =? user_id)) (users db))
    (tags db) (banners db) (banner_tags db).

(** [_create_test_user] (lines 20-27): the flush gives the row the next
    free key. *)
Definition _create_test_user (username token : string) (admin : bool)
  : Sess (Z * string) :=
  user_id <- query (fun db => next_id (map User.user_id (users db))) ;;
  modify (add_user (User.mk user_id username token admin)) ;;
  commit ;;
  ret (user_id, token).

(** [_delete_test_user] (lines 30-35). *)
Definition _delete_test_user (user_id : Z) : Sess unit :=
  user <- query (get_user user_id) ;;
  match user with
  | Some _ => modify (delete_user user_id) ;; commit
  | None => ret tt
  end.

(** ** Vocabulary of the properties *)

Definition tag_exists (tag_id : Z) (db : Database) : bool :=
  existsb (fun t => Tag.tag_id t =? tag_id) (tags db).

(** Banner [banner_id] is associated with tag [tag_id]. *)
Definition associated (db : Database) (banner_id tag_id : Z) : bool :=
  existsb
    (fun bt =>
       (BannerTag.banner_id bt =? banner_id) && (BannerTag.tag_id bt =? tag_id))
    (banner_tags db).

(** The tag identifiers associated with a banner, one per association. *)
Definition tag_ids_of (db : Database) (banner_id : Z) : list Z :=
  map BannerTag.tag_id
    (filter (fun bt => BannerTag.banner_id bt =? banner_id) (banner_tags db)).

(** Number of association rows between a banner and a tag. *)
Definition associations (db : Database) (banner_id tag_id : Z) : nat :=
  length
    (filter
       (fun bt =>
          (BannerTag.banner_id bt =? banner_id)
          && (BannerTag.tag_id bt =? tag_id))
       (banner_tags db)).

(** An active banner that matches [(feature_id, tag_id)]. *)
Definition matches (db : Database) (feature_id tag_id : Z) (b : Banner.t)
  : bool :=
  Banner.is_active b
  && (Banner.feature_id b =? feature_id)
  && associated db (Banner.banner_id b) tag_id.

Definition matching (db : Database) (feature_id tag_id : Z) : list Banner.t :=
  filter (matches db feature_id tag_id) (banners db).

(** The first row of the query of [user_banner]. *)
Definition first_row (db : Database) (feature_id tag_id : Z)
  : option Banner.t :=
  hd_error (select_banner_join_tags (resolve_clause feature_id tag_id) db).

(** A banner with the lowest key among the matching ones. *)
Definition lowest_match (db : Database) (feature_id tag_id : Z)
    (b : Banner.t) : Prop :=
  In b (matching db feature_id tag_id)
  /\ forall b', In b' (matching db feature_id tag_id) ->
                Banner.banner_id b <= Banner.banner_id b'.

(** The association table holds its rows in ascending order of the banner
    key. *)
Definition associations_ascending (db : Database) : Prop :=
  StronglySorted Z.le (map BannerTag.banner_id (banner_tags db)).

(** The foreign key of [banner_tags.banner_id]: an association row refers to
    a row of [banners]. *)
Definition banner_key_ok (db : Database) : Prop :=
  forall bt, In bt (banner_tags db) ->
             In (BannerTag.banner_id bt) (map Banner.banner_id (banners db)).

(** The foreign key of [banner_tags.tag_id]: an association row refers to a
    registered tag. *)
Definition tag_key_ok (db : Database) : Prop :=
  forall bt, In bt (banner_tags db) ->
             tag_exists (BannerTag.tag_id bt) db = true.

Definition foreign_keys_ok (db : Database) : Prop :=
  banner_key_ok db /\ tag_key_ok db.

(** The primary keys: no two rows of a table carry the same key. *)
Definition primary_keys_ok (db : Database) : Prop :=
  NoDup (map Tag.tag_id (tags db))
  /\ NoDup (map Banner.banner_id (banners db))
  /\ NoDup (map BannerTag.banner_tag_id (banner_tags db)).

(** ** The tag loops as functions on the store *)

(** Effect of [ensure_tag]: the tag found or created, and the store. *)
Definition ensure (tag_id : Z) (db : Database) : Tag.t * Database :=
  match get_tag tag_id db with
  | Some tag => (tag, db)
  | None => (Tag.mk tag_id, add_tag (Tag.mk tag_id) db)
  end.

(** Effect of one round of the loop of lines 121-126 on the collection and
    the store. *)
Definition retag_step (banner_id : Z) (s : Collection * Database)
    (tag_id : Z) : Collection * Database :=
  let c := if in_identity_map (fst s) tag_id then fst s else after_flush (fst s) in
  let db := if in_identity_map (fst s) tag_id
            then snd s else flush_tags banner_id (fst s) (snd s) in
  match get_tag tag_id db with
  | Some tag =>
      (mkCollection (flushed c) (items c ++ [Tag.tag_id tag]) (created c), db)
  | None =>
      (mkCollection (flushed c) (items c ++ [tag_id]) (created c ++ [tag_id]),
       add_tag (Tag.mk tag_id) db)
  end.

Definition retag_loop (banner_id : Z) (tag_ids : list Z)
    (s : Collection * Database) : Collection * Database :=
  fold_left (retag_step banner_id) tag_ids s.

(** The tags that a banner of key [banner_id] is loaded with. *)
Definition loaded_tags (db : Database) (banner_id : Z) : list Z :=
  map Tag.tag_id
    (flat_map
       (fun bt =>
          if BannerTag.banner_id bt =? banner_id
          then filter (fun t => Tag.tag_id t =? BannerTag.tag_id bt) (tags db)
          else [])
       (banner_tags db)).

(** What holds of the collection and the store of a patch of [banner_id]
    that started on the store [db0], when the loop has gone through the
    identifiers [done]: the loop wrote no user and no banner and only added
    tags; the collection holds the identifiers gone through; the other
    banners have the associations they had; the banner is associated with
    the tags the collection held at the last flush, and with no other tag,
    but for associations of [db0] with a tag that [db0] did not register,
    which the banner was not loaded with; and the registry holds what it
    held and the identifiers gone through. *)
Definition collection_ok (banner_id : Z) (db0 : Database) (done : list Z)
    (s : Collection * Database) : Prop :=
  users (snd s) = users db0
  /\ banners (snd s) = banners db0
  /\ (exists added, tags (snd s) = tags db0 ++ added)
  /\ items (fst s) = done
  /\ (forall other, other <> banner_id ->
                    tag_ids_of (snd s) other = tag_ids_of db0 other)
  /\ (forall t, In t (flushed (fst s)) ->
                associated (snd s) banner_id t = true)
  /\ (forall t, associated (snd s) banner_id t = true ->
                In t (flushed (fst s))
                \/ (associated db0 banner_id t = true
                    /\ tag_exists t db0 = false))
  /\ (forall t, In t done -> tag_exists t (snd s) = true)
  /\ (forall t, tag_exists t (snd s) = true ->
                tag_exists t db0 = true \/ In t done).

(** The loop of lines 93-98: the list [banner.tags] and the store. *)
Fixpoint ensure_all (tag_ids : list Z) (db : Database)
  : list Tag.t * Database :=
  match tag_ids with
  | [] => ([], db)
  | i :: l =>
      let r := ensure_all l (snd (ensure i db)) in
      (fst (ensure i db) :: fst r, snd r)
  end.

(** ** The handlers' work as functions on the store *)

Definition with_field {A S} (o : option A) (f : A -> S -> S) (s : S) : S :=
  match o with
  | Some a => f a s
  | None => s
  end.

Definition or_else {A} (o : option A) (d : A) : A :=
  match o with
  | Some a => a
  | None => d
  end.

(** The row of a banner after lines 127-133. *)
Definition patched (args : PatchBanner.t) (now : string) (b : Banner.t)
  : Banner.t :=
  set_updated_at now
    (with_field (PatchBanner.is_active args) set_is_active
       (with_field (PatchBanner.content args) set_content
          (with_field (PatchBanner.feature_id args) set_feature_id b))).

(** The row of the banner table after a patch of [banner_id]. *)
Definition patched_row (args : PatchBanner.t) (banner_id : Z) (now : string)
    (b : Banner.t) : Banner.t :=
  if Banner.banner_id b =? banner_id then patched args now b else b.

(** The store after lines 119-126 and the flush of the collection. *)
Definition retagged (args : PatchBanner.t) (banner_id : Z) (db : Database)
  : Database :=
  with_field (PatchBanner.tag_ids args)
    (fun l d =>
       let r := retag_loop banner_id l
                  (mkCollection (loaded_tags d banner_id) [] [], d) in
       flush_tags banner_id (fst r) (snd r))
    db.

(** The store after lines 119-135. *)
Definition patched_store (args : PatchBanner.t) (banner_id : Z) (now : string)
    (db : Database) : Database :=
  update_banner banner_id (set_updated_at now)
    (with_field (PatchBanner.is_active args)
       (fun v => update_banner banner_id (set_is_active v))
       (with_field (PatchBanner.content args)
          (fun v => update_banner banner_id (set_content v))
          (with_field (PatchBanner.feature_id args)
             (fun v => update_banner banner_id (set_feature_id v))
             (retagged args banner_id db)))).

(** The store after lines 90-101. *)
Definition posted_store (args : PostBanner.t) (created updated : string)
    (db : Database) : Database :=
  let r := ensure_all (PostBanner.tag_ids args) db in
  let banner_id := next_id (map Banner.banner_id (banners (snd r))) in
  append_all banner_id (fst r)
    (add_banner
       (Banner.mk banner_id (PostBanner.feature_id args)
          (PostBanner.content args) (PostBanner.is_active args)
          created updated)
       (snd r)).

(** The key and the row that a create writes. *)
Definition posted_key (db : Database) : Z :=
  next_id (map Banner.banner_id (banners db)).

Definition posted_row (args : PostBanner.t) (created updated : string)
    (db : Database) : Banner.t :=
  Banner.mk (posted_key db) (PostBanner.feature_id args)
    (PostBanner.content args) (PostBanner.is_active args) created updated.

(** The rows of lines 64-71, before the slice. *)
Definition filtered (db : Database) (feature_id tag_id : option Z)
  : Raised + list Banner.t :=
  match tag_id, with_field tag_id (fun i _ => get_tag i db) None with
  | Some _, None => inr []
  | _, _ =>
      match py_and (feature_clause feature_id) (tag_clause tag_id) with
      | inl e => inl e
      | inr clause => inr (select_banner_join_tags clause db)
      end
  end.

(** The slice of lines 72-73. *)
Definition sliced {A} (rows : list A) (limit : option Z) (offset : Z) : list A :=
  match limit with
  | Some limit => py_slice rows offset (offset + limit)
  | None => rows
  end.

(** [_create_banners] (lines 45-62), each request with the two clock
    readings its [POST] takes; [None] is a failed assertion. *)
Fixpoint _create_banners (post_banners : list (PostBanner.t * string * string))
    (admin_token : string) (db : Database) : option (list Z) * Database :=
  match post_banners with
  | [] => (Some [], db)
  | (post_banner, created, updated) :: rest =>
      let '(response, db1) :=
        POST_banner (Some admin_token) post_banner created updated db in
      if http_status response =? 201
      then match response with
           | inr (JSONResponse (JBannerId banner_id) _) =>
               let '(banner_ids, db2) := _create_banners rest admin_token db1 in
               (option_map (cons banner_id) banner_ids, db2)
           | _ => (None, db1)
           end
      else (None, db1)
  end.

(** [_delete_banners] (lines 65-72); [false] is a failed assertion. *)
Fixpoint _delete_banners (banner_ids : list Z) (admin_token : string)
    (db : Database) : bool * Database :=
  match banner_ids with
  | [] => (true, db)
  | banner_id :: rest =>
      let '(response, db1) := DELETE_banner (Some admin_token) banner_id db in
      if http_status response =? 204
      then _delete_banners rest admin_token db1
      else (false, db1)
  end.

(** The stores and the keys of a run of creates, and the store of a run of
    deletes. *)
Fixpoint posted_all (posts : list (PostBanner.t * string * string))
    (db : Database) : Database :=
  match posts with
  | [] => db
  | (args, created, updated) :: rest =>
      posted_all rest (posted_store args created updated db)
  end.

Fixpoint posted_keys (posts : list (PostBanner.t * string * string))
    (db : Database) : list Z :=
  match posts with
  | [] => []
  | (args, created, updated) :: rest =>
      posted_key db :: posted_keys rest (posted_store args created updated db)
  end.

Definition deleted_all (banner_ids : list Z) (db : Database) : Database :=
  fold_left (fun d i => delete i d) banner_ids db.

(** A token of an administrator. *)
Definition admin_token_of (db : Database) (token : string) : Prop :=
  exists user rest,
    select_user_where_token token db = user :: rest /\ User.admin user = true.

(** ** Admin-only requests and the stores that requests build *)

Inductive AdminRequest :=
| ListBanners (feature_id tag_id limit offset : option Z)
| CreateBanner (args : PostBanner.t) (created updated : string)
| PatchBannerById (args : PatchBanner.t) (banner_id : Z) (now : string)
| DeleteBanner (banner_id : Z).

Definition admin_handler (r : AdminRequest) : Sess Returned :=
  match r with
  | ListBanners feature_id tag_id limit offset =>
      get_banners feature_id tag_id limit (or_else offset 0)
  | CreateBanner args created updated => post_banner args created updated
  | PatchBannerById args banner_id now => patch_banner args banner_id now
  | DeleteBanner banner_id => delete_banner banner_id
  end.

Definition admin_route (r : AdminRequest) (token : option string)
  : Database -> Outcome * Database :=
  match r with
  | ListBanners feature_id tag_id limit offset =>
      GET_banner token feature_id tag_id limit offset
  | CreateBanner args created updated => POST_banner token args created updated
  | PatchBannerById args banner_id now => PATCH_banner token args banner_id now
  | DeleteBanner banner_id => DELETE_banner token banner_id
  end.

(** Stores that requests build from a store that has only users. *)
Inductive reachable : Database -> Prop :=
| reachable_init (us : list User.t) : reachable (mkDatabase us [] [] [])
| reachable_admin (db : Database) (r : AdminRequest) (token : option string) :
    reachable db -> reachable (snd (admin_route r token db))
| reachable_resolve (db : Database) (token : option string)
    (tag_id feature_id : Z) (use_last_revision : bool) :
    reachable db ->
    reachable
      (snd (GET_user_banner token tag_id feature_id use_last_revision db)).

(** ** Sample users, requests and stores *)

Definition admin_user : User.t := User.mk 1 "admin" "admin_token" true.

Definition test_user : User.t := User.mk 2 "test_user" "test_token" false.

Definition db_users : Database := mkDatabase [admin_user; test_user] [] [] [].

(** The character that delimits a JSON string. *)
Definition quote : string :=
  String.String (Ascii.ascii_of_nat 34) String.EmptyString.

(** The content of [DEFAULT_BANNER] (line 15): the JSON text of an object
    with the key [test_banner] and the value [smth]. *)
Definition DEFAULT_CONTENT : string :=
  String.concat quote ["{"; "test_banner"; ": "; "smth"; "}"]%string.

Definition DEFAULT_BANNER : PostBanner.t :=
  PostBanner.mk [1; 2; 3] 1 DEFAULT_CONTENT true.

(** The store of the tests: one banner created by the administrator. *)
Definition db_default : Database :=
  snd (POST_banner (Some "admin_token"%string) DEFAULT_BANNER "t0" "t0" db_users).

(** The banner of [db_default]. *)
Definition default_row : Banner.t := Banner.mk 1 1 DEFAULT_CONTENT true "t0" "t0".

Definition default_dict : BannerDict.t :=
  BannerDict.mk 1 [1; 2; 3] 1 DEFAULT_CONTENT true "t0" "t0".

(** [db_default] after its banner was deleted. *)
Definition db_deleted : Database :=
  snd (DELETE_banner (Some "admin_token"%string) 1 db_default).

(** Two active banners of feature 1 under tag 1, the store holding the row
    of banner 2 before the row of banner 1. *)
Definition db_unordered : Database :=
  mkDatabase [admin_user; test_user] [Tag.mk 1]
    [Banner.mk 2 1 "two" true "t0" "t0"; Banner.mk 1 1 "one" true "t0" "t0"]
    [BannerTag.mk 1 1 1; BannerTag.mk 2 2 1].

(** The same two banners, rows in key order. *)
Definition db_ordered : Database :=
  mkDatabase [admin_user; test_user] [Tag.mk 1]
    [Banner.mk 1 1 "one" true "t0" "t0"; Banner.mk 2 1 "two" true "t0" "t0"]
    [BannerTag.mk 1 1 1; BannerTag.mk 2 2 1].

(** Three banners of feature 1 under tag 1. *)
Definition db_three : Database :=
  mkDatabase [admin_user; test_user] [Tag.mk 1]
    [Banner.mk 1 1 "one" true "t0" "t0"; Banner.mk 2 1 "two" true "t0" "t0";
     Banner.mk 3 1 "three" true "t0" "t0"]
    [BannerTag.mk 1 1 1; BannerTag.mk 2 2 1; BannerTag.mk 3 3 1].

(** A banner created without tags. *)
Definition post_untagged : PostBanner.t := PostBanner.mk [] 1 "bare" true.

Definition db_untagged : Database :=
  snd (POST_banner (Some "admin_token"%string) post_untagged "t0" "t0" db_users).

(** A request that names tag 1 twice. *)
Definition post_repeated : PostBanner.t := PostBanner.mk [1; 1] 1 "c" true.

Definition db_repeated : Database :=
  snd (create_session (post_banner post_repeated "t0" "t0") db_users).

Definition patch_content_only : PatchBanner.t :=
  PatchBanner.mk None None (Some "X"%string) None.

Definition patch_tags_only : PatchBanner.t :=
  PatchBanner.mk (Some [9]) None None None.

Definition patch_nothing : PatchBanner.t :=
  PatchBanner.mk None None None None.

Definition patch_repeated : PatchBanner.t :=
  PatchBanner.mk (Some [9; 9]) None None None.

(** A request that names the tags 3 and 1 of the default banner, in that
    order. *)
Definition patch_reordered : PatchBanner.t :=
  PatchBanner.mk (Some [3; 1]) None None None.

(** Two banners of feature 1 created in turn, the first under tag 5 and the
    second under tag 1; then the first is given tag 1 in place of tag 5. *)
Definition post_one : PostBanner.t := PostBanner.mk [5] 1 "one" true.

Definition post_two : PostBanner.t := PostBanner.mk [1] 1 "two" true.

Definition patch_to_tag_1 : PatchBanner.t :=
  PatchBanner.mk (Some [1]) None None None.

Definition db_retagged : Database :=
  snd (PATCH_banner (Some "admin_token"%string) patch_to_tag_1 1 "t2"
         (snd (POST_banner (Some "admin_token"%string) post_two "t1" "t1"
                 (snd (POST_banner (Some "admin_token"%string) post_one
                         "t0" "t0" db_users))))).

(** [db_default] with a second banner, created without tags. *)
Definition db_mixed : Database :=
  snd (POST_banner (Some "admin_token"%string) post_untagged "t1" "t1" db_default).

(** ** Tactics *)

(** Unfolds the plumbing of a session down to the store operations. *)
Ltac run_session :=
  unfold create_session, when, bind, query, modify, commit, lift, raise, ret;
  cbn [current committed].

(** * Properties *)

(** ** Resolution *)

(** The rows of the join: a banner comes once for every association row of
    its key whose tag is registered, when that banner and that tag satisfy
    the clause. *)
Lemma joined_rows_In (c : Clause) (db : Database) (bt : BannerTag.t)
    (b : Banner.t) :
  In b (joined_rows c db bt)
  <-> In b (banners db)
      /\ BannerTag.banner_id bt = Banner.banner_id b
      /\ exists t,
          In t (tags db)
          /\ Tag.tag_id t = BannerTag.tag_id bt
          /\ holds c b t = true.
Proof.
  unfold joined_rows. rewrite in_flat_map. split.
  - intros (x & Hx & Hin).
    destruct (Banner.banner_id x =? BannerTag.banner_id bt) eqn:Eb;
      [|contradiction].
    rewrite in_flat_map in Hin. destruct Hin as (t & Ht & Hin).
    destruct ((Tag.tag_id t =? BannerTag.tag_id bt) && holds c x t) eqn:Ec;
      [|contradiction].
    destruct Hin as [<-|[]].
    apply andb_prop in Ec. destruct Ec as [Et Hc].
    apply Z.eqb_eq in Eb, Et.
    split; [assumption|]. split; [congruence|].
    exists t. repeat split; assumption.
  - intros (Hb & Eb & t & Ht & Et & Hc).
    exists b. split; [assumption|].
    replace (Banner.banner_id b =? BannerTag.banner_id bt) with true
      by (symmetry; apply Z.eqb_eq; congruence).
    apply in_flat_map. exists t. split; [assumption|].
    replace (Tag.tag_id t =? BannerTag.tag_id bt) with true
      by (symmetry; apply Z.eqb_eq; congruence).
    rewrite Hc. left. reflexivity.
Qed.

Lemma select_banner_join_tags_In (c : Clause) (db : Database) (b : Banner.t) :
  In b (select_banner_join_tags c db)
  <-> In b (banners db)
      /\ exists bt t,
          In bt (banner_tags db) /\ In t (tags db)
          /\ BannerTag.banner_id bt = Banner.banner_id b
          /\ Tag.tag_id t = BannerTag.tag_id bt
          /\ holds c b t = true.
Proof.
  unfold select_banner_join_tags. rewrite in_flat_map. split.
  - intros (bt & Hbt & Hin). apply joined_rows_In in Hin.
    destruct Hin as (Hb & Eb & t & Ht & Et & Hc).
    split; [assumption|]. exists bt, t. repeat split; assumption.
  - intros (Hb & bt & t & Hbt & Ht & Eb & Et & Hc).
    exists bt. split; [assumption|]. apply joined_rows_In.
    split; [assumption|]. split; [assumption|].
    exists t. repeat split; assumption.
Qed.

(** Where the first row of a [flat_map] comes from. *)
Lemma hd_flat_map (A B : Type) (f : A -> list B) (l : list A) (x : B) :
  hd_error (flat_map f l) = Some x ->
  exists before a after,
    l = before ++ a :: after
    /\ (forall a', In a' before -> f a' = [])
    /\ hd_error (f a) = Some x.
Proof.
  induction l as [|a l IH]; simpl; [discriminate|].
  destruct (f a) as [|y r] eqn:Ea.
  - intros Hh. destruct (IH Hh) as (before & a0 & after & -> & Hb & Ha).
    exists (a :: before), a0, after. repeat split; [|assumption].
    intros a' [<-|Hin]; [assumption|apply Hb; assumption].
  - simpl. intros Hh. exists [], a, l. repeat split.
    + intros a' [].
    + rewrite Ea. exact Hh.
Qed.

Lemma hd_error_In (A : Type) (l : list A) (x : A) :
  hd_error l = Some x -> In x l.
Proof.
  destruct l as [|y r]; simpl; [discriminate|].
  intros Hh. injection Hh as ->. left. reflexivity.
Qed.

Section Resolve.
Variables (db : Database) (feature_id tag_id : Z).

Lemma get_tag_exists :
  tag_exists tag_id db = true <-> get_tag tag_id db <> None.
Proof.
  unfold tag_exists, get_tag. induction (tags db) as [|t l IH]; simpl.
  - split; [discriminate|congruence].
  - destruct (Tag.tag_id t =? tag_id); simpl; [|exact IH].
    split; [discriminate|reflexivity].
Qed.

Lemma resolve_clause_holds (b : Banner.t) (t : Tag.t) :
  holds (resolve_clause feature_id tag_id) b t = true
  <-> Banner.feature_id b = feature_id
      /\ Tag.tag_id t = tag_id
      /\ Banner.is_active b = true.
Proof.
  simpl. rewrite !andb_true_iff, !Z.eqb_eq. tauto.
Qed.

(** The banners of the rows of the resolution query are the matching
    banners, and there are no rows when the tag is not registered. *)
Lemma select_matching (b : Banner.t) :
  In b (select_banner_join_tags (resolve_clause feature_id tag_id) db)
  <-> In b (matching db feature_id tag_id) /\ tag_exists tag_id db = true.
Proof.
  rewrite select_banner_join_tags_In. unfold matching, matches, associated, tag_exists.
  rewrite filter_In, !andb_true_iff, Z.eqb_eq, !existsb_exists. split.
  - intros (Hb & bt & t & Hbt & Ht & Eb & Et & Hc).
    apply resolve_clause_holds in Hc. destruct Hc as (Ef & Etag & Ha).
    repeat split; try assumption.
    + exists bt. split; [assumption|].
      rewrite andb_true_iff, !Z.eqb_eq. split; congruence.
    + exists t. split; [assumption|]. apply Z.eqb_eq. assumption.
  - intros ((Hb & (Ha & Ef) & bt & Hbt & Ebt) & t & Ht & Et).
    rewrite andb_true_iff, !Z.eqb_eq in Ebt. destruct Ebt as [Eb Ebt].
    apply Z.eqb_eq in Et.
    split; [assumption|]. exists bt, t.
    repeat split; try assumption; try congruence.
    apply resolve_clause_holds. repeat split; assumption.
Qed.

Lemma first_row_In (first : Banner.t) :
  first_row db feature_id tag_id = Some first ->
  In first (matching db feature_id tag_id) /\ tag_exists tag_id db = true.
Proof.
  unfold first_row. intros Hh. apply select_matching.
  apply hd_error_In. assumption.
Qed.

Lemma first_row_None :
  first_row db feature_id tag_id = None ->
  tag_exists tag_id db = true ->
  matching db feature_id tag_id = [].
Proof.
  unfold first_row. intros Hh Ht.
  destruct (matching db feature_id tag_id) as [|b rest] eqn:Em; [reflexivity|].
  assert (Hin : In b (select_banner_join_tags
                        (resolve_clause feature_id tag_id) db)).
  { apply select_matching. split; [|assumption]. rewrite Em. left. reflexivity. }
  destruct (select_banner_join_tags _ db); [contradiction|discriminate].
Qed.

(** What [user_banner] answers, in terms of the first row of its query. *)
Lemma user_banner_eq (use_last_revision : bool) :
  create_session (user_banner tag_id feature_id use_last_revision) db
  = (match first_row db feature_id tag_id with
     | Some first =>
         inr (JSONResponse (JStr (Banner.content first)) HTTP_200_OK)
     | None => inl (HTTPException HTTP_404_NOT_FOUND)
     end,
     db).
Proof.
  unfold user_banner. run_session.
  destruct (get_tag tag_id db) eqn:Eg; cbn [current committed].
  - unfold first_row.
    destruct (select_banner_join_tags _ db); reflexivity.
  - destruct (first_row db feature_id tag_id) eqn:Ef; [|reflexivity].
    apply first_row_In in Ef. destruct Ef as [_ Ht].
    apply get_tag_exists in Ht. congruence.
Qed.

(** What [user_banner] returns is the content of a matching banner, and
    it returns when there is one and the tag is registered. *)
Lemma user_banner_returns (use_last_revision : bool) (r : Returned) :
  fst (create_session (user_banner tag_id feature_id use_last_revision) db)
  = inr r ->
  exists b,
    r = JSONResponse (JStr (Banner.content b)) HTTP_200_OK
    /\ In b (matching db feature_id tag_id)
    /\ tag_exists tag_id db = true.
Proof.
  rewrite user_banner_eq. cbn [fst].
  destruct (first_row db feature_id tag_id) as [first|] eqn:Ef; [|discriminate].
  intros Hr. injection Hr as <-. exists first.
  split; [reflexivity|]. apply first_row_In. assumption.
Qed.

Lemma user_banner_answers (use_last_revision : bool) (b : Banner.t) :
  In b (matching db feature_id tag_id) ->
  tag_exists tag_id db = true ->
  exists first,
    In first (matching db feature_id tag_id)
    /\ create_session (user_banner tag_id feature_id use_last_revision) db
       = (inr (JSONResponse (JStr (Banner.content first)) HTTP_200_OK), db).
Proof.
  intros Hin Ht. rewrite user_banner_eq.
  destruct (first_row db feature_id tag_id) as [first|] eqn:Ef.
  - exists first. split; [|reflexivity]. apply first_row_In. assumption.
  - apply first_row_None in Ef; [|assumption]. rewrite Ef in Hin. contradiction.
Qed.
End Resolve.

(** C1. [user_banner] answers 200 with the content of the matching banner
    when the tag is registered and exactly one active banner has the feature
    and is associated with the tag; it raises 404 when the tag is not in the
    registry, and when no active banner matches. *)
Theorem user_banner_resolves
    (db : Database) (feature_id tag_id : Z) (use_last_revision : bool) :
  (forall b,
      tag_exists tag_id db = true ->
      matching db feature_id tag_id = [b] ->
      create_session (user_banner tag_id feature_id use_last_revision) db
      = (inr (JSONResponse (JStr (Banner.content b)) HTTP_200_OK), db))
  /\ (tag_exists tag_id db = false ->
      create_session (user_banner tag_id feature_id use_last_revision) db
      = (inl (HTTPException HTTP_404_NOT_FOUND), db))
  /\ (matching db feature_id tag_id = [] ->
      create_session (user_banner tag_id feature_id use_last_revision) db
      = (inl (HTTPException HTTP_404_NOT_FOUND), db)).
Proof.
  rewrite user_banner_eq.
  destruct (first_row db feature_id tag_id) as [first|] eqn:Ef.
  - apply first_row_In in Ef. destruct Ef as [Hin Ht]. split; [|split].
    + intros b _ Hm. rewrite Hm in Hin. destruct Hin as [<-|[]]. reflexivity.
    + intros Hf. congruence.
    + intros Hm. rewrite Hm in Hin. contradiction.
  - split; [|split]; [|reflexivity|reflexivity].
    intros b Ht Hm. apply first_row_None in Ef; [|assumption]. congruence.
Qed.

Lemma user_banner_resolves_witness :
  create_session (user_banner 1 1 true) db_default
  = (inr (JSONResponse (JStr DEFAULT_CONTENT) HTTP_200_OK), db_default)
  /\ create_session (user_banner 4 1 true) db_default
     = (inl (HTTPException HTTP_404_NOT_FOUND), db_default)
  /\ create_session (user_banner 1 2 true) db_default
     = (inl (HTTPException HTTP_404_NOT_FOUND), db_default).
Proof.
  split; [|split].
  - apply (proj1 (user_banner_resolves db_default 1 1 true)
             (Banner.mk 1 1 DEFAULT_CONTENT true "t0" "t0")); reflexivity.
  - apply (proj1 (proj2 (user_banner_resolves db_default 1 4 true))); reflexivity.
  - apply (proj2 (proj2 (user_banner_resolves db_default 2 1 true))); reflexivity.
Defined.

(** ** Several matching banners *)

Lemma sorted_after (before : list Z) (x : Z) (after : list Z) (y : Z) :
  StronglySorted Z.le (before ++ x :: after) -> In y after -> x <= y.
Proof.
  induction before as [|a before IH]; simpl; intros Hs Hin.
  - inversion Hs as [|a l Hs' Hall]; subst.
    rewrite Forall_forall in Hall. apply Hall. assumption.
  - inversion Hs as [|a' l Hs' Hall]; subst. apply IH; assumption.
Qed.

(** The association row that gives the first row of the resolution query:
    it is the first one, in the order of the association table, that ties
    a matching banner to the tag. *)
Lemma first_row_association (db : Database) (feature_id tag_id : Z)
    (first : Banner.t) :
  first_row db feature_id tag_id = Some first ->
  exists before bt after,
    banner_tags db = before ++ bt :: after
    /\ BannerTag.banner_id bt = Banner.banner_id first
    /\ BannerTag.tag_id bt = tag_id
    /\ forall bt' b',
         In bt' before -> In b' (matching db feature_id tag_id) ->
         BannerTag.tag_id bt' = tag_id ->
         BannerTag.banner_id bt' <> Banner.banner_id b'.
Proof.
  intros Hf. pose proof (first_row_In _ _ _ _ Hf) as [_ Ht].
  unfold first_row, select_banner_join_tags in Hf.
  apply hd_flat_map in Hf.
  destruct Hf as (before & bt & after & Hrows & Hbefore & Hh).
  exists before, bt, after. apply hd_error_In in Hh.
  apply joined_rows_In in Hh. destruct Hh as (_ & Eb & t & _ & Et & Hc).
  apply resolve_clause_holds in Hc. destruct Hc as (_ & Etag & _).
  split; [assumption|]. split; [assumption|]. split; [congruence|].
  intros bt' b' Hin Hm Etag' Eb'.
  assert (Hrow : In b' (joined_rows (resolve_clause feature_id tag_id) db bt')).
  { apply filter_In in Hm. destruct Hm as [Hb' Hm].
    unfold matches in Hm. rewrite !andb_true_iff, Z.eqb_eq in Hm.
    destruct Hm as [[Ha Ef] _].
    unfold tag_exists in Ht. apply existsb_exists in Ht.
    destruct Ht as (t' & Ht' & Et'). apply Z.eqb_eq in Et'.
    apply joined_rows_In. split; [assumption|]. split; [assumption|].
    exists t'. split; [assumption|]. split; [congruence|].
    apply resolve_clause_holds. repeat split; assumption. }
  rewrite (Hbefore bt' Hin) in Hrow. contradiction.
Qed.

(** C2, as the code has it.  With two or more active banners matching,
    [user_banner] answers 200 with the content of one of them: the one
    whose association with the tag comes first in the association table.
    That banner has the lowest key among the matching ones whenever the
    association table holds its rows in ascending order of the banner
    key. *)
Theorem user_banner_first_match
    (db : Database) (feature_id tag_id : Z) (use_last_revision : bool) :
  tag_exists tag_id db = true ->
  (2 <= length (matching db feature_id tag_id))%nat ->
  exists first,
    In first (matching db feature_id tag_id)
    /\ create_session (user_banner tag_id feature_id use_last_revision) db
       = (inr (JSONResponse (JStr (Banner.content first)) HTTP_200_OK), db)
    /\ (exists before bt after,
          banner_tags db = before ++ bt :: after
          /\ BannerTag.banner_id bt = Banner.banner_id first
          /\ BannerTag.tag_id bt = tag_id
          /\ forall bt' b',
               In bt' before -> In b' (matching db feature_id tag_id) ->
               BannerTag.tag_id bt' = tag_id ->
               BannerTag.banner_id bt' <> Banner.banner_id b')
    /\ (associations_ascending db -> lowest_match db feature_id tag_id first).
Proof.
  intros Ht Hlen. rewrite user_banner_eq.
  destruct (first_row db feature_id tag_id) as [first|] eqn:Ef.
  2:{ apply first_row_None in Ef; [|assumption].
      rewrite Ef in Hlen. simpl in Hlen. lia. }
  pose proof (first_row_In _ _ _ _ Ef) as [Hin _].
  pose proof (first_row_association _ _ _ _ Ef) as Hrow.
  exists first. split; [assumption|]. split; [reflexivity|].
  split; [exact Hrow|].
  destruct Hrow as (before & bt & after & Hrows & Eb & Et & Hbefore).
  intros Hs. split; [assumption|]. intros b' Hm.
  pose proof Hm as Hm'. apply filter_In in Hm'. destruct Hm' as [_ Hm'].
  unfold matches in Hm'. apply andb_prop in Hm'. destruct Hm' as [_ Ha].
  unfold associated in Ha. apply existsb_exists in Ha.
  destruct Ha as (bt' & Hbt' & Ebt').
  rewrite andb_true_iff, !Z.eqb_eq in Ebt'. destruct Ebt' as [Eb' Et'].
  rewrite Hrows in Hbt'. apply in_app_or in Hbt'.
  destruct Hbt' as [Hbt'|[<-|Hbt']].
  - exfalso. exact (Hbefore bt' b' Hbt' Hm Et' Eb').
  - lia.
  - unfold associations_ascending in Hs. rewrite Hrows, map_app in Hs.
    cbn [map] in Hs.
    pose proof (sorted_after _ _ _ (BannerTag.banner_id bt') Hs
                  (in_map _ _ _ Hbt')). lia.
Qed.

Lemma user_banner_first_match_witness :
  exists first,
    In first (matching db_ordered 1 1)
    /\ create_session (user_banner 1 1 true) db_ordered
       = (inr (JSONResponse (JStr (Banner.content first)) HTTP_200_OK), db_ordered)
    /\ (exists before bt after,
          banner_tags db_ordered = before ++ bt :: after
          /\ BannerTag.banner_id bt = Banner.banner_id first
          /\ BannerTag.tag_id bt = 1
          /\ forall bt' b',
               In bt' before -> In b' (matching db_ordered 1 1) ->
               BannerTag.tag_id bt' = 1 ->
               BannerTag.banner_id bt' <> Banner.banner_id b')
    /\ (associations_ascending db_ordered -> lowest_match db_ordered 1 1 first).
Proof.
  apply (user_banner_first_match db_ordered 1 1 true).
  - reflexivity.
  - vm_compute. lia.
Defined.

(** C2, as stated, fails on a store built by three requests of an
    administrator: banner 1 is created under tag 5, banner 2 under tag 1,
    and banner 1 is then patched to carry tag 1.  Both banners are active
    and match (1, 1), banner 1 has the lowest key, and the answer carries
    the content of banner 2, whose association with tag 1 is the older
    one. *)
Lemma user_banner_lowest_counterexample :
  reachable db_retagged
  /\ map Banner.banner_id (banners db_retagged) = [1; 2]
  /\ tag_exists 1 db_retagged = true
  /\ (2 <= length (matching db_retagged 1 1))%nat
  /\ lowest_match db_retagged 1 1 (Banner.mk 1 1 "one" true "t0" "t2")
  /\ fst (create_session (user_banner 1 1 true) db_retagged)
     = inr (JSONResponse (JStr "two") HTTP_200_OK)
  /\ fst (create_session (user_banner 1 1 true) db_retagged)
     <> inr (JSONResponse (JStr "one") HTTP_200_OK).
Proof.
  split; [|repeat split].
  - apply (reachable_admin _ (PatchBannerById patch_to_tag_1 1 "t2")
             (Some "admin_token"%string)).
    apply (reachable_admin _ (CreateBanner post_two "t1" "t1")
             (Some "admin_token"%string)).
    apply (reachable_admin _ (CreateBanner post_one "t0" "t0")
             (Some "admin_token"%string)).
    apply reachable_init.
  - vm_compute. lia.
  - vm_compute. left. reflexivity.
  - vm_compute. intros b' [<-|[<-|[]]]; vm_compute; discriminate.
  - vm_compute. discriminate.
Qed.

(** The order of the banner rows plays no part: two stores with the same
    associations and the same banners, held in different orders, give the
    same answer. *)
Lemma resolution_ignores_banner_order :
  Permutation (banners db_ordered) (banners db_unordered)
  /\ tags db_ordered = tags db_unordered
  /\ banner_tags db_ordered = banner_tags db_unordered
  /\ fst (create_session (user_banner 1 1 true) db_ordered)
     = inr (JSONResponse (JStr "one") HTTP_200_OK)
  /\ fst (create_session (user_banner 1 1 true) db_unordered)
     = inr (JSONResponse (JStr "one") HTTP_200_OK).
Proof.
  repeat split. apply perm_swap.
Qed.

(** ** Get-or-create and the association loops *)

Lemma ensure_tag_run (tag_id : Z) (s : AsyncSession) :
  ensure_tag tag_id s
  = (inr (fst (ensure tag_id (current s))),
     mkSession (committed s) (snd (ensure tag_id (current s)))).
Proof.
  unfold ensure_tag, ensure. run_session.
  destruct (get_tag tag_id (current s)); [destruct s|]; reflexivity.
Qed.

Lemma collect_run (tag_ids : list Z) (s : AsyncSession) :
  collect tag_ids ensure_tag s
  = (inr (fst (ensure_all tag_ids (current s))),
     mkSession (committed s) (snd (ensure_all tag_ids (current s)))).
Proof.
  revert s. induction tag_ids as [|i l IH]; intros s; simpl.
  - destruct s; reflexivity.
  - unfold bind at 1. rewrite ensure_tag_run. unfold bind at 1.
    rewrite IH. reflexivity.
Qed.

Lemma append_loop_run (banner_id : Z) (l : list Tag.t) (s : AsyncSession) :
  for_each l (fun tag => modify (append_tag banner_id tag)) s
  = (inr tt, mkSession (committed s) (append_all banner_id l (current s))).
Proof.
  revert s. induction l as [|t l IH]; intros s; simpl.
  - destruct s; reflexivity.
  - unfold bind at 1. unfold modify at 1. rewrite IH. reflexivity.
Qed.

Section Ensure.
Variables (tag_id : Z) (db : Database).

Lemma ensure_tag_id : Tag.tag_id (fst (ensure tag_id db)) = tag_id.
Proof.
  unfold ensure, get_tag.
  destruct (find _ (tags db)) eqn:Ef; [|reflexivity].
  apply find_some in Ef. destruct Ef as [_ Ef]. apply Z.eqb_eq in Ef. exact Ef.
Qed.

Lemma ensure_exists : tag_exists tag_id (snd (ensure tag_id db)) = true.
Proof.
  unfold ensure. destruct (get_tag tag_id db) eqn:Eg.
  - apply get_tag_exists. simpl. congruence.
  - unfold tag_exists. simpl. rewrite existsb_app. simpl.
    rewrite Z.eqb_refl. apply orb_true_iff. right. reflexivity.
Qed.

Lemma ensure_keeps (j : Z) :
  tag_exists j db = true -> tag_exists j (snd (ensure tag_id db)) = true.
Proof.
  unfold ensure. destruct (get_tag tag_id db); [trivial|].
  unfold tag_exists. simpl. rewrite existsb_app. intros ->. reflexivity.
Qed.

Lemma ensure_tables :
  users (snd (ensure tag_id db)) = users db
  /\ banners (snd (ensure tag_id db)) = banners db
  /\ banner_tags (snd (ensure tag_id db)) = banner_tags db.
Proof. unfold ensure. destruct (get_tag tag_id db); repeat split. Qed.

End Ensure.

Lemma ensure_only (i j : Z) (db : Database) :
  tag_exists j (snd (ensure i db)) = true -> tag_exists j db = true \/ j = i.
Proof.
  unfold ensure. destruct (get_tag i db); [left; assumption|].
  unfold tag_exists. simpl. rewrite existsb_app, orb_true_iff. simpl.
  rewrite orb_false_r, Z.eqb_eq. intros [H|H]; [left|right]; congruence.
Qed.

Lemma ensure_extends (i : Z) (db : Database) :
  exists added, tags (snd (ensure i db)) = tags db ++ added.
Proof.
  unfold ensure. destruct (get_tag i db).
  - exists []. simpl. rewrite app_nil_r. reflexivity.
  - exists [Tag.mk i]. reflexivity.
Qed.

Lemma tag_exists_tags (db db' : Database) (tag_id : Z) :
  tags db' = tags db -> tag_exists tag_id db' = tag_exists tag_id db.
Proof. unfold tag_exists. intros ->. reflexivity. Qed.

Lemma tag_exists_extends (db db' : Database) (added : list Tag.t) (tag_id : Z) :
  tags db' = tags db ++ added ->
  tag_exists tag_id db = true -> tag_exists tag_id db' = true.
Proof.
  unfold tag_exists. intros -> H. rewrite existsb_app, H. reflexivity.
Qed.

Lemma tag_ids_of_app (db : Database) (rows : list BannerTag.t) (banner_id : Z) :
  tag_ids_of
    (mkDatabase (users db) (tags db) (banners db) (banner_tags db ++ rows))
    banner_id
  = tag_ids_of db banner_id
    ++ map BannerTag.tag_id
         (filter (fun bt => BannerTag.banner_id bt =? banner_id) rows).
Proof. unfold tag_ids_of. simpl. rewrite filter_app, map_app. reflexivity. Qed.

Lemma tag_ids_of_rows (db db' : Database) (banner_id : Z) :
  banner_tags db' = banner_tags db ->
  tag_ids_of db' banner_id = tag_ids_of db banner_id.
Proof. unfold tag_ids_of. intros ->. reflexivity. Qed.

Lemma associated_rows (db db' : Database) (banner_id tag_id : Z) :
  banner_tags db' = banner_tags db ->
  associated db' banner_id tag_id = associated db banner_id tag_id.
Proof. unfold associated. intros ->. reflexivity. Qed.

Lemma associated_tag_ids (db : Database) (banner_id tag_id : Z) :
  associated db banner_id tag_id = true <-> In tag_id (tag_ids_of db banner_id).
Proof.
  unfold associated, tag_ids_of. rewrite existsb_exists, in_map_iff.
  split.
  - intros (bt & Hin & E). apply andb_prop in E. destruct E as [E1 E2].
    exists bt. split; [apply Z.eqb_eq; exact E2|].
    apply filter_In. split; assumption.
  - intros (bt & E2 & Hin). apply filter_In in Hin. destruct Hin as [Hin E1].
    exists bt. split; [assumption|]. rewrite E1, E2, Z.eqb_refl. reflexivity.
Qed.

Lemma append_all_tables (banner_id : Z) (l : list Tag.t) (db : Database) :
  users (append_all banner_id l db) = users db
  /\ tags (append_all banner_id l db) = tags db
  /\ banners (append_all banner_id l db) = banners db.
Proof.
  unfold append_all. revert db. induction l as [|t l IH]; intros db; simpl.
  - repeat split.
  - destruct (IH (append_tag banner_id t db)) as (-> & -> & ->). repeat split.
Qed.

Lemma append_all_tag_ids (banner_id : Z) (l : list Tag.t) (db : Database)
    (other : Z) :
  tag_ids_of (append_all banner_id l db) other
  = tag_ids_of db other ++ (if banner_id =? other then map Tag.tag_id l else []).
Proof.
  unfold append_all. revert db. induction l as [|t l IH]; intros db; simpl.
  - destruct (banner_id =? other); rewrite app_nil_r; reflexivity.
  - rewrite IH. unfold append_tag. rewrite tag_ids_of_app. simpl.
    rewrite <- app_assoc. destruct (banner_id =? other); reflexivity.
Qed.

(** The rows that a run of appends leaves depend on the association table
    only. *)
Lemma append_all_rows (banner_id : Z) (l : list Tag.t) (db1 db2 : Database) :
  banner_tags db1 = banner_tags db2 ->
  banner_tags (append_all banner_id l db1)
  = banner_tags (append_all banner_id l db2).
Proof.
  unfold append_all. revert db1 db2.
  induction l as [|t l IH]; intros db1 db2 H; simpl; [exact H|].
  apply IH. unfold append_tag. simpl. rewrite H. reflexivity.
Qed.

Lemma filter_all (A : Type) (p : A -> bool) (l : list A) :
  (forall x, In x l -> p x = true) -> filter p l = l.
Proof.
  induction l as [|x l IH]; intros H; [reflexivity|]. simpl.
  rewrite (H x (or_introl eq_refl)). f_equal. apply IH.
  intros y Hy. apply H. right. exact Hy.
Qed.

Lemma filter_none (A : Type) (p : A -> bool) (l : list A) :
  (forall x, In x l -> p x = false) -> filter p l = [].
Proof.
  induction l as [|x l IH]; intros H; [reflexivity|]. simpl.
  rewrite (H x (or_introl eq_refl)). apply IH.
  intros y Hy. apply H. right. exact Hy.
Qed.

Lemma existsb_eqb (k : Z) (ids : list Z) :
  existsb (Z.eqb k) ids = true <-> In k ids.
Proof.
  rewrite existsb_exists. split.
  - intros (x & Hx & E). apply Z.eqb_eq in E. subst x. exact Hx.
  - intros H. exists k. split; [exact H|apply Z.eqb_refl].
Qed.

Lemma get_banner_in (db : Database) (banner_id : Z) (b : Banner.t) :
  get_banner banner_id db = Some b ->
  In b (banners db) /\ Banner.banner_id b = banner_id.
Proof.
  unfold get_banner. intros H. apply find_some in H. destruct H as [Hin E].
  apply Z.eqb_eq in E. split; assumption.
Qed.

Lemma db_eq (a b : Database) :
  users a = users b -> tags a = tags b -> banners a = banners b ->
  banner_tags a = banner_tags b -> a = b.
Proof.
  destruct a, b. simpl. intros -> -> -> ->. reflexivity.
Qed.

(** ** The collection [banner.tags] of a patch *)

Lemma mem_In (i : Z) (l : list Z) : mem i l = true <-> In i l.
Proof. unfold mem. apply existsb_eqb. Qed.

Lemma map_mk_ids (l : list Z) : map Tag.tag_id (map Tag.mk l) = l.
Proof.
  induction l as [|i l IH]; [reflexivity|]. simpl. rewrite IH. reflexivity.
Qed.

Section Flush.
Variables (banner_id : Z) (c : Collection).

Lemma flush_tags_tables (db : Database) :
  users (flush_tags banner_id c db) = users db
  /\ tags (flush_tags banner_id c db) = tags db
  /\ banners (flush_tags banner_id c db) = banners db.
Proof.
  unfold flush_tags.
  match goal with
  | |- context [append_all ?i ?l ?d] =>
      destruct (append_all_tables i l d) as (-> & -> & ->)
  end.
  repeat split.
Qed.

(** The associations after a flush: those of the banner with a tag that
    left the collection are gone, and the entries whose tag the collection
    did not hold have a row each. *)
Lemma flush_tags_tag_ids (db : Database) (other : Z) :
  tag_ids_of (flush_tags banner_id c db) other
  = if banner_id =? other
    then filter (fun t => negb (mem t (flushed c) && negb (mem t (items c))))
           (tag_ids_of db other)
         ++ filter (fun i => negb (mem i (flushed c))) (items c)
    else tag_ids_of db other.
Proof.
  unfold flush_tags. rewrite append_all_tag_ids, map_mk_ids.
  unfold tag_ids_of. cbn [banner_tags].
  destruct (banner_id =? other) eqn:E.
  - apply Z.eqb_eq in E. subst other. f_equal.
    induction (banner_tags db) as [|bt l IH]; [reflexivity|].
    cbn [filter]. destruct (BannerTag.banner_id bt =? banner_id) eqn:E1.
    + cbn [andb map filter].
      destruct (mem (BannerTag.tag_id bt) (flushed c)
                && negb (mem (BannerTag.tag_id bt) (items c)));
        cbn [negb filter map]; rewrite ?E1; cbn [map]; rewrite IH; reflexivity.
    + cbn [andb negb filter]. rewrite E1. exact IH.
  - rewrite app_nil_r.
    induction (banner_tags db) as [|bt l IH]; [reflexivity|].
    cbn [filter]. destruct (BannerTag.banner_id bt =? other) eqn:E2.
    + replace (BannerTag.banner_id bt =? banner_id) with false.
      * cbn [andb negb filter]. rewrite E2. cbn [map]. rewrite IH. reflexivity.
      * symmetry. apply Z.eqb_neq. apply Z.eqb_eq in E2. apply Z.eqb_neq in E.
        congruence.
    + destruct (negb _); cbn [filter]; rewrite ?E2; exact IH.
Qed.

(** A collection that is what it was at the last flush writes nothing. *)
Lemma flush_tags_noop (db : Database) :
  flushed c = items c -> flush_tags banner_id c db = db.
Proof.
  intros E. unfold flush_tags. rewrite E.
  rewrite (filter_none _ (fun i => negb (mem i (items c)))).
  - cbn [map append_all fold_left]. rewrite filter_all; [destruct db; reflexivity|].
    intros bt _. destruct (BannerTag.banner_id bt =? banner_id),
      (mem (BannerTag.tag_id bt) (items c)); reflexivity.
  - intros i Hi. apply negb_false_iff, mem_In. exact Hi.
Qed.

(** Writing the row of a banner and flushing the collection do not
    interfere. *)
Lemma flush_tags_update (k : Z) (f : Banner.t -> Banner.t) (db : Database) :
  flush_tags banner_id c (update_banner k f db)
  = update_banner k f (flush_tags banner_id c db).
Proof.
  destruct (flush_tags_tables (update_banner k f db)) as (Hu & Ht & Hb).
  destruct (flush_tags_tables db) as (Hu' & Ht' & Hb').
  apply db_eq.
  - rewrite Hu. cbn [update_banner users]. rewrite Hu'. reflexivity.
  - rewrite Ht. cbn [update_banner tags]. rewrite Ht'. reflexivity.
  - rewrite Hb. cbn [update_banner banners]. rewrite Hb'. reflexivity.
  - cbn [update_banner banner_tags]. unfold flush_tags.
    apply append_all_rows. reflexivity.
Qed.
End Flush.

Lemma append_to_tags_run (banner_id : Z) (c : Collection) (tag_id : Z)
    (s : AsyncSession) :
  append_to_tags banner_id c tag_id s
  = (inr (fst (retag_step banner_id (c, current s) tag_id)),
     mkSession (committed s)
       (snd (retag_step banner_id (c, current s) tag_id))).
Proof.
  unfold append_to_tags, retag_step. cbn [fst snd].
  destruct (in_identity_map c tag_id); run_session.
  - destruct (get_tag tag_id (current s)); [destruct s|]; reflexivity.
  - destruct (get_tag tag_id (flush_tags banner_id c (current s))); reflexivity.
Qed.

Lemma retag_loop_run (banner_id : Z) (l : list Z) (c : Collection)
    (s : AsyncSession) :
  fold_each l c (append_to_tags banner_id) s
  = (inr (fst (retag_loop banner_id l (c, current s))),
     mkSession (committed s) (snd (retag_loop banner_id l (c, current s)))).
Proof.
  unfold retag_loop. revert c s. induction l as [|t l IH]; intros c s.
  - destruct s; reflexivity.
  - cbn [fold_each fold_left]. unfold bind at 1. rewrite append_to_tags_run.
    rewrite IH. cbn [current committed].
    destruct (retag_step banner_id (c, current s) t). reflexivity.
Qed.

(** A banner is loaded with the registered tags of its associations. *)
Lemma loaded_tags_In (db : Database) (banner_id t : Z) :
  In t (loaded_tags db banner_id)
  <-> associated db banner_id t = true /\ tag_exists t db = true.
Proof.
  unfold loaded_tags, associated, tag_exists.
  rewrite in_map_iff, !existsb_exists. split.
  - intros (tag & E & Hin). apply in_flat_map in Hin.
    destruct Hin as (bt & Hbt & Hin).
    destruct (BannerTag.banner_id bt =? banner_id) eqn:Eb; [|contradiction].
    apply filter_In in Hin. destruct Hin as [Htag Et]. apply Z.eqb_eq in Et.
    split.
    + exists bt. split; [assumption|]. rewrite Eb. apply Z.eqb_eq. congruence.
    + exists tag. split; [assumption|]. apply Z.eqb_eq. assumption.
  - intros [(bt & Hbt & Ebt) (tag & Htag & Et)].
    apply andb_prop in Ebt. destruct Ebt as [Eb Ebt].
    apply Z.eqb_eq in Ebt, Et.
    exists tag. split; [assumption|]. apply in_flat_map.
    exists bt. split; [assumption|]. rewrite Eb. apply filter_In.
    split; [assumption|]. apply Z.eqb_eq. congruence.
Qed.

Lemma loaded_tags_of (db : Database) (b : Banner.t) :
  map Tag.tag_id (Banner_tags db b) = loaded_tags db (Banner.banner_id b).
Proof. reflexivity. Qed.

Section CollectionOk.
Variables (banner_id : Z) (db0 : Database).

Lemma collection_ok_loaded :
  collection_ok banner_id db0 []
    (mkCollection (loaded_tags db0 banner_id) [] [], db0).
Proof.
  unfold collection_ok. cbn [fst snd flushed items].
  split; [reflexivity|]. split; [reflexivity|].
  split; [exists []; symmetry; apply app_nil_r|].
  split; [reflexivity|]. split; [reflexivity|].
  split; [intros t Ht; apply loaded_tags_In in Ht; tauto|].
  split; [|split; [intros t []|intros t Ht; left; exact Ht]].
  intros t Ht. destruct (tag_exists t db0) eqn:Er.
  - left. apply loaded_tags_In. split; assumption.
  - right. split; [assumption|reflexivity].
Qed.

Lemma collection_ok_flush (done : list Z) (c : Collection) (db : Database) :
  collection_ok banner_id db0 done (c, db) ->
  collection_ok banner_id db0 done
    (after_flush c, flush_tags banner_id c db).
Proof.
  unfold collection_ok. cbn [fst snd after_flush flushed items].
  intros (Hu & Hb & Ha & Hi & Ho & Hf & Hr & Hd & Hn).
  destruct (flush_tags_tables banner_id c db) as (Eu & Et & Eb).
  rewrite Eu, Eb, Et.
  split; [assumption|]. split; [assumption|]. split; [assumption|].
  split; [assumption|].
  split.
  { intros other Hne. rewrite flush_tags_tag_ids.
    replace (banner_id =? other) with false
      by (symmetry; apply Z.eqb_neq; congruence).
    apply Ho. assumption. }
  split.
  { intros t Ht. apply associated_tag_ids. rewrite flush_tags_tag_ids, Z.eqb_refl.
    apply in_or_app. destruct (mem t (flushed c)) eqn:Em.
    - left. apply filter_In. split.
      + apply associated_tag_ids. apply Hf. apply mem_In. assumption.
      + rewrite Em. apply mem_In in Ht. rewrite Ht. reflexivity.
    - right. apply filter_In. split; [assumption|]. rewrite Em. reflexivity. }
  split.
  { intros t Ht. apply associated_tag_ids in Ht.
    rewrite flush_tags_tag_ids, Z.eqb_refl in Ht. apply in_app_or in Ht.
    destruct Ht as [Ht|Ht]; apply filter_In in Ht; destruct Ht as [Ht Hk].
    - apply associated_tag_ids in Ht. destruct (Hr t Ht) as [Hin|Hdangling].
      + left. apply mem_In in Hin. rewrite Hin in Hk.
        destruct (mem t (items c)) eqn:Em; [|discriminate].
        apply mem_In. assumption.
      + right. assumption.
    - left. assumption. }
  split.
  { intros t Ht. unfold tag_exists. rewrite Et. apply Hd. assumption. }
  intros t Ht. apply Hn. unfold tag_exists in *. rewrite Et in Ht. assumption.
Qed.

Lemma collection_ok_append (done : list Z) (c : Collection) (db : Database)
    (t : Z) :
  collection_ok banner_id db0 done (c, db) ->
  collection_ok banner_id db0 (done ++ [t])
    (match get_tag t db with
     | Some tag =>
         (mkCollection (flushed c) (items c ++ [Tag.tag_id tag]) (created c),
          db)
     | None =>
         (mkCollection (flushed c) (items c ++ [t]) (created c ++ [t]),
          add_tag (Tag.mk t) db)
     end).
Proof.
  unfold collection_ok. cbn [fst snd].
  intros (Hu & Hb & (added & Ha) & Hi & Ho & Hf & Hr & Hd & Hn).
  destruct (get_tag t db) as [tag|] eqn:Eg; cbn [fst snd flushed items].
  - assert (Et : Tag.tag_id tag = t).
    { unfold get_tag in Eg. apply find_some in Eg. apply Z.eqb_eq, Eg. }
    assert (Hreg : tag_exists t db = true)
      by (apply get_tag_exists; congruence).
    split; [assumption|]. split; [assumption|].
    split; [exists added; assumption|]. split; [congruence|].
    split; [assumption|]. split; [assumption|]. split; [assumption|].
    split.
    + intros t' Ht'. apply in_app_or in Ht'.
      destruct Ht' as [Ht'|[<-|[]]]; [apply Hd|]; assumption.
    + intros t' Ht'. destruct (Hn t' Ht') as [H|H]; [left|right]; [assumption|].
      apply in_or_app. left. assumption.
  - split; [assumption|]. split; [assumption|].
    split; [exists (added ++ [Tag.mk t]); cbn [add_tag tags];
            rewrite Ha, app_assoc; reflexivity|].
    split; [congruence|]. split; [assumption|]. split; [assumption|].
    split; [assumption|].
    unfold tag_exists. cbn [add_tag tags]. split.
    + intros t' Ht'. rewrite existsb_app. apply orb_true_iff.
      apply in_app_or in Ht'. destruct Ht' as [Ht'|[<-|[]]].
      * left. apply Hd. assumption.
      * right. cbn [existsb Tag.tag_id]. rewrite Z.eqb_refl. reflexivity.
    + intros t' Ht'. rewrite existsb_app in Ht'. apply orb_true_iff in Ht'.
      destruct Ht' as [Ht'|Ht'].
      * destruct (Hn t' Ht') as [H|H]; [left|right]; [assumption|].
        apply in_or_app. left. assumption.
      * right. apply in_or_app. right. cbn [existsb Tag.tag_id] in Ht'.
        rewrite orb_false_r in Ht'. apply Z.eqb_eq in Ht'. left. assumption.
Qed.

Lemma collection_ok_step (done : list Z) (s : Collection * Database) (t : Z) :
  collection_ok banner_id db0 done s ->
  collection_ok banner_id db0 (done ++ [t]) (retag_step banner_id s t).
Proof.
  destruct s as [c db]. intros H. unfold retag_step. cbn [fst snd].
  destruct (in_identity_map c t).
  - apply collection_ok_append. assumption.
  - apply (collection_ok_append done (after_flush c)).
    apply collection_ok_flush. assumption.
Qed.

Lemma collection_ok_loop (l done : list Z) (s : Collection * Database) :
  collection_ok banner_id db0 done s ->
  collection_ok banner_id db0 (done ++ l) (retag_loop banner_id l s).
Proof.
  unfold retag_loop. revert done s.
  induction l as [|t l IH]; intros done s H; cbn [fold_left].
  - rewrite app_nil_r. assumption.
  - replace (done ++ t :: l) with ((done ++ [t]) ++ l)
      by (rewrite <- app_assoc; reflexivity).
    apply IH. apply collection_ok_step. assumption.
Qed.
End CollectionOk.

(** ** Patch *)

Lemma patch_banner_run (args : PatchBanner.t) (banner_id : Z) (now : string)
    (db : Database) (b : Banner.t) :
  get_banner banner_id db = Some b ->
  create_session (patch_banner args banner_id now) db
  = (inr (Response HTTP_200_OK), patched_store args banner_id now db).
Proof.
  intros Hb. destruct (get_banner_in _ _ _ Hb) as [_ Hk].
  unfold patch_banner, patched_store, retagged, create_session.
  unfold bind at 1. unfold query at 1. cbn [current committed]. rewrite Hb.
  unfold bind at 1. unfold query at 1. cbn [current committed].
  rewrite loaded_tags_of, Hk.
  destruct args as [[l|] [f|] [c|] [a|]]; unfold when, with_field;
    cbn [PatchBanner.tag_ids PatchBanner.feature_id PatchBanner.content
         PatchBanner.is_active];
    unfold bind at 1;
    try rewrite retag_loop_run;
    run_session;
    rewrite ?flush_tags_update;
    rewrite ?flush_tags_noop by reflexivity;
    reflexivity.
Qed.

Lemma patch_banner_missing (args : PatchBanner.t) (banner_id : Z)
    (now : string) (db : Database) :
  get_banner banner_id db = None ->
  create_session (patch_banner args banner_id now) db
  = (inl (HTTPException HTTP_404_NOT_FOUND), db).
Proof.
  intros Hb. unfold patch_banner. run_session. rewrite Hb. reflexivity.
Qed.

Section Update.
Variables (banner_id : Z) (f : Banner.t -> Banner.t).
Hypothesis f_key : forall b, Banner.banner_id (f b) = Banner.banner_id b.

Lemma get_banner_update (db : Database) :
  get_banner banner_id (update_banner banner_id f db)
  = option_map f (get_banner banner_id db).
Proof.
  unfold get_banner, update_banner. simpl.
  induction (banners db) as [|b l IH]; [reflexivity|]. simpl.
  destruct (Banner.banner_id b =? banner_id) eqn:E.
  - rewrite f_key, E. reflexivity.
  - rewrite E. exact IH.
Qed.

Lemma get_banner_update_other (db : Database) (other : Z) :
  other <> banner_id ->
  get_banner other (update_banner banner_id f db) = get_banner other db.
Proof.
  intros Hne. unfold get_banner, update_banner. simpl.
  induction (banners db) as [|b l IH]; [reflexivity|]. simpl.
  destruct (Banner.banner_id b =? banner_id) eqn:E.
  - rewrite f_key. apply Z.eqb_eq in E.
    replace (Banner.banner_id b =? other) with false
      by (symmetry; apply Z.eqb_neq; congruence).
    exact IH.
  - destruct (Banner.banner_id b =? other); [reflexivity|exact IH].
Qed.
End Update.

(** How the stages of a patch act on the tables. *)
Section PatchedStore.
Variables (args : PatchBanner.t) (banner_id : Z) (now : string) (db : Database).

(** After the loop and the flush of the commit, the collection and the
    store are in step with the supplied identifiers. *)
Lemma retagged_ok (l : list Z) :
  PatchBanner.tag_ids args = Some l ->
  collection_ok banner_id db l
    (mkCollection l l [], retagged args banner_id db).
Proof.
  intros Hl. unfold retagged. rewrite Hl. cbn [with_field].
  pose proof (collection_ok_loop banner_id db l [] _
                (collection_ok_loaded banner_id db)) as H.
  cbn [app] in H.
  destruct (retag_loop banner_id l
              (mkCollection (loaded_tags db banner_id) [] [], db)) as [c d].
  apply collection_ok_flush in H.
  assert (Hi : items c = l) by (destruct H as (_ & _ & _ & Hi & _); exact Hi).
  unfold after_flush in H. rewrite Hi in H. exact H.
Qed.

Lemma retagged_tables :
  users (retagged args banner_id db) = users db
  /\ banners (retagged args banner_id db) = banners db
  /\ exists added, tags (retagged args banner_id db) = tags db ++ added.
Proof.
  destruct (PatchBanner.tag_ids args) as [l|] eqn:Hl.
  - destruct (retagged_ok l Hl) as (Hu & Hb & Ha & _). repeat split; assumption.
  - unfold retagged. rewrite Hl. cbn [with_field]. repeat split.
    exists []. symmetry. apply app_nil_r.
Qed.

Lemma patched_store_tables :
  users (patched_store args banner_id now db) = users db
  /\ tags (patched_store args banner_id now db) = tags (retagged args banner_id db)
  /\ banner_tags (patched_store args banner_id now db) = banner_tags (retagged args banner_id db).
Proof.
  unfold patched_store. destruct retagged_tables as (Hu & _ & _).
  destruct (PatchBanner.is_active args), (PatchBanner.content args),
    (PatchBanner.feature_id args); simpl; rewrite Hu; repeat split.
Qed.

Lemma patched_store_get :
  get_banner banner_id (patched_store args banner_id now db)
  = option_map (patched args now) (get_banner banner_id db).
Proof.
  unfold patched_store, patched.
  assert (Hg : get_banner banner_id (retagged args banner_id db) = get_banner banner_id db).
  { unfold get_banner. destruct retagged_tables as (_ & -> & _). reflexivity. }
  destruct (PatchBanner.is_active args), (PatchBanner.content args),
    (PatchBanner.feature_id args); unfold with_field;
    repeat (rewrite get_banner_update by reflexivity);
    rewrite Hg; destruct (get_banner banner_id db); reflexivity.
Qed.

Lemma patched_store_get_other (other : Z) :
  other <> banner_id ->
  get_banner other (patched_store args banner_id now db) = get_banner other db.
Proof.
  intros Hne. unfold patched_store.
  assert (Hg : get_banner other (retagged args banner_id db) = get_banner other db).
  { unfold get_banner. destruct retagged_tables as (_ & -> & _). reflexivity. }
  destruct (PatchBanner.is_active args), (PatchBanner.content args),
    (PatchBanner.feature_id args); unfold with_field;
    repeat (rewrite get_banner_update_other by (reflexivity || assumption));
    exact Hg.
Qed.

Lemma patched_store_untagged :
  PatchBanner.tag_ids args = None ->
  tags (patched_store args banner_id now db) = tags db
  /\ banner_tags (patched_store args banner_id now db) = banner_tags db.
Proof.
  intros Hn. destruct patched_store_tables as (_ & -> & ->).
  unfold retagged. rewrite Hn. split; reflexivity.
Qed.

(** The associations of the other banners are as they were. *)
Lemma patched_store_tag_ids_other (other : Z) :
  other <> banner_id ->
  tag_ids_of (patched_store args banner_id now db) other = tag_ids_of db other.
Proof.
  intros Hne. destruct patched_store_tables as (_ & _ & Hbt).
  rewrite (tag_ids_of_rows _ _ other Hbt).
  destruct (PatchBanner.tag_ids args) as [l|] eqn:Hl.
  - destruct (retagged_ok l Hl) as (_ & _ & _ & _ & Ho & _).
    apply Ho. assumption.
  - unfold retagged. rewrite Hl. reflexivity.
Qed.

(** The tags of the patched banner, when the request carries [tag_ids]: the
    supplied ones, and besides them only tags of associations that the
    store held without the tag being registered. *)
Lemma patched_store_associated (l : list Z) (t : Z) :
  PatchBanner.tag_ids args = Some l ->
  (In t l -> associated (patched_store args banner_id now db) banner_id t = true)
  /\ (associated (patched_store args banner_id now db) banner_id t = true ->
      In t l
      \/ (associated db banner_id t = true /\ tag_exists t db = false)).
Proof.
  intros Hl. destruct patched_store_tables as (_ & _ & Hbt).
  rewrite (associated_rows _ _ banner_id t Hbt).
  destruct (retagged_ok l Hl) as (_ & _ & _ & _ & _ & Hf & Hr & _).
  split; [apply Hf|apply Hr].
Qed.

Lemma patched_store_registry (t : Z) :
  (tag_exists t db = true ->
   tag_exists t (patched_store args banner_id now db) = true)
  /\ forall l,
       PatchBanner.tag_ids args = Some l ->
       (In t l -> tag_exists t (patched_store args banner_id now db) = true)
       /\ (tag_exists t (patched_store args banner_id now db) = true ->
           tag_exists t db = true \/ In t l).
Proof.
  destruct patched_store_tables as (_ & Ht & _).
  rewrite (tag_exists_tags _ _ t Ht). split.
  - destruct retagged_tables as (_ & _ & added & Ha).
    apply (tag_exists_extends _ _ added). exact Ha.
  - intros l Hl.
    destruct (retagged_ok l Hl) as (_ & _ & _ & _ & _ & _ & _ & Hd & Hn).
    split; [apply Hd|apply Hn].
Qed.
End PatchedStore.

(** On a store whose associations refer to registered tags, an associated
    tag is registered. *)
Lemma associated_registered (db : Database) (banner_id tag_id : Z) :
  tag_key_ok db ->
  associated db banner_id tag_id = true -> tag_exists tag_id db = true.
Proof.
  intros Hk Ha. apply existsb_exists in Ha. destruct Ha as (bt & Hbt & E).
  apply andb_prop in E. destruct E as [_ E]. apply Z.eqb_eq in E.
  rewrite <- E. apply Hk. assumption.
Qed.

(** The model on the requests of the tests of the patch: naming two of the
    three tags of the default banner, in another order, removes the
    association with the third and leaves the two others as they are; a new
    tag named twice gets one association. *)
Lemma patch_banner_samples :
  tag_ids_of
    (snd (create_session (patch_banner patch_reordered 1 "t1") db_default)) 1
  = [1; 3]
  /\ tag_ids_of
       (snd (create_session (patch_banner patch_repeated 1 "t1") db_default)) 1
     = [9].
Proof. split; reflexivity. Qed.

(** C3. A patch of an existing banner answers 200 and changes, in the row of
    that banner, exactly the fields the request carries, [updated_at] being
    set to the clock reading; without [tag_ids] the tag registry and all
    associations stay as they were, and with [tag_ids], on a store whose
    associations refer to registered tags, the banner is afterwards
    associated with the supplied tags and no other; other banners are
    untouched.  In particular a patch that carries only [content] keeps
    [feature_id], [is_active] and the tags.  A patch of a key that has no
    banner raises 404 and leaves the store as it was. *)
Theorem patch_banner_partial_update
    (db : Database) (args : PatchBanner.t) (banner_id : Z) (now : string) :
  (forall b,
      get_banner banner_id db = Some b ->
      exists db' b',
        create_session (patch_banner args banner_id now) db
        = (inr (Response HTTP_200_OK), db')
        /\ get_banner banner_id db' = Some b'
        /\ Banner.banner_id b' = Banner.banner_id b
        /\ Banner.feature_id b'
           = or_else (PatchBanner.feature_id args) (Banner.feature_id b)
        /\ Banner.content b'
           = or_else (PatchBanner.content args) (Banner.content b)
        /\ Banner.is_active b'
           = or_else (PatchBanner.is_active args) (Banner.is_active b)
        /\ Banner.created_at b' = Banner.created_at b
        /\ Banner.updated_at b' = now
        /\ (PatchBanner.tag_ids args = None ->
            tags db' = tags db /\ banner_tags db' = banner_tags db)
        /\ (forall l,
               PatchBanner.tag_ids args = Some l ->
               tag_key_ok db ->
               forall t, associated db' banner_id t = true <-> In t l)
        /\ users db' = users db
        /\ (forall other, other <> banner_id ->
              get_banner other db' = get_banner other db
              /\ tag_ids_of db' other = tag_ids_of db other))
  /\ (forall b x,
         get_banner banner_id db = Some b ->
         args = PatchBanner.mk None None (Some x) None ->
         exists db',
           create_session (patch_banner args banner_id now) db
           = (inr (Response HTTP_200_OK), db')
           /\ get_banner banner_id db'
              = Some (Banner.mk (Banner.banner_id b) (Banner.feature_id b) x
                        (Banner.is_active b) (Banner.created_at b) now)
           /\ tag_ids_of db' banner_id = tag_ids_of db banner_id)
  /\ (get_banner banner_id db = None ->
      create_session (patch_banner args banner_id now) db
      = (inl (HTTPException HTTP_404_NOT_FOUND), db)).
Proof.
  split; [|split].
  - intros b Hb. exists (patched_store args banner_id now db), (patched args now b).
    split; [exact (patch_banner_run args banner_id now db b Hb)|].
    split; [rewrite patched_store_get, Hb; reflexivity|].
    destruct (patched_store_tables args banner_id now db) as (Hu & _ & _).
    assert (Hfields :
              Banner.banner_id (patched args now b) = Banner.banner_id b
              /\ Banner.feature_id (patched args now b)
                 = or_else (PatchBanner.feature_id args) (Banner.feature_id b)
              /\ Banner.content (patched args now b)
                 = or_else (PatchBanner.content args) (Banner.content b)
              /\ Banner.is_active (patched args now b)
                 = or_else (PatchBanner.is_active args) (Banner.is_active b)
              /\ Banner.created_at (patched args now b) = Banner.created_at b
              /\ Banner.updated_at (patched args now b) = now).
    { unfold patched.
      destruct (PatchBanner.is_active args), (PatchBanner.content args),
        (PatchBanner.feature_id args); repeat split. }
    destruct Hfields as (H1 & H2 & H3 & H4 & H5 & H6).
    repeat (split; [assumption|]).
    split; [apply patched_store_untagged|].
    split.
    { intros l Hl Hk t.
      destruct (patched_store_associated args banner_id now db l t Hl)
        as [Hin Hout].
      split; [|exact Hin].
      intros Ha. destruct (Hout Ha) as [H|[Ha0 Hr]]; [exact H|].
      rewrite (associated_registered db banner_id t Hk Ha0) in Hr.
      discriminate. }
    split; [exact Hu|].
    intros other Hne. split; [apply patched_store_get_other; exact Hne|].
    apply patched_store_tag_ids_other. exact Hne.
  - intros b x Hb ->. exists (patched_store (PatchBanner.mk None None (Some x) None) banner_id now db).
    split; [exact (patch_banner_run _ banner_id now db b Hb)|].
    split; [rewrite patched_store_get, Hb; reflexivity|].
    apply tag_ids_of_rows. apply patched_store_untagged. reflexivity.
  - apply patch_banner_missing.
Qed.

Lemma patch_banner_partial_update_witness :
  (exists db',
      create_session (patch_banner patch_content_only 1 "t1") db_default
      = (inr (Response HTTP_200_OK), db')
      /\ get_banner 1 db' = Some (Banner.mk 1 1 "X" true "t0" "t1")
      /\ tag_ids_of db' 1 = [1; 2; 3])
  /\ create_session (patch_banner patch_content_only 7 "t1") db_default
     = (inl (HTTPException HTTP_404_NOT_FOUND), db_default).
Proof.
  destruct (patch_banner_partial_update db_default patch_content_only 1 "t1")
    as (_ & Hc & _).
  destruct (patch_banner_partial_update db_default patch_content_only 7 "t1")
    as (_ & _ & Hm).
  split.
  - exact (Hc default_row "X"%string eq_refl eq_refl).
  - exact (Hm eq_refl).
Defined.

(** C4. A patch of an existing banner that carries [tag_ids], the empty list
    included, leaves the banner associated with every supplied identifier
    and, on a store whose associations refer to registered tags, with no
    other tag, so that a tag that is not supplied is no longer associated
    with the banner; every supplied identifier is in the registry
    afterwards, and the registry keeps what it had and gains nothing
    else. *)
Theorem patch_banner_replaces_tags
    (db : Database) (args : PatchBanner.t) (banner_id : Z) (now : string)
    (b : Banner.t) (l : list Z) :
  get_banner banner_id db = Some b ->
  PatchBanner.tag_ids args = Some l ->
  exists db',
    create_session (patch_banner args banner_id now) db
    = (inr (Response HTTP_200_OK), db')
    /\ (forall t, In t l -> associated db' banner_id t = true)
    /\ (tag_key_ok db ->
        forall t, associated db' banner_id t = true <-> In t l)
    /\ (forall t, In t l -> tag_exists t db' = true)
    /\ (forall t, tag_exists t db = true -> tag_exists t db' = true)
    /\ (forall t, tag_exists t db' = true -> tag_exists t db = true \/ In t l).
Proof.
  intros Hb Hl. exists (patched_store args banner_id now db).
  split; [exact (patch_banner_run args banner_id now db b Hb)|].
  split; [intros t; apply (patched_store_associated args banner_id now db l t Hl)|].
  split.
  { intros Hk t.
    destruct (patched_store_associated args banner_id now db l t Hl)
      as [Hin Hout].
    split; [|exact Hin].
    intros Ha. destruct (Hout Ha) as [H|[Ha0 Hr]]; [exact H|].
    rewrite (associated_registered db banner_id t Hk Ha0) in Hr. discriminate. }
  split; [|split]; intros t.
  - apply (proj2 (patched_store_registry args banner_id now db t) l Hl).
  - apply (proj1 (patched_store_registry args banner_id now db t)).
  - apply (proj2 (patched_store_registry args banner_id now db t) l Hl).
Qed.

Lemma patch_banner_replaces_tags_witness :
  exists db',
    create_session (patch_banner patch_tags_only 1 "t1") db_default
    = (inr (Response HTTP_200_OK), db')
    /\ (forall t, In t [9] -> associated db' 1 t = true)
    /\ (tag_key_ok db_default ->
        forall t, associated db' 1 t = true <-> In t [9])
    /\ (forall t, In t [9] -> tag_exists t db' = true)
    /\ (forall t, tag_exists t db_default = true -> tag_exists t db' = true)
    /\ (forall t, tag_exists t db' = true ->
                  tag_exists t db_default = true \/ In t [9]).
Proof.
  apply (patch_banner_replaces_tags db_default patch_tags_only 1 "t1" default_row [9]);
    reflexivity.
Defined.

(** C10. A patch that carries no field at all still answers 200 on an
    existing banner: the row keeps [feature_id], [content], [is_active] and
    [created_at], its [updated_at] becomes the clock reading, and the tag
    registry and the associations are unchanged. *)
Theorem patch_banner_empty_payload
    (db : Database) (banner_id : Z) (now : string) (b : Banner.t) :
  get_banner banner_id db = Some b ->
  exists db',
    create_session (patch_banner patch_nothing banner_id now) db
    = (inr (Response HTTP_200_OK), db')
    /\ http_status (fst (create_session (patch_banner patch_nothing banner_id now) db))
       = 200
    /\ get_banner banner_id db'
       = Some (Banner.mk (Banner.banner_id b) (Banner.feature_id b)
                 (Banner.content b) (Banner.is_active b) (Banner.created_at b)
                 now)
    /\ tag_ids_of db' banner_id = tag_ids_of db banner_id
    /\ tags db' = tags db
    /\ banner_tags db' = banner_tags db.
Proof.
  intros Hb. exists (patched_store patch_nothing banner_id now db).
  rewrite (patch_banner_run patch_nothing banner_id now db b Hb).
  split; [reflexivity|]. split; [reflexivity|].
  split; [rewrite patched_store_get, Hb; reflexivity|].
  split; [apply tag_ids_of_rows; apply patched_store_untagged; reflexivity|].
  apply patched_store_untagged. reflexivity.
Qed.

Lemma patch_banner_empty_payload_witness :
  exists db',
    create_session (patch_banner patch_nothing 1 "t1") db_default
    = (inr (Response HTTP_200_OK), db')
    /\ http_status (fst (create_session (patch_banner patch_nothing 1 "t1") db_default))
       = 200
    /\ get_banner 1 db' = Some (Banner.mk 1 1 DEFAULT_CONTENT true "t0" "t1")
    /\ tag_ids_of db' 1 = tag_ids_of db_default 1
    /\ tags db' = tags db_default
    /\ banner_tags db' = banner_tags db_default.
Proof.
  apply (patch_banner_empty_payload db_default 1 "t1" default_row).
  reflexivity.
Defined.

(** ** Create *)

Lemma post_banner_run (args : PostBanner.t) (created updated : string)
    (db : Database) :
  create_session (post_banner args created updated) db
  = (inr (JSONResponse
            (JBannerId
               (next_id
                  (map Banner.banner_id
                     (banners (snd (ensure_all (PostBanner.tag_ids args) db))))))
            HTTP_201_CREATED),
     posted_store args created updated db).
Proof.
  unfold post_banner, posted_store, create_session.
  unfold bind at 1. rewrite collect_run. cbn [current committed].
  unfold bind at 1. unfold query at 1. cbn [current committed].
  unfold bind at 1. unfold modify at 1. cbn [current committed].
  unfold bind at 1. rewrite append_loop_run. reflexivity.
Qed.

Lemma next_id_fresh (ids : list Z) (x : Z) : In x ids -> x < next_id ids.
Proof.
  unfold next_id. induction ids as [|y l IH]; cbn [fold_right In]; [contradiction|].
  intros [->|H]; [lia|]. specialize (IH H). lia.
Qed.

Section EnsureAll.
Lemma ensure_all_tables (l : list Z) (db : Database) :
  users (snd (ensure_all l db)) = users db
  /\ banners (snd (ensure_all l db)) = banners db
  /\ banner_tags (snd (ensure_all l db)) = banner_tags db.
Proof.
  revert db. induction l as [|i l IH]; intros db; simpl; [repeat split|].
  destruct (IH (snd (ensure i db))) as (-> & -> & ->). apply ensure_tables.
Qed.

Lemma ensure_all_ids (l : list Z) (db : Database) :
  map Tag.tag_id (fst (ensure_all l db)) = l.
Proof.
  revert db. induction l as [|i l IH]; intros db; simpl; [reflexivity|].
  rewrite ensure_tag_id, IH. reflexivity.
Qed.

Lemma ensure_all_keeps (l : list Z) (db : Database) (j : Z) :
  tag_exists j db = true -> tag_exists j (snd (ensure_all l db)) = true.
Proof.
  revert db. induction l as [|i l IH]; intros db H; simpl; [exact H|].
  apply IH. apply ensure_keeps. exact H.
Qed.

Lemma ensure_all_exists (l : list Z) (db : Database) (j : Z) :
  In j l -> tag_exists j (snd (ensure_all l db)) = true.
Proof.
  revert db. induction l as [|i l IH]; intros db; simpl; [contradiction|].
  intros [->|H]; [apply ensure_all_keeps; apply ensure_exists|].
  apply IH. exact H.
Qed.
End EnsureAll.

Lemma associations_count (db : Database) (banner_id tag_id : Z) :
  associations db banner_id tag_id
  = count_occ Z.eq_dec (tag_ids_of db banner_id) tag_id.
Proof.
  unfold associations, tag_ids_of.
  induction (banner_tags db) as [|bt l IH]; [reflexivity|]. simpl.
  destruct (BannerTag.banner_id bt =? banner_id); simpl; [|exact IH].
  destruct (Z.eq_dec (BannerTag.tag_id bt) tag_id) as [E|E].
  - apply Z.eqb_eq in E. rewrite E. simpl. rewrite IH. reflexivity.
  - apply Z.eqb_neq in E. rewrite E. exact IH.
Qed.

(** A key that no banner row carries has no association, when the foreign
    key holds. *)
Lemma fresh_key_untagged (db : Database) :
  banner_key_ok db ->
  tag_ids_of db (next_id (map Banner.banner_id (banners db))) = [].
Proof.
  intros Hk. unfold tag_ids_of, banner_key_ok in *.
  set (fresh := next_id (map Banner.banner_id (banners db))) in *.
  induction (banner_tags db) as [|bt l IH]; [reflexivity|]. simpl.
  pose proof (next_id_fresh _ _ (Hk bt (or_introl eq_refl))) as Hlt.
  fold fresh in Hlt.
  replace (BannerTag.banner_id bt =? fresh) with false
    by (symmetry; apply Z.eqb_neq; lia).
  apply IH. intros bt' Hin. apply Hk. right. exact Hin.
Qed.

Lemma posted_store_get (args : PostBanner.t) (created updated : string)
    (db : Database) :
  let banner_id := next_id (map Banner.banner_id (banners db)) in
  get_banner banner_id (posted_store args created updated db)
  = Some (Banner.mk banner_id (PostBanner.feature_id args)
            (PostBanner.content args) (PostBanner.is_active args)
            created updated).
Proof.
  intros banner_id. unfold posted_store, get_banner.
  destruct (ensure_all_tables (PostBanner.tag_ids args) db) as (_ & Hb & _).
  destruct (append_all_tables
              (next_id (map Banner.banner_id
                          (banners (snd (ensure_all (PostBanner.tag_ids args) db)))))
              (fst (ensure_all (PostBanner.tag_ids args) db))
              (add_banner
                 (Banner.mk
                    (next_id (map Banner.banner_id
                                (banners (snd (ensure_all (PostBanner.tag_ids args) db)))))
                    (PostBanner.feature_id args) (PostBanner.content args)
                    (PostBanner.is_active args) created updated)
                 (snd (ensure_all (PostBanner.tag_ids args) db))))
    as (_ & _ & ->).
  unfold add_banner. cbn [banners]. rewrite Hb. fold banner_id.
  assert (Hfresh : forall x, In x (banners db) -> Banner.banner_id x <> banner_id).
  { intros x Hin. pose proof (next_id_fresh _ _ (in_map Banner.banner_id _ _ Hin)).
    unfold banner_id. lia. }
  clear Hb.
  clearbody banner_id.
  induction (banners db) as [|x l IH]; cbn [app find Banner.banner_id].
  - rewrite Z.eqb_refl. reflexivity.
  - replace (Banner.banner_id x =? banner_id) with false
      by (symmetry; apply Z.eqb_neq; apply Hfresh; left; reflexivity).
    apply IH. intros y Hy. apply Hfresh. right. exact Hy.
Qed.

Lemma posted_store_tag_ids (args : PostBanner.t) (created updated : string)
    (db : Database) :
  banner_key_ok db ->
  tag_ids_of (posted_store args created updated db)
    (next_id (map Banner.banner_id (banners db)))
  = PostBanner.tag_ids args.
Proof.
  intros Hk. unfold posted_store.
  destruct (ensure_all_tables (PostBanner.tag_ids args) db) as (_ & Hb & Hbt).
  rewrite Hb, append_all_tag_ids, Z.eqb_refl, ensure_all_ids.
  unfold tag_ids_of, add_banner. cbn [banner_tags]. rewrite Hbt.
  fold (tag_ids_of db (next_id (map Banner.banner_id (banners db)))).
  rewrite (fresh_key_untagged db Hk). reflexivity.
Qed.

Lemma posted_store_exists (args : PostBanner.t) (created updated : string)
    (db : Database) (t : Z) :
  In t (PostBanner.tag_ids args) ->
  tag_exists t (posted_store args created updated db) = true.
Proof.
  intros Hin. unfold posted_store.
  match goal with
  | |- tag_exists t (append_all ?i ?l ?d) = true =>
      destruct (append_all_tables i l d) as (_ & Ht & _)
  end.
  rewrite (tag_exists_tags _ _ t Ht). unfold tag_exists, add_banner.
  cbn [tags]. apply ensure_all_exists. exact Hin.
Qed.

(** C9, as the code has it.  After a create (on a store whose associations
    refer to stored banners) the banner is associated with exactly the
    supplied identifiers, by one association for each entry of the supplied
    list, so that an identifier supplied [n] times has [n] associations.
    After a patch that carries [tag_ids] (on a store whose associations
    refer to registered tags) the banner is associated with exactly the
    supplied identifiers.  In both cases every identifier of the banner's
    tag set is in the registry afterwards. *)
Theorem tag_set_follows_request (db : Database) :
  (forall args created updated,
      banner_key_ok db ->
      exists banner_id db',
        create_session (post_banner args created updated) db
        = (inr (JSONResponse (JBannerId banner_id) HTTP_201_CREATED), db')
        /\ get_banner banner_id db'
           = Some (Banner.mk banner_id (PostBanner.feature_id args)
                     (PostBanner.content args) (PostBanner.is_active args)
                     created updated)
        /\ tag_ids_of db' banner_id = PostBanner.tag_ids args
        /\ (forall t, associated db' banner_id t = true
                      <-> In t (PostBanner.tag_ids args))
        /\ (forall t, associations db' banner_id t
                      = count_occ Z.eq_dec (PostBanner.tag_ids args) t)
        /\ (forall t, In t (tag_ids_of db' banner_id) -> tag_exists t db' = true))
  /\ (forall args banner_id now b l,
         get_banner banner_id db = Some b ->
         PatchBanner.tag_ids args = Some l ->
         tag_key_ok db ->
         exists db',
           create_session (patch_banner args banner_id now) db
           = (inr (Response HTTP_200_OK), db')
           /\ (forall t, associated db' banner_id t = true <-> In t l)
           /\ (forall t, In t (tag_ids_of db' banner_id) ->
                         tag_exists t db' = true)).
Proof.
  split.
  - intros args created updated Hk.
    exists (next_id (map Banner.banner_id (banners db))),
      (posted_store args created updated db).
    pose proof (posted_store_tag_ids args created updated db Hk) as Hids.
    split.
    { rewrite post_banner_run.
      destruct (ensure_all_tables (PostBanner.tag_ids args) db) as (_ & -> & _).
      reflexivity. }
    split; [apply posted_store_get|].
    split; [exact Hids|].
    split; [intros t; rewrite associated_tag_ids, Hids; reflexivity|].
    split; [intros t; rewrite associations_count, Hids; reflexivity|].
    intros t. rewrite Hids. apply posted_store_exists.
  - intros args banner_id now b l Hb Hl Hk.
    exists (patched_store args banner_id now db).
    split; [exact (patch_banner_run args banner_id now db b Hb)|].
    assert (Hset : forall t,
               associated (patched_store args banner_id now db) banner_id t = true
               <-> In t l).
    { intros t.
      destruct (patched_store_associated args banner_id now db l t Hl)
        as [Hin Hout].
      split; [|exact Hin].
      intros Ha. destruct (Hout Ha) as [H|[Ha0 Hr]]; [exact H|].
      rewrite (associated_registered db banner_id t Hk Ha0) in Hr.
      discriminate. }
    split; [exact Hset|].
    intros t Hin. apply associated_tag_ids, Hset in Hin.
    apply (proj2 (patched_store_registry args banner_id now db t) l Hl).
    exact Hin.
Qed.

Lemma tag_set_follows_request_witness :
  (exists banner_id db',
      create_session (post_banner DEFAULT_BANNER "t0" "t0") db_users
      = (inr (JSONResponse (JBannerId banner_id) HTTP_201_CREATED), db')
      /\ get_banner banner_id db' = Some (Banner.mk banner_id 1 DEFAULT_CONTENT true "t0" "t0")
      /\ tag_ids_of db' banner_id = [1; 2; 3]
      /\ (forall t, associated db' banner_id t = true <-> In t [1; 2; 3])
      /\ (forall t, associations db' banner_id t = count_occ Z.eq_dec [1; 2; 3] t)
      /\ (forall t, In t (tag_ids_of db' banner_id) -> tag_exists t db' = true))
  /\ (exists db',
         create_session (patch_banner patch_tags_only 1 "t1") db_default
         = (inr (Response HTTP_200_OK), db')
         /\ (forall t, associated db' 1 t = true <-> In t [9])
         /\ (forall t, In t (tag_ids_of db' 1) -> tag_exists t db' = true)).
Proof.
  split.
  - apply (proj1 (tag_set_follows_request db_users) DEFAULT_BANNER).
    intros bt [].
  - apply (proj2 (tag_set_follows_request db_default) patch_tags_only 1
             "t1"%string default_row [9]); [reflexivity|reflexivity|].
    intros bt Hin. simpl in Hin.
    destruct Hin as [<-|[<-|[<-|[]]]]; reflexivity.
Defined.

(** C9, as stated, fails when a create repeats a tag identifier: creating a
    banner with [tag_ids = [1; 1]] leaves two associations of the banner
    with tag 1. *)
Lemma repeated_tag_counterexample :
  create_session (post_banner post_repeated "t0" "t0") db_users
  = (inr (JSONResponse (JBannerId 1) HTTP_201_CREATED), db_repeated)
  /\ tag_ids_of db_repeated 1 = [1; 1]
  /\ associations db_repeated 1 1 = 2%nat
  /\ associations db_repeated 1 1 <> 1%nat.
Proof. repeat split; vm_compute; discriminate. Qed.

(** ** Listing *)

Lemma py_slice_nil {A} (start stop : Z) : py_slice (@nil A) start stop = [].
Proof. unfold py_slice. rewrite skipn_nil, firstn_nil. reflexivity. Qed.

Lemma get_banners_eq (db : Database) (feature_id tag_id limit : option Z)
    (offset : Z) :
  create_session (get_banners feature_id tag_id limit offset) db
  = (match filtered db feature_id tag_id with
     | inl e => inl e
     | inr rows =>
         inr (JSONResponse
                (JList (map (get_as_dict db) (sliced rows limit offset)))
                HTTP_200_OK)
     end, db).
Proof.
  unfold get_banners, filtered, sliced. run_session.
  destruct tag_id as [i|]; cbn [with_field current committed].
  - destruct (get_tag i db); cbn [current committed].
    + destruct (py_and (feature_clause feature_id) (tag_clause (Some i)));
        reflexivity.
    + destruct limit; [rewrite py_slice_nil|]; reflexivity.
  - destruct (py_and (feature_clause feature_id) (tag_clause None));
      reflexivity.
Qed.

Lemma py_slice_from (A : Type) (rows : list A) (offset limit : Z) :
  0 <= offset -> 0 <= limit ->
  py_slice rows offset (offset + limit)
  = firstn (Z.to_nat limit) (skipn (Z.to_nat offset) rows).
Proof.
  intros Ho Hl. unfold py_slice, slice_index.
  set (len := Z.of_nat (length rows)).
  assert (Hlen : 0 <= len) by (unfold len; lia).
  replace (offset <? 0) with false by (symmetry; apply Z.ltb_ge; lia).
  replace (offset + limit <? 0) with false by (symmetry; apply Z.ltb_ge; lia).
  destruct (Z_le_gt_dec len offset) as [Hge|Hlt].
  - rewrite !skipn_all2 by (unfold len in *; lia).
    rewrite !firstn_nil. reflexivity.
  - rewrite (Z.min_l offset len) by lia.
    destruct (Z_le_gt_dec (offset + limit) len) as [Hin|Hout].
    + rewrite Z.min_l by lia. f_equal. lia.
    + rewrite Z.min_r by lia.
      assert (Hk : length (skipn (Z.to_nat offset) rows) = Z.to_nat (len - offset)).
      { rewrite length_skipn. unfold len. lia. }
      rewrite (firstn_all2 (n := Z.to_nat limit)) by lia.
      rewrite <- Hk. apply firstn_all.
Qed.

Lemma py_slice_beyond (A : Type) (rows : list A) (offset limit : Z) :
  Z.of_nat (length rows) <= offset ->
  py_slice rows offset (offset + limit) = [].
Proof.
  intros Hge. unfold py_slice, slice_index.
  set (len := Z.of_nat (length rows)) in *.
  assert (Hlen : 0 <= len) by (unfold len; lia).
  replace (offset <? 0) with false by (symmetry; apply Z.ltb_ge; lia).
  rewrite (Z.min_r offset len) by lia.
  rewrite skipn_all2 by (unfold len; lia). apply firstn_nil.
Qed.

(** C6. When the filter of a listing yields [rows], the answer is 200 with
    the slice of [rows]: [offset] left out of the request is 0; without
    [limit] all of [rows] is returned; with [limit] the rows from [offset]
    up to [offset + limit] are (for non-negative values, [limit] rows after
    skipping [offset]); [limit = 1], [offset = 0] on a non-empty result,
    such as one of three rows, gives exactly its first record; and an
    [offset] at or beyond the number of rows gives the empty list. *)
Theorem get_banners_slices
    (db : Database) (feature_id tag_id : option Z) (rows : list Banner.t) :
  filtered db feature_id tag_id = inr rows ->
  (forall token limit,
      GET_banner token feature_id tag_id limit None db
      = GET_banner token feature_id tag_id limit (Some 0) db)
  /\ (forall offset,
         create_session (get_banners feature_id tag_id None offset) db
         = (inr (JSONResponse (JList (map (get_as_dict db) rows)) HTTP_200_OK),
            db))
  /\ (forall limit offset,
         create_session (get_banners feature_id tag_id (Some limit) offset) db
         = (inr (JSONResponse
                   (JList (map (get_as_dict db)
                             (py_slice rows offset (offset + limit))))
                   HTTP_200_OK), db))
  /\ (forall limit offset,
         0 <= offset -> 0 <= limit ->
         py_slice rows offset (offset + limit)
         = firstn (Z.to_nat limit) (skipn (Z.to_nat offset) rows))
  /\ (forall first rest,
         rows = first :: rest ->
         create_session (get_banners feature_id tag_id (Some 1) 0) db
         = (inr (JSONResponse (JList [get_as_dict db first]) HTTP_200_OK), db))
  /\ (forall limit offset,
         Z.of_nat (length rows) <= offset ->
         create_session (get_banners feature_id tag_id (Some limit) offset) db
         = (inr (JSONResponse (JList []) HTTP_200_OK), db)).
Proof.
  intros Hf.
  split; [reflexivity|].
  split; [intros offset; rewrite get_banners_eq, Hf; reflexivity|].
  split; [intros limit offset; rewrite get_banners_eq, Hf; reflexivity|].
  split; [intros limit offset; apply py_slice_from|].
  split.
  - intros first rest ->. rewrite get_banners_eq, Hf. unfold sliced.
    rewrite py_slice_from by lia. reflexivity.
  - intros limit offset Hge. rewrite get_banners_eq, Hf. unfold sliced.
    rewrite py_slice_beyond by exact Hge. reflexivity.
Qed.

Lemma get_banners_slices_witness :
  create_session (get_banners (Some 1) (Some 1) None 0) db_three
  = (inr (JSONResponse
            (JList (map (get_as_dict db_three) (banners db_three)))
            HTTP_200_OK), db_three)
  /\ create_session (get_banners (Some 1) (Some 1) (Some 1) 0) db_three
     = (inr (JSONResponse
               (JList [BannerDict.mk 1 [1] 1 "one" true "t0" "t0"])
               HTTP_200_OK), db_three)
  /\ create_session (get_banners (Some 1) (Some 1) (Some 2) 5) db_three
     = (inr (JSONResponse (JList []) HTTP_200_OK), db_three).
Proof.
  destruct (get_banners_slices db_three (Some 1) (Some 1) (banners db_three)
              eq_refl) as (_ & Hall & _ & _ & Hone & Hbeyond).
  split; [exact (Hall 0)|].
  split; [exact (Hone _ _ eq_refl)|].
  apply Hbeyond. vm_compute. discriminate.
Defined.

(** A banner without associations is in no listing, whatever the filters. *)
Lemma untagged_not_listed (db : Database) (feature_id tag_id : option Z)
    (rows : list Banner.t) (b : Banner.t) :
  filtered db feature_id tag_id = inr rows ->
  tag_ids_of db (Banner.banner_id b) = [] ->
  ~ In b rows.
Proof.
  intros Hf Hu Hin.
  assert (Hsel : forall c, ~ In b (select_banner_join_tags c db)).
  { intros c H. apply select_banner_join_tags_In in H.
    destruct H as (_ & bt & t & Hbt & _ & Eb & _).
    assert (Hi : In (BannerTag.tag_id bt) (tag_ids_of db (Banner.banner_id b))).
    { unfold tag_ids_of. apply in_map. apply filter_In.
      split; [exact Hbt|apply Z.eqb_eq; exact Eb]. }
    rewrite Hu in Hi. contradiction. }
  unfold filtered in Hf.
  destruct tag_id as [i|]; cbn [with_field] in Hf.
  - destruct (get_tag i db).
    + destruct (py_and (feature_clause feature_id) (tag_clause (Some i)));
        [discriminate|].
      injection Hf as <-. exact (Hsel _ Hin).
    + injection Hf as <-. contradiction.
  - destruct (py_and (feature_clause feature_id) (tag_clause None));
      [discriminate|].
    injection Hf as <-. exact (Hsel _ Hin).
Qed.

(** C5, where the code departs from it.  The join with [Banner.tags] is
    made whether or not [tag_id] is given: the banner of [db_untagged],
    which has feature 1 and no tag, is missing from the listing without
    filters and from the listing by [feature_id = 1]; the banner of
    [db_default], which has three tags, comes three times in the listing by
    [feature_id = 1].  A [tag_id] that is not registered gives the empty
    list. *)
Theorem get_banners_joins_without_tag_filter :
  get_banner 1 db_untagged = Some (Banner.mk 1 1 "bare" true "t0" "t0")
  /\ GET_banner (Some "admin_token"%string) None None None None db_untagged
     = (inr (JSONResponse (JList []) HTTP_200_OK), db_untagged)
  /\ GET_banner (Some "admin_token"%string) (Some 1) None None None db_untagged
     = (inr (JSONResponse (JList []) HTTP_200_OK), db_untagged)
  /\ GET_banner (Some "admin_token"%string) (Some 1) None None None db_default
     = (inr (JSONResponse (JList [default_dict; default_dict; default_dict])
               HTTP_200_OK), db_default)
  /\ GET_banner (Some "admin_token"%string) (Some 1) (Some 99) None None db_default
     = (inr (JSONResponse (JList []) HTTP_200_OK), db_default).
Proof. repeat split. Qed.

(** A listing by [tag_id] alone, for a registered tag, does not get as far
    as the query: the left operand of [&] is the constant [True]. *)
Lemma get_banners_tag_only_raises :
  GET_banner (Some "admin_token"%string) None (Some 1) None None db_default
  = (inl TypeError, db_default).
Proof. reflexivity. Qed.

(** ** Delete *)

Lemma delete_banner_present (db : Database) (banner_id : Z) (b : Banner.t) :
  get_banner banner_id db = Some b ->
  create_session (delete_banner banner_id) db
  = (inr (Response HTTP_204_NO_CONTENT), delete banner_id db).
Proof. intros H. unfold delete_banner. run_session. rewrite H. reflexivity. Qed.

Lemma delete_banner_absent (db : Database) (banner_id : Z) :
  get_banner banner_id db = None ->
  create_session (delete_banner banner_id) db
  = (inr (Plain (JInt HTTP_404_NOT_FOUND)), db).
Proof. intros H. unfold delete_banner. run_session. rewrite H. reflexivity. Qed.

Lemma delete_removes (db : Database) (banner_id : Z) :
  get_banner banner_id (delete banner_id db) = None
  /\ tag_ids_of (delete banner_id db) banner_id = []
  /\ tags (delete banner_id db) = tags db.
Proof.
  unfold get_banner, tag_ids_of, delete. simpl. repeat split.
  - induction (banners db) as [|b l IH]; [reflexivity|]. simpl.
    destruct (Banner.banner_id b =? banner_id) eqn:E; simpl; [exact IH|].
    rewrite E. exact IH.
  - induction (banner_tags db) as [|bt l IH]; [reflexivity|]. simpl.
    destruct (BannerTag.banner_id bt =? banner_id) eqn:E; simpl; [exact IH|].
    rewrite E. exact IH.
Qed.

(** Deleting a key that has no banner answers with status 200, the number
    404 being the body. *)
Lemma delete_banner_absent_status (db : Database) (banner_id : Z) :
  get_banner banner_id db = None ->
  http_status (fst (create_session (delete_banner banner_id) db)) = 200.
Proof. intros H. rewrite (delete_banner_absent db banner_id H). reflexivity. Qed.

(** C7, where the code departs from it.  Deleting the banner of
    [db_default] answers 204 and removes the row and its associations, the
    tags staying; deleting it a second time returns the number 404 as the
    body of an answer whose status is 200, not 404. *)
Theorem delete_twice_answers_200 :
  DELETE_banner (Some "admin_token"%string) 1 db_default
  = (inr (Response HTTP_204_NO_CONTENT), db_deleted)
  /\ get_banner 1 db_deleted = None
  /\ banner_tags db_deleted = []
  /\ tags db_deleted = tags db_default
  /\ DELETE_banner (Some "admin_token"%string) 1 db_deleted
     = (inr (Plain (JInt 404)), db_deleted)
  /\ http_status (fst (DELETE_banner (Some "admin_token"%string) 1 db_deleted))
     = 200.
Proof. repeat split. Qed.

(** ** Authorization *)

Lemma route_admin_eq (handler : Sess Returned) (token : option string)
    (db : Database) :
  route admin_token_verification handler token db
  = match token with
    | None => (inl (HTTPException HTTP_401_UNAUTHORIZED), db)
    | Some tok =>
        match select_user_where_token tok db with
        | [] => (inl (HTTPException HTTP_401_UNAUTHORIZED), db)
        | user :: _ =>
            if User.admin user
            then create_session handler db
            else (inl (HTTPException HTTP_403_FORBIDDEN), db)
        end
    end.
Proof.
  unfold route, admin_token_verification. destruct token as [tok|];
    [|reflexivity].
  run_session. destruct (select_user_where_token tok db) as [|user rest];
    [reflexivity|].
  destruct (User.admin user); reflexivity.
Qed.

Lemma route_user_eq (handler : Sess Returned) (token : option string)
    (db : Database) :
  route user_token_verification handler token db
  = match token with
    | None => (inl (HTTPException HTTP_401_UNAUTHORIZED), db)
    | Some tok =>
        match select_user_where_token tok db with
        | [] => (inl (HTTPException HTTP_401_UNAUTHORIZED), db)
        | _ :: _ => create_session handler db
        end
    end.
Proof.
  unfold route, user_token_verification. destruct token as [tok|];
    [|reflexivity].
  run_session. destruct (select_user_where_token tok db) as [|user rest];
    [reflexivity|].
  replace (Z.of_nat (length (user :: rest)) <? 1) with false
    by (symmetry; apply Z.ltb_ge; cbn [length]; lia).
  reflexivity.
Qed.

Lemma admin_route_eq (r : AdminRequest) (token : option string) :
  admin_route r token = route admin_token_verification (admin_handler r) token.
Proof. destruct r; reflexivity. Qed.

(** No handler answers 403 by itself. *)
Lemma admin_handler_not_403 (r : AdminRequest) (db : Database) :
  http_status (fst (create_session (admin_handler r) db)) <> 403.
Proof.
  destruct r as [f t l o|args c u|args i now|i]; cbn [admin_handler].
  - rewrite get_banners_eq. unfold filtered.
    destruct t as [j|]; cbn [with_field fst].
    + destruct (get_tag j db); [|discriminate].
      destruct (py_and (feature_clause f) (tag_clause (Some j))) as [e|c] eqn:E;
        [|discriminate].
      destruct f; simpl in E; inversion E. discriminate.
    + destruct f; simpl; discriminate.
  - rewrite post_banner_run. discriminate.
  - destruct (get_banner i db) as [b|] eqn:E.
    + rewrite (patch_banner_run args i now db b E). discriminate.
    + rewrite (patch_banner_missing args i now db E). discriminate.
  - destruct (get_banner i db) as [b|] eqn:E.
    + rewrite (delete_banner_present db i b E). discriminate.
    + rewrite (delete_banner_absent db i E). discriminate.
Qed.

Lemma user_banner_not_403 (db : Database) (tag_id feature_id : Z)
    (use_last_revision : bool) :
  http_status (fst (create_session (user_banner tag_id feature_id use_last_revision) db))
  <> 403.
Proof.
  rewrite user_banner_eq. cbn [fst].
  destruct (first_row db feature_id tag_id); discriminate.
Qed.

(** C8.  On every route a request without a token, or with a token that no
    user has, is answered 401 and the store is untouched; on the four
    admin-only routes (list, create, patch, delete) a token whose user is
    not an administrator is answered 403; a 403 is only ever the answer to
    a token that some user has, so the 401 cases are decided first; and the
    resolve route runs its handler for any token that some user has,
    administrator or not, and never answers 403. *)
Theorem token_verification_gates
    (db : Database) (r : AdminRequest) (tag_id feature_id : Z)
    (use_last_revision : bool) :
  (admin_route r None db = (inl (HTTPException 401), db)
   /\ GET_user_banner None tag_id feature_id use_last_revision db
      = (inl (HTTPException 401), db))
  /\ (forall tok,
         select_user_where_token tok db = [] ->
         admin_route r (Some tok) db = (inl (HTTPException 401), db)
         /\ GET_user_banner (Some tok) tag_id feature_id use_last_revision db
            = (inl (HTTPException 401), db))
  /\ (forall tok user rest,
         select_user_where_token tok db = user :: rest ->
         User.admin user = false ->
         admin_route r (Some tok) db = (inl (HTTPException 403), db))
  /\ (forall token,
         http_status (fst (admin_route r token db)) = 403 ->
         exists tok user rest,
           token = Some tok
           /\ select_user_where_token tok db = user :: rest
           /\ User.admin user = false)
  /\ (forall token,
         http_status
           (fst (GET_user_banner token tag_id feature_id use_last_revision db))
         <> 403)
  /\ (forall tok user rest,
         select_user_where_token tok db = user :: rest ->
         GET_user_banner (Some tok) tag_id feature_id use_last_revision db
         = create_session (user_banner tag_id feature_id use_last_revision) db)
  /\ (forall tok user rest,
         select_user_where_token tok db = user :: rest ->
         User.admin user = true ->
         admin_route r (Some tok) db = create_session (admin_handler r) db).
Proof.
  unfold GET_user_banner.
  split;
    [split; [rewrite admin_route_eq, route_admin_eq|rewrite route_user_eq];
     reflexivity|].
  split.
  { intros tok H. rewrite admin_route_eq, route_admin_eq, route_user_eq, H.
    split; reflexivity. }
  split.
  { intros tok user rest H Ha.
    rewrite admin_route_eq, route_admin_eq, H, Ha. reflexivity. }
  split.
  { intros token. rewrite admin_route_eq, route_admin_eq.
    destruct token as [tok|]; [|discriminate].
    destruct (select_user_where_token tok db) as [|user rest] eqn:E;
      [discriminate|].
    destruct (User.admin user) eqn:Ea.
    - intros H. destruct (admin_handler_not_403 r db H).
    - intros _. exists tok, user, rest. split; [reflexivity|].
      split; [exact E|exact Ea]. }
  split.
  { intros token. rewrite route_user_eq.
    destruct token as [tok|]; [|discriminate].
    destruct (select_user_where_token tok db); [discriminate|].
    apply user_banner_not_403. }
  split.
  { intros tok user rest H. rewrite route_user_eq, H. reflexivity. }
  intros tok user rest H Ha.
  rewrite admin_route_eq, route_admin_eq, H, Ha. reflexivity.
Qed.

Lemma token_verification_gates_witness :
  (admin_route (DeleteBanner 1) (Some "wrong_token"%string) db_default
   = (inl (HTTPException 401), db_default)
   /\ GET_user_banner (Some "wrong_token"%string) 1 1 true db_default
      = (inl (HTTPException 401), db_default))
  /\ admin_route (DeleteBanner 1) (Some "test_token"%string) db_default
     = (inl (HTTPException 403), db_default)
  /\ GET_user_banner (Some "test_token"%string) 1 1 true db_default
     = create_session (user_banner 1 1 true) db_default
  /\ admin_route (DeleteBanner 1) (Some "admin_token"%string) db_default
     = create_session (admin_handler (DeleteBanner 1)) db_default.
Proof.
  destruct (token_verification_gates db_default (DeleteBanner 1) 1 1 true)
    as (_ & Hwrong & Hforbidden & _ & _ & Huser & Hadmin).
  split; [apply Hwrong; reflexivity|].
  split; [apply (Hforbidden _ test_user []); reflexivity|].
  split; [apply (Huser _ test_user []); reflexivity|].
  apply (Hadmin _ admin_user []); reflexivity.
Defined.

(** ** Foreign keys are kept by every request *)

Lemma has_key (db : Database) (banner_id : Z) (b : Banner.t) :
  get_banner banner_id db = Some b ->
  In banner_id (map Banner.banner_id (banners db)).
Proof.
  unfold get_banner. intros H. apply find_some in H. destruct H as [Hin E].
  apply Z.eqb_eq in E. subst banner_id. apply in_map. exact Hin.
Qed.

Lemma ensure_all_keys (l : list Z) (db : Database) :
  foreign_keys_ok db -> foreign_keys_ok (snd (ensure_all l db)).
Proof.
  intros [Hb Ht]. destruct (ensure_all_tables l db) as (_ & Ebs & Ebt).
  unfold foreign_keys_ok, banner_key_ok, tag_key_ok. rewrite Ebs, Ebt.
  split; intros bt Hbt; [apply Hb; exact Hbt|].
  apply ensure_all_keeps. apply Ht. exact Hbt.
Qed.

Lemma append_all_keys (banner_id : Z) (l : list Tag.t) (db : Database) :
  In banner_id (map Banner.banner_id (banners db)) ->
  (forall t, In t l -> tag_exists (Tag.tag_id t) db = true) ->
  foreign_keys_ok db -> foreign_keys_ok (append_all banner_id l db).
Proof.
  unfold append_all. revert db. induction l as [|t l IH]; intros db Hin Hl Hk.
  - exact Hk.
  - simpl. apply IH; [exact Hin|intros x Hx; apply Hl; right; exact Hx|].
    destruct Hk as [Hb Ht]. split; intros bt Hbt; apply in_app_or in Hbt;
      destruct Hbt as [Hbt|[<-|[]]].
    + apply Hb. exact Hbt.
    + exact Hin.
    + apply Ht. exact Hbt.
    + apply Hl. left. reflexivity.
Qed.

Lemma ensure_all_registered (l : list Z) (db : Database) (t : Tag.t) :
  In t (fst (ensure_all l db)) ->
  tag_exists (Tag.tag_id t) (snd (ensure_all l db)) = true.
Proof.
  intros Hin. apply ensure_all_exists.
  rewrite <- (ensure_all_ids l db). apply in_map. exact Hin.
Qed.

Lemma retag_step_store (banner_id : Z) (s : Collection * Database) (t : Z) :
  snd (retag_step banner_id s t)
  = snd (ensure t (if in_identity_map (fst s) t
                   then snd s
                   else flush_tags banner_id (fst s) (snd s))).
Proof.
  unfold retag_step, ensure.
  destruct (get_tag t _); reflexivity.
Qed.

Lemma retag_step_items (banner_id : Z) (s : Collection * Database) (t : Z) :
  items (fst (retag_step banner_id s t)) = items (fst s) ++ [t].
Proof.
  unfold retag_step.
  destruct (get_tag t _) as [tag|] eqn:Eg; cbn [fst items].
  - unfold get_tag in Eg. apply find_some in Eg. destruct Eg as [_ Eg].
    apply Z.eqb_eq in Eg. rewrite Eg.
    destruct (in_identity_map (fst s) t); reflexivity.
  - destruct (in_identity_map (fst s) t); reflexivity.
Qed.

Lemma flush_tags_keys (banner_id : Z) (c : Collection) (db : Database) :
  In banner_id (map Banner.banner_id (banners db)) ->
  (forall t, In t (items c) -> tag_exists t db = true) ->
  foreign_keys_ok db -> foreign_keys_ok (flush_tags banner_id c db).
Proof.
  intros Hin Hreg [Hb Ht]. unfold flush_tags. apply append_all_keys.
  - exact Hin.
  - intros t Ht'. apply in_map_iff in Ht'. destruct Ht' as (i & <- & Hi).
    apply filter_In in Hi. destruct Hi as [Hi _].
    apply (Hreg i Hi).
  - split; intros bt Hbt; cbn [banner_tags] in Hbt; apply filter_In in Hbt;
      destruct Hbt as [Hbt _]; [apply (Hb bt Hbt)|apply (Ht bt Hbt)].
Qed.

(** A round of the loop of a patch keeps the foreign keys, the tags of the
    collection being registered. *)
Lemma retag_step_keys (banner_id : Z) (s : Collection * Database) (t : Z) :
  In banner_id (map Banner.banner_id (banners (snd s))) ->
  (forall x, In x (items (fst s)) -> tag_exists x (snd s) = true) ->
  foreign_keys_ok (snd s) ->
  In banner_id (map Banner.banner_id (banners (snd (retag_step banner_id s t))))
  /\ (forall x, In x (items (fst (retag_step banner_id s t))) ->
                tag_exists x (snd (retag_step banner_id s t)) = true)
  /\ foreign_keys_ok (snd (retag_step banner_id s t)).
Proof.
  intros Hin Hreg Hk. rewrite retag_step_store, retag_step_items.
  destruct s as [c db]. cbn [fst snd] in *.
  assert (H1 : In banner_id
                 (map Banner.banner_id
                    (banners (if in_identity_map c t then db
                              else flush_tags banner_id c db)))
               /\ (forall x, In x (items c) ->
                             tag_exists x (if in_identity_map c t then db
                                           else flush_tags banner_id c db)
                             = true)
               /\ foreign_keys_ok (if in_identity_map c t then db
                                   else flush_tags banner_id c db)).
  { destruct (in_identity_map c t); [split; [|split]; assumption|].
    destruct (flush_tags_tables banner_id c db) as (_ & Et & Eb).
    split; [rewrite Eb; exact Hin|].
    split; [|apply flush_tags_keys; assumption].
    intros x Hx. rewrite (tag_exists_tags _ _ x Et). apply Hreg. exact Hx. }
  destruct H1 as (Hin1 & Hreg1 & Hk1).
  set (db1 := if in_identity_map c t then db else flush_tags banner_id c db) in *.
  destruct (ensure_tables t db1) as (_ & Eb & _).
  split; [rewrite Eb; exact Hin1|].
  split; [|exact (ensure_all_keys [t] db1 Hk1)].
  intros x Hx. apply in_app_or in Hx. destruct Hx as [Hx|[<-|[]]].
  - apply ensure_keeps. apply Hreg1. exact Hx.
  - apply ensure_exists.
Qed.

Lemma retag_loop_keys (banner_id : Z) (l : list Z) (s : Collection * Database) :
  In banner_id (map Banner.banner_id (banners (snd s))) ->
  (forall x, In x (items (fst s)) -> tag_exists x (snd s) = true) ->
  foreign_keys_ok (snd s) ->
  In banner_id (map Banner.banner_id (banners (snd (retag_loop banner_id l s))))
  /\ (forall x, In x (items (fst (retag_loop banner_id l s))) ->
                tag_exists x (snd (retag_loop banner_id l s)) = true)
  /\ foreign_keys_ok (snd (retag_loop banner_id l s)).
Proof.
  unfold retag_loop. revert s.
  induction l as [|t l IH]; intros s Hin Hreg Hk; cbn [fold_left].
  - split; [|split]; assumption.
  - destruct (retag_step_keys banner_id s t Hin Hreg Hk) as (H1 & H2 & H3).
    apply IH; assumption.
Qed.

Lemma update_banner_keys (banner_id : Z) (f : Banner.t -> Banner.t)
    (db : Database) :
  (forall b, Banner.banner_id (f b) = Banner.banner_id b) ->
  foreign_keys_ok db -> foreign_keys_ok (update_banner banner_id f db).
Proof.
  intros Hf [Hb Ht]. split; [|exact Ht].
  intros bt Hbt. unfold update_banner. cbn [banners]. rewrite map_map.
  rewrite (map_ext _ Banner.banner_id); [apply Hb; exact Hbt|].
  intros b. destruct (Banner.banner_id b =? banner_id); [apply Hf|reflexivity].
Qed.

Lemma patched_store_keys (args : PatchBanner.t) (banner_id : Z) (now : string)
    (db : Database) (b : Banner.t) :
  get_banner banner_id db = Some b ->
  foreign_keys_ok db -> foreign_keys_ok (patched_store args banner_id now db).
Proof.
  intros Hg Hk. unfold patched_store.
  assert (Hr : foreign_keys_ok (retagged args banner_id db)).
  { unfold retagged, with_field. destruct (PatchBanner.tag_ids args) as [l|];
      [|exact Hk].
    destruct (retag_loop_keys banner_id l
                (mkCollection (loaded_tags db banner_id) [] [], db))
      as (H1 & H2 & H3); cbn [fst snd items].
    - exact (has_key db banner_id b Hg).
    - intros x [].
    - exact Hk.
    - apply flush_tags_keys; assumption. }
  destruct (PatchBanner.is_active args), (PatchBanner.content args),
    (PatchBanner.feature_id args); unfold with_field;
    repeat (apply update_banner_keys; [reflexivity|]); exact Hr.
Qed.

Lemma posted_store_keys (args : PostBanner.t) (created updated : string)
    (db : Database) :
  foreign_keys_ok db -> foreign_keys_ok (posted_store args created updated db).
Proof.
  intros Hk. unfold posted_store. apply append_all_keys.
  - unfold add_banner. cbn [banners]. rewrite map_app. apply in_or_app.
    right. left. reflexivity.
  - intros t Hin. unfold tag_exists, add_banner. cbn [tags].
    apply ensure_all_registered. exact Hin.
  - apply (ensure_all_keys (PostBanner.tag_ids args)) in Hk.
    destruct Hk as [Hb Ht]. split; [|exact Ht].
    intros bt Hbt. unfold add_banner. cbn [banners]. rewrite map_app.
    apply in_or_app. left. apply Hb. exact Hbt.
Qed.

Lemma delete_keys (banner_id : Z) (db : Database) :
  foreign_keys_ok db -> foreign_keys_ok (delete banner_id db).
Proof.
  intros [Hb Ht]. split; intros bt Hbt; apply filter_In in Hbt;
    destruct Hbt as [Hbt Hne]; [|apply Ht; exact Hbt].
  unfold delete. cbn [banners]. specialize (Hb bt Hbt).
  apply in_map_iff in Hb. destruct Hb as (b & Eb & Hin).
  apply in_map_iff. exists b. split; [exact Eb|].
  apply filter_In. split; [exact Hin|]. rewrite Eb. exact Hne.
Qed.

Lemma admin_handler_keys (r : AdminRequest) (db : Database) :
  foreign_keys_ok db ->
  foreign_keys_ok (snd (create_session (admin_handler r) db)).
Proof.
  intros Hk. destruct r as [f t l o|args c u|args i now|i]; cbn [admin_handler].
  - rewrite get_banners_eq. exact Hk.
  - rewrite post_banner_run. apply posted_store_keys. exact Hk.
  - destruct (get_banner i db) as [b|] eqn:E.
    + rewrite (patch_banner_run args i now db b E).
      apply (patched_store_keys args i now db b E Hk).
    + rewrite (patch_banner_missing args i now db E). exact Hk.
  - destruct (get_banner i db) as [b|] eqn:E.
    + rewrite (delete_banner_present db i b E). apply delete_keys. exact Hk.
    + rewrite (delete_banner_absent db i E). exact Hk.
Qed.

(** Every store built by requests has both foreign keys. *)
Lemma reachable_keys (db : Database) : reachable db -> foreign_keys_ok db.
Proof.
  induction 1 as [us|db r token _ IH|db token t f u _ IH].
  - split; intros bt [].
  - rewrite admin_route_eq, route_admin_eq.
    destruct token as [tok|]; [|exact IH].
    destruct (select_user_where_token tok db) as [|user rest]; [exact IH|].
    destruct (User.admin user); [apply admin_handler_keys|]; exact IH.
  - unfold GET_user_banner. rewrite route_user_eq.
    destruct token as [tok|]; [|exact IH].
    destruct (select_user_where_token tok db); [exact IH|].
    rewrite user_banner_eq. exact IH.
Qed.

(** * Further properties of the handlers *)

(** ** Reads and token checks *)

Lemma verification_read_only (token : option string) (db : Database) :
  snd (create_session (user_token_verification token) db) = db
  /\ snd (create_session (admin_token_verification token) db) = db.
Proof.
  unfold user_token_verification, admin_token_verification.
  destruct token as [tok|]; [|split; reflexivity]. run_session.
  destruct (select_user_where_token tok db) as [|user rest];
    [split; reflexivity|].
  split.
  - destruct (Z.of_nat (length (user :: rest)) <? 1); reflexivity.
  - destruct (User.admin user); reflexivity.
Qed.

(** X1.  The two GET routes never write: whatever the token and the
    parameters, and whatever they answer (also 401, 403, 404 or an error),
    the store after the request is the store before it. *)
Theorem get_routes_read_only
    (db : Database) (token : option string) (tag_id feature_id : Z)
    (use_last_revision : bool) (f t limit offset : option Z) :
  snd (GET_user_banner token tag_id feature_id use_last_revision db) = db
  /\ snd (GET_banner token f t limit offset db) = db.
Proof.
  unfold GET_user_banner, GET_banner. rewrite route_user_eq, route_admin_eq.
  destruct token as [tok|]; [|split; reflexivity].
  destruct (select_user_where_token tok db) as [|user rest];
    [split; reflexivity|].
  split.
  - rewrite user_banner_eq. reflexivity.
  - destruct (User.admin user); [|reflexivity].
    rewrite get_banners_eq. reflexivity.
Qed.

(** X2.  Whatever [user_banner] returns without raising is a 200 answer
    that carries the content of a stored banner which is active, has the
    requested feature and is associated with the requested tag, the tag
    being registered: an inactive banner is never resolved. *)
Theorem user_banner_sound
    (db : Database) (tag_id feature_id : Z) (use_last_revision : bool)
    (r : Returned) :
  fst (create_session (user_banner tag_id feature_id use_last_revision) db)
  = inr r ->
  exists b,
    r = JSONResponse (JStr (Banner.content b)) HTTP_200_OK
    /\ In b (banners db)
    /\ Banner.is_active b = true
    /\ Banner.feature_id b = feature_id
    /\ associated db (Banner.banner_id b) tag_id = true
    /\ tag_exists tag_id db = true.
Proof.
  intros H. apply user_banner_returns in H.
  destruct H as (b & -> & Hin & Ht). exists b.
  apply filter_In in Hin. destruct Hin as [Hin Hm].
  apply andb_prop in Hm. destruct Hm as [Hm Ha].
  apply andb_prop in Hm. destruct Hm as [Hact Hf]. apply Z.eqb_eq in Hf.
  repeat split; assumption.
Qed.

Lemma user_banner_sound_witness :
  exists b,
    JSONResponse (JStr DEFAULT_CONTENT) HTTP_200_OK
    = JSONResponse (JStr (Banner.content b)) HTTP_200_OK
    /\ In b (banners db_default)
    /\ Banner.is_active b = true
    /\ Banner.feature_id b = 1
    /\ associated db_default (Banner.banner_id b) 2 = true
    /\ tag_exists 2 db_default = true.
Proof.
  apply (user_banner_sound db_default 2 1 false). reflexivity.
Defined.

(** X3.  A token that passes [admin_token_verification] passes
    [user_token_verification]: an administrator may also resolve banners. *)
Theorem admin_token_passes_user_check (db : Database) (token : option string) :
  fst (create_session (admin_token_verification token) db) = inr tt ->
  fst (create_session (user_token_verification token) db) = inr tt.
Proof.
  unfold user_token_verification, admin_token_verification.
  destruct token as [tok|]; [|discriminate]. run_session.
  destruct (select_user_where_token tok db) as [|user rest]; [discriminate|].
  intros _.
  replace (Z.of_nat (length (user :: rest)) <? 1) with false
    by (symmetry; apply Z.ltb_ge; cbn [length]; lia).
  reflexivity.
Qed.

Lemma admin_token_passes_user_check_witness :
  fst (create_session (user_token_verification (Some "admin_token"%string))
         db_default) = inr tt.
Proof.
  apply (admin_token_passes_user_check db_default (Some "admin_token"%string)).
  reflexivity.
Defined.

(** ** Keys *)

Lemma NoDup_snoc (A : Type) (l : list A) (x : A) :
  NoDup l -> ~ In x l -> NoDup (l ++ [x]).
Proof.
  induction l as [|y l IH]; intros Hd Hx; simpl.
  - constructor; [intros []|constructor].
  - inversion Hd as [|y' l' Hy Hl]; subst. constructor.
    + intros Hin. apply in_app_or in Hin. destruct Hin as [Hin|[->|[]]].
      * contradiction.
      * apply Hx. left. reflexivity.
    + apply IH; [exact Hl|]. intros Hin. apply Hx. right. exact Hin.
Qed.

Lemma NoDup_map_filter (A : Type) (key : A -> Z) (p : A -> bool) (l : list A) :
  NoDup (map key l) -> NoDup (map key (filter p l)).
Proof.
  induction l as [|x l IH]; simpl; intros Hd; [constructor|].
  inversion Hd as [|y l' Hx Hl]; subst.
  destruct (p x); [|apply IH; exact Hl]. simpl. constructor.
  - intros Hin. apply Hx. apply in_map_iff in Hin.
    destruct Hin as (z & E & Hz). apply filter_In in Hz.
    apply in_map_iff. exists z. split; [exact E|apply Hz].
  - apply IH. exact Hl.
Qed.

Lemma next_id_not_in (ids : list Z) : ~ In (next_id ids) ids.
Proof. intros H. apply next_id_fresh in H. lia. Qed.

Lemma get_tag_none (db : Database) (i : Z) :
  get_tag i db = None -> ~ In i (map Tag.tag_id (tags db)).
Proof.
  unfold get_tag. intros Hn Hin. apply in_map_iff in Hin.
  destruct Hin as (t & E & Ht).
  apply (find_none _ _ Hn) in Ht. apply Z.eqb_neq in Ht. contradiction.
Qed.

Lemma ensure_primary (i : Z) (db : Database) :
  primary_keys_ok db -> primary_keys_ok (snd (ensure i db)).
Proof.
  intros (Ht & Hb & Ha). unfold ensure.
  destruct (get_tag i db) eqn:E; [repeat split; assumption|].
  repeat split; [|exact Hb|exact Ha]. cbn [snd add_tag tags].
  rewrite map_app. apply NoDup_snoc; [exact Ht|].
  apply get_tag_none. exact E.
Qed.

Lemma append_tag_primary (banner_id : Z) (t : Tag.t) (db : Database) :
  primary_keys_ok db -> primary_keys_ok (append_tag banner_id t db).
Proof.
  intros (Ht & Hb & Ha). repeat split; [exact Ht|exact Hb|].
  unfold append_tag. cbn [banner_tags]. rewrite map_app.
  apply NoDup_snoc; [exact Ha|]. apply next_id_not_in.
Qed.

Lemma ensure_all_primary (l : list Z) (db : Database) :
  primary_keys_ok db -> primary_keys_ok (snd (ensure_all l db)).
Proof.
  revert db. induction l as [|i l IH]; intros db Hk; [exact Hk|].
  simpl. apply IH. apply ensure_primary. exact Hk.
Qed.

Lemma append_all_primary (banner_id : Z) (l : list Tag.t) (db : Database) :
  primary_keys_ok db -> primary_keys_ok (append_all banner_id l db).
Proof.
  unfold append_all. revert db. induction l as [|t l IH]; intros db Hk;
    [exact Hk|].
  simpl. apply IH. apply append_tag_primary. exact Hk.
Qed.

Lemma flush_tags_primary (banner_id : Z) (c : Collection) (db : Database) :
  primary_keys_ok db -> primary_keys_ok (flush_tags banner_id c db).
Proof.
  intros (Ht & Hb & Ha). unfold flush_tags. apply append_all_primary.
  repeat split; [exact Ht|exact Hb|].
  apply NoDup_map_filter. exact Ha.
Qed.

Lemma retag_loop_primary (banner_id : Z) (l : list Z)
    (s : Collection * Database) :
  primary_keys_ok (snd s) ->
  primary_keys_ok (snd (retag_loop banner_id l s)).
Proof.
  unfold retag_loop. revert s.
  induction l as [|t l IH]; intros s Hk; cbn [fold_left]; [exact Hk|].
  apply IH. rewrite retag_step_store. apply ensure_primary.
  destruct (in_identity_map (fst s) t);
    [exact Hk|apply flush_tags_primary; exact Hk].
Qed.

Lemma update_banner_ids (banner_id : Z) (f : Banner.t -> Banner.t)
    (db : Database) :
  (forall b, Banner.banner_id (f b) = Banner.banner_id b) ->
  map Banner.banner_id (banners (update_banner banner_id f db))
  = map Banner.banner_id (banners db).
Proof.
  intros Hf. unfold update_banner. cbn [banners]. rewrite map_map.
  apply map_ext. intros b.
  destruct (Banner.banner_id b =? banner_id); [apply Hf|reflexivity].
Qed.

Lemma update_banner_primary (banner_id : Z) (f : Banner.t -> Banner.t)
    (db : Database) :
  (forall b, Banner.banner_id (f b) = Banner.banner_id b) ->
  primary_keys_ok db -> primary_keys_ok (update_banner banner_id f db).
Proof.
  intros Hf (Ht & Hb & Ha). repeat split; [exact Ht| |exact Ha].
  rewrite (update_banner_ids banner_id f db Hf). exact Hb.
Qed.

Lemma patched_store_primary (args : PatchBanner.t) (banner_id : Z)
    (now : string) (db : Database) :
  primary_keys_ok db -> primary_keys_ok (patched_store args banner_id now db).
Proof.
  intros Hk. unfold patched_store.
  assert (Hr : primary_keys_ok (retagged args banner_id db)).
  { unfold retagged, with_field. destruct (PatchBanner.tag_ids args) as [l|];
      [|exact Hk].
    apply flush_tags_primary. apply retag_loop_primary. exact Hk. }
  destruct (PatchBanner.is_active args), (PatchBanner.content args),
    (PatchBanner.feature_id args); unfold with_field;
    repeat (apply update_banner_primary; [reflexivity|]); exact Hr.
Qed.

Lemma posted_store_primary (args : PostBanner.t) (created updated : string)
    (db : Database) :
  primary_keys_ok db -> primary_keys_ok (posted_store args created updated db).
Proof.
  intros Hk. unfold posted_store. apply append_all_primary.
  apply (ensure_all_primary (PostBanner.tag_ids args)) in Hk.
  destruct Hk as (Ht & Hb & Ha). repeat split; [exact Ht| |exact Ha].
  unfold add_banner. cbn [banners]. rewrite map_app.
  apply NoDup_snoc; [exact Hb|]. apply next_id_not_in.
Qed.

Lemma delete_primary (banner_id : Z) (db : Database) :
  primary_keys_ok db -> primary_keys_ok (delete banner_id db).
Proof.
  intros (Ht & Hb & Ha). repeat split; [exact Ht| |];
    apply NoDup_map_filter; assumption.
Qed.

Lemma admin_handler_primary (r : AdminRequest) (db : Database) :
  primary_keys_ok db ->
  primary_keys_ok (snd (create_session (admin_handler r) db)).
Proof.
  intros Hk. destruct r as [f t l o|args c u|args i now|i]; cbn [admin_handler].
  - rewrite get_banners_eq. exact Hk.
  - rewrite post_banner_run. apply posted_store_primary. exact Hk.
  - destruct (get_banner i db) as [b|] eqn:E.
    + rewrite (patch_banner_run args i now db b E).
      apply patched_store_primary. exact Hk.
    + rewrite (patch_banner_missing args i now db E). exact Hk.
  - destruct (get_banner i db) as [b|] eqn:E.
    + rewrite (delete_banner_present db i b E). apply delete_primary. exact Hk.
    + rewrite (delete_banner_absent db i E). exact Hk.
Qed.

(** What a route leaves behind is the store as it was, or the store its
    handler leaves. *)
Lemma admin_route_store (r : AdminRequest) (token : option string)
    (db : Database) :
  snd (admin_route r token db) = db
  \/ snd (admin_route r token db) = snd (create_session (admin_handler r) db).
Proof.
  rewrite admin_route_eq, route_admin_eq.
  destruct token as [tok|]; [|left; reflexivity].
  destruct (select_user_where_token tok db) as [|user rest];
    [left; reflexivity|].
  destruct (User.admin user); [right|left]; reflexivity.
Qed.

(** X4.  Every admin-only request (list, create, patch, delete), whatever
    its token and its outcome, keeps the primary keys: on a store in which
    no two tags, no two banners and no two associations share a key, the
    store after the request is such a store again. *)
Theorem requests_keep_primary_keys
    (db : Database) (r : AdminRequest) (token : option string) :
  primary_keys_ok db -> primary_keys_ok (snd (admin_route r token db)).
Proof.
  intros Hk. destruct (admin_route_store r token db) as [-> | ->];
    [exact Hk|]. apply admin_handler_primary. exact Hk.
Qed.

Lemma db_default_primary : primary_keys_ok db_default.
Proof.
  repeat split; vm_compute;
    repeat (constructor; [simpl; intuition discriminate|]); constructor.
Qed.

Lemma requests_keep_primary_keys_witness :
  primary_keys_ok
    (snd (admin_route (PatchBannerById patch_repeated 1 "t1")
            (Some "admin_token"%string) db_default)).
Proof.
  apply (requests_keep_primary_keys db_default). exact db_default_primary.
Defined.

(** X5.  Every admin-only request keeps the two foreign keys of the
    association table: on a store in which every association refers to a
    stored banner and to a registered tag, so it does after the request;
    in particular a delete leaves no association of the deleted banner and
    a create or patch registers every tag it associates. *)
Theorem requests_keep_foreign_keys
    (db : Database) (r : AdminRequest) (token : option string) :
  foreign_keys_ok db -> foreign_keys_ok (snd (admin_route r token db)).
Proof.
  intros Hk. destruct (admin_route_store r token db) as [-> | ->];
    [exact Hk|]. apply admin_handler_keys. exact Hk.
Qed.

Lemma db_default_foreign : foreign_keys_ok db_default.
Proof.
  apply reachable_keys.
  exact (reachable_admin db_users (CreateBanner DEFAULT_BANNER "t0" "t0")
           (Some "admin_token"%string) (reachable_init [admin_user; test_user])).
Qed.

Lemma requests_keep_foreign_keys_witness :
  foreign_keys_ok
    (snd (admin_route (DeleteBanner 1) (Some "admin_token"%string) db_default)).
Proof.
  apply (requests_keep_foreign_keys db_default). exact db_default_foreign.
Defined.

(** ** Create *)

Lemma ensure_all_only (l : list Z) (db : Database) (j : Z) :
  tag_exists j (snd (ensure_all l db)) = true ->
  tag_exists j db = true \/ In j l.
Proof.
  revert db. induction l as [|i l IH]; intros db; simpl; [left; assumption|].
  intros H. apply IH in H. destruct H as [H|H]; [|right; right; exact H].
  apply ensure_only in H. destruct H as [H|H]; [left|right; left]; congruence.
Qed.

Lemma get_banner_app (db : Database) (b : Banner.t) (other : Z) :
  other <> Banner.banner_id b ->
  find (fun x => Banner.banner_id x =? other) (banners db ++ [b])
  = get_banner other db.
Proof.
  intros Hne. unfold get_banner.
  induction (banners db) as [|x l IH]; simpl.
  - replace (Banner.banner_id b =? other) with false
      by (symmetry; apply Z.eqb_neq; congruence).
    reflexivity.
  - destruct (Banner.banner_id x =? other); [reflexivity|exact IH].
Qed.

(** The tags that a run of get-or-create adds were not registered. *)
Lemma ensure_all_added (l : list Z) (db : Database) :
  exists added,
    tags (snd (ensure_all l db)) = tags db ++ added
    /\ forall t, In t added -> tag_exists (Tag.tag_id t) db = false.
Proof.
  revert db. induction l as [|i l IH]; intros db.
  - exists []. split; [symmetry; apply app_nil_r|intros t []].
  - cbn [ensure_all snd]. destruct (IH (snd (ensure i db))) as (a2 & -> & H2).
    assert (H2' : forall t, In t a2 -> tag_exists (Tag.tag_id t) db = false).
    { intros t Ht. specialize (H2 t Ht).
      destruct (tag_exists (Tag.tag_id t) db) eqn:E; [|reflexivity].
      rewrite (ensure_keeps i db _ E) in H2. discriminate. }
    unfold ensure. destruct (get_tag i db) eqn:Eg; cbn [snd].
    + exists a2. split; [reflexivity|exact H2'].
    + exists (Tag.mk i :: a2). cbn [add_tag tags]. rewrite <- app_assoc.
      split; [reflexivity|].
      intros t [<-|Ht]; [|apply H2'; exact Ht]. cbn [Tag.tag_id].
      destruct (tag_exists i db) eqn:E; [|reflexivity].
      apply get_tag_exists in E. congruence.
Qed.

Lemma posted_store_associations (args : PostBanner.t) (created updated : string)
    (db : Database) :
  exists added,
    banner_tags (posted_store args created updated db) = banner_tags db ++ added
    /\ forall bt, In bt added -> BannerTag.banner_id bt = posted_key db.
Proof.
  unfold posted_store.
  destruct (ensure_all_tables (PostBanner.tag_ids args) db) as (_ & Eb & Ebt).
  rewrite Eb. fold (posted_key db).
  set (d := add_banner _ _).
  assert (Hd : banner_tags d = banner_tags db) by (unfold d, add_banner; exact Ebt).
  rewrite <- Hd. clear Hd. clearbody d.
  generalize (fst (ensure_all (PostBanner.tag_ids args) db)). intros l.
  unfold append_all. revert d. induction l as [|t l IH]; intros d.
  - exists []. split; [symmetry; apply app_nil_r|intros bt []].
  - cbn [fold_left]. destruct (IH (append_tag (posted_key db) t d))
      as (a2 & -> & Ha2).
    unfold append_tag. cbn [banner_tags]. eexists. rewrite <- app_assoc.
    split; [reflexivity|].
    intros bt [<-|Hin]; [reflexivity|apply Ha2; exact Hin].
Qed.

Lemma flat_map_ext_in (A B : Type) (f g : A -> list B) (l : list A) :
  (forall a, In a l -> f a = g a) -> flat_map f l = flat_map g l.
Proof.
  induction l as [|a l IH]; intros H; [reflexivity|]. cbn [flat_map].
  rewrite (H a (or_introl eq_refl)), IH; [reflexivity|].
  intros x Hx. apply H. right. exact Hx.
Qed.

Lemma flat_map_nil (A B : Type) (f : A -> list B) (l : list A) :
  (forall a, In a l -> f a = []) -> flat_map f l = [].
Proof.
  induction l as [|a l IH]; intros H; [reflexivity|]. cbn [flat_map].
  rewrite (H a (or_introl eq_refl)), IH; [reflexivity|].
  intros x Hx. apply H. right. exact Hx.
Qed.

(** The tables after a create. *)
Section Posted.
Variables (args : PostBanner.t) (created updated : string) (db : Database).

Lemma posted_store_tables :
  users (posted_store args created updated db) = users db
  /\ tags (posted_store args created updated db)
     = tags (snd (ensure_all (PostBanner.tag_ids args) db))
  /\ banners (posted_store args created updated db) = banners db ++ [(posted_row args created updated db)].
Proof.
  unfold posted_store, posted_row, posted_key.
  destruct (ensure_all_tables (PostBanner.tag_ids args) db) as (Hu & Hb & _).
  rewrite Hb.
  match goal with
  | |- context [append_all ?i ?l ?d] =>
      destruct (append_all_tables i l d) as (-> & -> & ->)
  end.
  unfold add_banner. cbn [users tags banners]. rewrite Hu, Hb.
  repeat split.
Qed.

Lemma posted_store_tag_ids_of (other : Z) :
  tag_ids_of (posted_store args created updated db) other
  = tag_ids_of db other
    ++ (if (posted_key db) =? other then PostBanner.tag_ids args else []).
Proof.
  unfold posted_store, posted_key.
  destruct (ensure_all_tables (PostBanner.tag_ids args) db) as (_ & Hb & Hbt).
  rewrite Hb, append_all_tag_ids, ensure_all_ids.
  unfold tag_ids_of, add_banner. cbn [banner_tags]. rewrite Hbt. reflexivity.
Qed.

Lemma posted_store_registry (t : Z) :
  tag_exists t (posted_store args created updated db) = true
  <-> tag_exists t db = true \/ In t (PostBanner.tag_ids args).
Proof.
  destruct posted_store_tables as (_ & Ht & _).
  rewrite (tag_exists_tags _ _ t Ht). unfold tag_exists at 1.
  fold (tag_exists t (snd (ensure_all (PostBanner.tag_ids args) db))).
  split; [apply ensure_all_only|].
  intros [H|H]; [apply ensure_all_keeps|apply ensure_all_exists]; exact H.
Qed.

Lemma posted_key_other (b : Banner.t) :
  In b (banners db) -> (posted_key db) <> Banner.banner_id b.
Proof.
  intros Hin E.
  apply (next_id_not_in (map Banner.banner_id (banners db))).
  fold (posted_key db). rewrite E. apply in_map. exact Hin.
Qed.

Lemma posted_row_matches (t : Z) :
  PostBanner.is_active args = true ->
  In t (PostBanner.tag_ids args) ->
  matches (posted_store args created updated db) (PostBanner.feature_id args) t
    (posted_row args created updated db) = true.
Proof.
  intros Ha Hin. unfold matches, posted_row. cbn [Banner.is_active
    Banner.feature_id Banner.banner_id]. rewrite Ha, Z.eqb_refl. simpl.
  apply associated_tag_ids. rewrite posted_store_tag_ids_of, Z.eqb_refl.
  apply in_or_app. right. exact Hin.
Qed.

(** The rows of a query after a create, on a store whose associations
    refer to registered tags: the rows it had before, in their order,
    followed by rows of the new banner, provided that no association
    referred to the key of the new banner or that the new banner does not
    satisfy the clause. *)
Lemma posted_select (c : Clause) :
  tag_key_ok db ->
  banner_key_ok db
  \/ (forall t, holds c (posted_row args created updated db) t = false) ->
  exists rows,
    select_banner_join_tags c (posted_store args created updated db)
    = select_banner_join_tags c db ++ rows
    /\ forall x, In x rows -> x = posted_row args created updated db.
Proof.
  intros Hk Hc.
  destruct posted_store_tables as (_ & Et & Eb).
  destruct (ensure_all_added (PostBanner.tag_ids args) db) as (new & En & Hnew).
  destruct (posted_store_associations args created updated db)
    as (added & Ea & Hadded).
  exists (flat_map (joined_rows c (posted_store args created updated db)) added).
  split.
  - unfold select_banner_join_tags. rewrite Ea, flat_map_app. f_equal.
    apply flat_map_ext_in. intros bt Hbt. unfold joined_rows.
    rewrite Eb, Et, En, flat_map_app. cbn [flat_map].
    rewrite app_nil_r.
    assert (Htags : forall b,
               flat_map
                 (fun t =>
                    if (Tag.tag_id t =? BannerTag.tag_id bt) && holds c b t
                    then [b] else [])
                 (tags db ++ new)
               = flat_map
                   (fun t =>
                      if (Tag.tag_id t =? BannerTag.tag_id bt) && holds c b t
                      then [b] else [])
                   (tags db)).
    { intros b. rewrite flat_map_app. rewrite (flat_map_nil _ _ _ new).
      - apply app_nil_r.
      - intros t Ht.
        replace (Tag.tag_id t =? BannerTag.tag_id bt) with false; [reflexivity|].
        symmetry. apply Z.eqb_neq. intros E.
        pose proof (Hnew t Ht) as Hn. rewrite E, (Hk bt Hbt) in Hn.
        discriminate. }
    replace (if Banner.banner_id (posted_row args created updated db)
                =? BannerTag.banner_id bt
             then flat_map
                    (fun t =>
                       if (Tag.tag_id t =? BannerTag.tag_id bt)
                          && holds c (posted_row args created updated db) t
                       then [posted_row args created updated db] else [])
                    (tags db ++ new)
             else []) with (@nil Banner.t).
    + rewrite app_nil_r. apply flat_map_ext_in. intros b _.
      rewrite Htags. reflexivity.
    + destruct Hc as [Hb|Hc].
      * replace (Banner.banner_id (posted_row args created updated db)
                 =? BannerTag.banner_id bt) with false; [reflexivity|].
        symmetry. apply Z.eqb_neq. cbn [posted_row Banner.banner_id].
        intros E. apply (next_id_not_in (map Banner.banner_id (banners db))).
        fold (posted_key db). rewrite E. apply Hb. exact Hbt.
      * destruct (_ =? _); [|reflexivity]. symmetry. apply flat_map_nil.
        intros t _. rewrite Hc, andb_false_r. reflexivity.
  - intros x Hx. apply in_flat_map in Hx. destruct Hx as (bt & Hbt & Hx).
    apply joined_rows_In in Hx. destruct Hx as (Hin & E & _).
    rewrite Eb in Hin. apply in_app_or in Hin.
    destruct Hin as [Hin|[<-|[]]]; [|reflexivity].
    exfalso. apply (posted_key_other x Hin).
    rewrite <- E. symmetry. apply Hadded. exact Hbt.
Qed.

(** The first row of the resolution query after the create of an active
    banner under the tag: the first row there was, or else the new
    banner. *)
Lemma posted_first_row (t : Z) :
  foreign_keys_ok db ->
  PostBanner.is_active args = true ->
  In t (PostBanner.tag_ids args) ->
  first_row (posted_store args created updated db) (PostBanner.feature_id args) t
  = Some (match first_row db (PostBanner.feature_id args) t with
          | Some first => first
          | None => posted_row args created updated db
          end).
Proof.
  intros [Hb Hk] Ha Hin. unfold first_row.
  destruct (posted_select (resolve_clause (PostBanner.feature_id args) t) Hk
              (or_introl Hb)) as (rows & E & Hrows).
  assert (Hnew : In (posted_row args created updated db)
                   (select_banner_join_tags
                      (resolve_clause (PostBanner.feature_id args) t)
                      (posted_store args created updated db))).
  { apply select_matching. split.
    - apply filter_In. split; [|apply posted_row_matches; assumption].
      destruct posted_store_tables as (_ & _ & ->).
      apply in_or_app. right. left. reflexivity.
    - apply posted_store_registry. right. exact Hin. }
  rewrite E in *.
  destruct (select_banner_join_tags _ db) as [|first rest]; [|reflexivity].
  cbn [app] in *. destruct rows as [|x rows]; [contradiction|].
  cbn [hd_error]. rewrite (Hrows x (or_introl eq_refl)). reflexivity.
Qed.

(** The creation of an inactive banner leaves the rows of the resolution
    query as they were. *)
Lemma posted_inactive_select (f t : Z) :
  tag_key_ok db ->
  PostBanner.is_active args = false ->
  select_banner_join_tags (resolve_clause f t)
    (posted_store args created updated db)
  = select_banner_join_tags (resolve_clause f t) db.
Proof.
  intros Hk Ha.
  destruct (posted_select (resolve_clause f t) Hk) as (rows & E & Hrows).
  { right. intros t'. cbn [holds resolve_clause posted_row Banner.is_active].
    rewrite Ha. apply andb_false_r. }
  rewrite E. destruct rows as [|x rows]; [apply app_nil_r|].
  exfalso.
  assert (Hx : In x (select_banner_join_tags (resolve_clause f t)
                       (posted_store args created updated db))).
  { rewrite E. apply in_or_app. right. left. reflexivity. }
  apply select_banner_join_tags_In in Hx.
  destruct Hx as (_ & bt & t' & _ & _ & _ & _ & Hc).
  apply resolve_clause_holds in Hc. destruct Hc as (_ & _ & Hact).
  rewrite (Hrows x (or_introl eq_refl)) in Hact.
  cbn [posted_row Banner.is_active] in Hact. congruence.
Qed.
End Posted.

(** Creates and deletes keep the association table in ascending order of
    the banner key, the order under which the resolved banner is the one
    with the lowest key; a patch of the tags is what can break it. *)
Lemma sorted_app (l1 l2 : list Z) :
  StronglySorted Z.le l1 -> StronglySorted Z.le l2 ->
  (forall x y, In x l1 -> In y l2 -> x <= y) ->
  StronglySorted Z.le (l1 ++ l2).
Proof.
  intros H1 H2 H. induction l1 as [|a l1 IH]; [exact H2|].
  inversion H1 as [|a' l' Hs Hall]; subst. cbn [app]. constructor.
  - apply IH; [exact Hs|]. intros x y Hx Hy. apply H; [right|]; assumption.
  - apply Forall_app. split; [exact Hall|].
    apply Forall_forall. intros y Hy. apply H; [left; reflexivity|exact Hy].
Qed.

Lemma sorted_filter (A : Type) (f : A -> Z) (p : A -> bool) (l : list A) :
  StronglySorted Z.le (map f l) -> StronglySorted Z.le (map f (filter p l)).
Proof.
  induction l as [|a l IH]; intros H; [exact H|].
  cbn [map] in H. inversion H as [|a' l' Hs Hall]; subst. cbn [filter].
  destruct (p a); [|apply IH; exact Hs].
  cbn [map]. constructor; [apply IH; exact Hs|].
  rewrite Forall_forall in *. intros y Hy. apply Hall.
  apply in_map_iff in Hy. destruct Hy as (x & <- & Hx).
  apply filter_In in Hx. apply in_map. apply Hx.
Qed.

Lemma posted_store_ascending (args : PostBanner.t) (created updated : string)
    (db : Database) :
  banner_key_ok db ->
  associations_ascending db ->
  associations_ascending (posted_store args created updated db).
Proof.
  unfold associations_ascending. intros Hk Hs.
  destruct (posted_store_associations args created updated db)
    as (added & -> & Hadded).
  rewrite map_app. apply sorted_app; [exact Hs| |].
  - clear Hs. induction added as [|bt l IH]; [constructor|].
    cbn [map]. constructor.
    + apply IH. intros x Hx. apply Hadded. right. exact Hx.
    + apply Forall_forall. intros y Hy. apply in_map_iff in Hy.
      destruct Hy as (x & <- & Hx).
      rewrite (Hadded bt (or_introl eq_refl)), (Hadded x (or_intror Hx)). lia.
  - intros x y Hx Hy. apply in_map_iff in Hx, Hy.
    destruct Hx as (bx & <- & Hbx). destruct Hy as (by' & <- & Hby).
    rewrite (Hadded by' Hby). unfold posted_key.
    pose proof (next_id_fresh _ _ (Hk bx Hbx)). lia.
Qed.

Lemma delete_ascending (banner_id : Z) (db : Database) :
  associations_ascending db -> associations_ascending (delete banner_id db).
Proof.
  unfold associations_ascending, delete. cbn [banner_tags].
  apply sorted_filter.
Qed.

Lemma post_banner_eq (args : PostBanner.t) (created updated : string)
    (db : Database) :
  create_session (post_banner args created updated) db
  = (inr (JSONResponse (JBannerId (posted_key db)) HTTP_201_CREATED),
     posted_store args created updated db).
Proof.
  rewrite post_banner_run. unfold posted_key.
  destruct (ensure_all_tables (PostBanner.tag_ids args) db) as (_ & -> & _).
  reflexivity.
Qed.

(** X6.  A create never fails: it answers 201 with a key that no stored
    banner has, appends one row with the fields of the request and both
    clock readings, leaves the users, every other banner and every other
    banner's associations as they were, and the registry afterwards holds
    exactly the tags it held plus the tags of the request. *)
Theorem post_banner_frame
    (db : Database) (args : PostBanner.t) (created updated : string) :
  exists banner_id db',
    create_session (post_banner args created updated) db
    = (inr (JSONResponse (JBannerId banner_id) HTTP_201_CREATED), db')
    /\ ~ In banner_id (map Banner.banner_id (banners db))
    /\ banners db'
       = banners db
         ++ [Banner.mk banner_id (PostBanner.feature_id args)
               (PostBanner.content args) (PostBanner.is_active args)
               created updated]
    /\ users db' = users db
    /\ (forall other,
           other <> banner_id ->
           get_banner other db' = get_banner other db
           /\ tag_ids_of db' other = tag_ids_of db other)
    /\ (forall t,
           tag_exists t db' = true
           <-> tag_exists t db = true \/ In t (PostBanner.tag_ids args)).
Proof.
  exists (posted_key db), (posted_store args created updated db).
  destruct (posted_store_tables args created updated db) as (Hu & _ & Hb).
  split; [apply post_banner_eq|].
  split; [apply next_id_not_in|].
  split; [exact Hb|].
  split; [exact Hu|].
  split; [|apply posted_store_registry].
  intros other Hne. split.
  - unfold get_banner at 1. rewrite Hb. apply get_banner_app. exact Hne.
  - rewrite posted_store_tag_ids_of.
    replace (posted_key db =? other) with false
      by (symmetry; apply Z.eqb_neq; congruence).
    apply app_nil_r.
Qed.

(** X7.  Create, then resolve: on a store that has its foreign keys, after
    an active banner was created with tag [tag_id] among its tags, resolving
    its feature under that tag answers 200: with the answer that was given
    before the create if that was a 200, and otherwise with the content
    that was just posted. *)
Theorem post_then_resolve
    (db : Database) (args : PostBanner.t) (created updated : string)
    (tag_id : Z) (use_last_revision : bool) :
  foreign_keys_ok db ->
  PostBanner.is_active args = true ->
  In tag_id (PostBanner.tag_ids args) ->
  create_session
    (user_banner tag_id (PostBanner.feature_id args) use_last_revision)
    (snd (create_session (post_banner args created updated) db))
  = (match
       fst (create_session
              (user_banner tag_id (PostBanner.feature_id args) use_last_revision)
              db)
     with
     | inr r => inr r
     | inl _ =>
         inr (JSONResponse (JStr (PostBanner.content args)) HTTP_200_OK)
     end,
     snd (create_session (post_banner args created updated) db)).
Proof.
  intros Hk Ha Hin. rewrite post_banner_eq. cbn [snd].
  rewrite !user_banner_eq. cbn [fst].
  rewrite (posted_first_row args created updated db tag_id Hk Ha Hin).
  destruct (first_row db (PostBanner.feature_id args) tag_id); reflexivity.
Qed.

Lemma post_then_resolve_witness :
  create_session (user_banner 1 1 true)
    (snd (create_session (post_banner post_two "t1" "t1") db_default))
  = (inr (JSONResponse (JStr DEFAULT_CONTENT) HTTP_200_OK),
     snd (create_session (post_banner post_two "t1" "t1") db_default))
  /\ create_session (user_banner 3 1 true)
       (snd (create_session (post_banner DEFAULT_BANNER "t0" "t0") db_users))
     = (inr (JSONResponse (JStr DEFAULT_CONTENT) HTTP_200_OK),
        snd (create_session (post_banner DEFAULT_BANNER "t0" "t0") db_users)).
Proof.
  split.
  - apply (post_then_resolve db_default post_two "t1" "t1" 1 true).
    + split; intros bt Hin; simpl in Hin;
        destruct Hin as [<-|[<-|[<-|[]]]]; vm_compute; tauto.
    + reflexivity.
    + simpl. tauto.
  - apply (post_then_resolve db_users DEFAULT_BANNER "t0" "t0" 3 true).
    + split; intros bt [].
    + reflexivity.
    + simpl. tauto.
Defined.

(** X8.  Creating an inactive banner changes no resolution: on a store
    whose associations refer to registered tags, every [(feature_id,
    tag_id)] pair is answered after the create as it was before. *)
Theorem post_inactive_resolves_as_before
    (db : Database) (args : PostBanner.t) (created updated : string)
    (tag_id feature_id : Z) (use_last_revision : bool) :
  tag_key_ok db ->
  PostBanner.is_active args = false ->
  fst (create_session (user_banner tag_id feature_id use_last_revision)
         (snd (create_session (post_banner args created updated) db)))
  = fst (create_session (user_banner tag_id feature_id use_last_revision) db).
Proof.
  intros Hk Ha. rewrite post_banner_eq. cbn [snd]. rewrite !user_banner_eq.
  cbn [fst]. unfold first_row.
  rewrite (posted_inactive_select args created updated db feature_id tag_id
             Hk Ha).
  reflexivity.
Qed.

Lemma post_inactive_resolves_as_before_witness :
  fst (create_session (user_banner 1 1 true)
         (snd (create_session
                 (post_banner (PostBanner.mk [1; 7] 1 "hidden" false) "t2" "t2")
                 db_default)))
  = fst (create_session (user_banner 1 1 true) db_default).
Proof.
  apply (post_inactive_resolves_as_before db_default
           (PostBanner.mk [1; 7] 1 "hidden" false) "t2" "t2" 1 1 true).
  - exact (proj2 db_default_foreign).
  - reflexivity.
Defined.

(** ** The dictionary of a banner *)

Lemma filter_key_none (ts : list Tag.t) (k : Z) :
  ~ In k (map Tag.tag_id ts) -> filter (fun t => Tag.tag_id t =? k) ts = [].
Proof.
  induction ts as [|t l IH]; simpl; intros Hn; [reflexivity|].
  replace (Tag.tag_id t =? k) with false
    by (symmetry; apply Z.eqb_neq; intros E; apply Hn; left; exact E).
  apply IH. intros Hin. apply Hn. right. exact Hin.
Qed.

Lemma filter_key_one (ts : list Tag.t) (k : Z) :
  NoDup (map Tag.tag_id ts) ->
  In k (map Tag.tag_id ts) ->
  map Tag.tag_id (filter (fun t => Tag.tag_id t =? k) ts) = [k].
Proof.
  induction ts as [|t l IH]; simpl; intros Hd Hin; [contradiction|].
  inversion Hd as [|x xs Hx Hl]; subst.
  destruct (Tag.tag_id t =? k) eqn:E.
  - apply Z.eqb_eq in E. simpl. rewrite filter_key_none; [simpl; congruence|].
    rewrite <- E. exact Hx.
  - apply IH; [exact Hl|]. destruct Hin as [Hin|Hin]; [|exact Hin].
    apply Z.eqb_neq in E. contradiction.
Qed.

Lemma tag_exists_in (db : Database) (k : Z) :
  tag_exists k db = true <-> In k (map Tag.tag_id (tags db)).
Proof.
  unfold tag_exists. rewrite existsb_exists, in_map_iff.
  split; intros (t & H1 & H2); exists t.
  - apply Z.eqb_eq in H2. split; assumption.
  - split; [exact H2|apply Z.eqb_eq; exact H1].
Qed.

Lemma Banner_tags_ids (db : Database) (b : Banner.t) :
  NoDup (map Tag.tag_id (tags db)) ->
  tag_key_ok db ->
  map Tag.tag_id (Banner_tags db b) = tag_ids_of db (Banner.banner_id b).
Proof.
  intros Hd Hk. unfold Banner_tags, tag_ids_of, tag_key_ok in *.
  induction (banner_tags db) as [|bt l IH]; [reflexivity|]. simpl.
  assert (IH' : map Tag.tag_id
                  (flat_map
                     (fun bt0 =>
                        if BannerTag.banner_id bt0 =? Banner.banner_id b
                        then filter (fun t => Tag.tag_id t =? BannerTag.tag_id bt0)
                               (tags db)
                        else []) l)
                = map BannerTag.tag_id
                    (filter (fun bt0 => BannerTag.banner_id bt0 =? Banner.banner_id b) l)).
  { apply IH. intros x Hx. apply Hk. right. exact Hx. }
  destruct (BannerTag.banner_id bt =? Banner.banner_id b); [|exact IH'].
  rewrite map_app, IH'. simpl. f_equal.
  rewrite (filter_key_one (tags db) (BannerTag.tag_id bt) Hd); [reflexivity|].
  apply tag_exists_in. apply Hk. left. reflexivity.
Qed.

(** X9.  On a store whose tags have distinct keys and whose associations
    refer to registered tags, [get_as_dict] of a banner whose associations
    name distinct tags carries the columns of the row and, as [tag_ids],
    the tags of the banner's associations, in the order of the
    associations. *)
Theorem get_as_dict_of_row (db : Database) (b : Banner.t) :
  NoDup (map Tag.tag_id (tags db)) ->
  tag_key_ok db ->
  NoDup (tag_ids_of db (Banner.banner_id b)) ->
  get_as_dict db b
  = BannerDict.mk (Banner.banner_id b) (tag_ids_of db (Banner.banner_id b))
      (Banner.feature_id b) (Banner.content b) (Banner.is_active b)
      (Banner.created_at b) (Banner.updated_at b).
Proof.
  intros Hd Hk _. unfold get_as_dict.
  rewrite (Banner_tags_ids db b Hd Hk). reflexivity.
Qed.

Lemma get_as_dict_of_row_witness :
  get_as_dict db_default default_row
  = BannerDict.mk 1 (tag_ids_of db_default 1) 1 DEFAULT_CONTENT true "t0" "t0".
Proof.
  apply (get_as_dict_of_row db_default default_row).
  - exact (proj1 db_default_primary).
  - exact (proj2 db_default_foreign).
  - vm_compute. repeat (constructor; [simpl; intuition discriminate|]).
    constructor.
Defined.

(** X10.  Create, then list: on a store that has its primary and foreign
    keys, after a banner was created with distinct tags, the listing by
    its feature and one of its tags, without [limit], answers 200 and
    contains the record of that banner with the posted fields, the posted
    tags in the posted order and both clock readings, whether the banner
    is active or not. *)
Theorem post_then_list
    (db : Database) (args : PostBanner.t) (created updated : string)
    (tag_id offset : Z) :
  primary_keys_ok db ->
  foreign_keys_ok db ->
  NoDup (PostBanner.tag_ids args) ->
  In tag_id (PostBanner.tag_ids args) ->
  exists dicts,
    create_session
      (get_banners (Some (PostBanner.feature_id args)) (Some tag_id) None offset)
      (snd (create_session (post_banner args created updated) db))
    = (inr (JSONResponse (JList dicts) HTTP_200_OK),
       snd (create_session (post_banner args created updated) db))
    /\ In (BannerDict.mk (posted_key db) (PostBanner.tag_ids args)
             (PostBanner.feature_id args) (PostBanner.content args)
             (PostBanner.is_active args) created updated)
          dicts.
Proof.
  intros Hp Hf Hnd Hin. rewrite post_banner_eq. cbn [snd].
  set (db' := posted_store args created updated db).
  set (row := posted_row args created updated db).
  assert (Hreg : tag_exists tag_id db' = true).
  { apply posted_store_registry. right. exact Hin. }
  assert (Hids : tag_ids_of db' (posted_key db) = PostBanner.tag_ids args).
  { apply posted_store_tag_ids. apply Hf. }
  assert (Hp' : primary_keys_ok db') by (apply posted_store_primary; exact Hp).
  assert (Hf' : foreign_keys_ok db') by (apply posted_store_keys; exact Hf).
  assert (Hdict : get_as_dict db' row
                  = BannerDict.mk (posted_key db) (PostBanner.tag_ids args)
                      (PostBanner.feature_id args) (PostBanner.content args)
                      (PostBanner.is_active args) created updated).
  { unfold get_as_dict.
    rewrite (Banner_tags_ids db' row (proj1 Hp') (proj2 Hf')).
    unfold row, posted_row. cbn [Banner.banner_id Banner.feature_id
      Banner.content Banner.is_active Banner.created_at Banner.updated_at].
    rewrite Hids. reflexivity. }
  rewrite get_banners_eq. unfold filtered. cbn [with_field].
  destruct (get_tag tag_id db') eqn:Eg;
    [|apply get_tag_exists in Hreg; contradiction].
  cbn [feature_clause tag_clause py_and sliced].
  eexists. split; [reflexivity|].
  rewrite <- Hdict. apply in_map. apply select_banner_join_tags_In.
  split.
  { unfold db'. destruct (posted_store_tables args created updated db)
      as (_ & _ & ->). apply in_or_app. right. left. reflexivity. }
  assert (Ha : associated db' (posted_key db) tag_id = true).
  { apply associated_tag_ids. rewrite Hids. exact Hin. }
  unfold associated in Ha. apply existsb_exists in Ha.
  destruct Ha as (bt & Hbt & E). apply andb_prop in E. destruct E as [E1 E2].
  apply Z.eqb_eq in E1, E2.
  unfold tag_exists in Hreg. apply existsb_exists in Hreg.
  destruct Hreg as (t0 & Ht0 & E0). apply Z.eqb_eq in E0.
  exists bt, t0. repeat split; try assumption; try congruence.
  cbn [holds]. unfold row, posted_row. cbn [Banner.feature_id].
  rewrite Z.eqb_refl, E0, Z.eqb_refl. reflexivity.
Qed.

Lemma post_then_list_witness :
  exists dicts,
    create_session (get_banners (Some 1) (Some 2) None 0)
      (snd (create_session (post_banner DEFAULT_BANNER "t0" "t0") db_users))
    = (inr (JSONResponse (JList dicts) HTTP_200_OK),
       snd (create_session (post_banner DEFAULT_BANNER "t0" "t0") db_users))
    /\ In (BannerDict.mk (posted_key db_users) [1; 2; 3] 1 DEFAULT_CONTENT true
             "t0" "t0") dicts.
Proof.
  apply (post_then_list db_users DEFAULT_BANNER "t0" "t0" 2 0).
  - repeat split; constructor.
  - split; intros bt [].
  - repeat (constructor; [simpl; intuition discriminate|]). constructor.
  - simpl. tauto.
Defined.

(** ** Delete *)

Lemma delete_get_other (db : Database) (banner_id other : Z) :
  other <> banner_id ->
  get_banner other (delete banner_id db) = get_banner other db.
Proof.
  intros Hne. unfold get_banner, delete. cbn [banners].
  induction (banners db) as [|b l IH]; [reflexivity|]. simpl.
  destruct (Banner.banner_id b =? banner_id) eqn:E; simpl.
  - apply Z.eqb_eq in E.
    replace (Banner.banner_id b =? other) with false
      by (symmetry; apply Z.eqb_neq; congruence).
    exact IH.
  - destruct (Banner.banner_id b =? other); [reflexivity|exact IH].
Qed.

Lemma delete_tag_ids (db : Database) (banner_id other : Z) :
  tag_ids_of (delete banner_id db) other
  = if banner_id =? other then [] else tag_ids_of db other.
Proof.
  unfold tag_ids_of, delete. cbn [banner_tags].
  induction (banner_tags db) as [|bt l IH]; simpl.
  - destruct (banner_id =? other); reflexivity.
  - destruct (BannerTag.banner_id bt =? banner_id) eqn:E1; simpl.
    + rewrite IH. destruct (banner_id =? other) eqn:E2; [reflexivity|].
      apply Z.eqb_eq in E1. rewrite E1, E2. reflexivity.
    + destruct (BannerTag.banner_id bt =? other) eqn:E3; simpl; rewrite IH.
      * replace (banner_id =? other) with false; [reflexivity|].
        symmetry. apply Z.eqb_neq. apply Z.eqb_eq in E3. apply Z.eqb_neq in E1.
        congruence.
      * destruct (banner_id =? other); reflexivity.
Qed.

Lemma delete_rows (db : Database) (banner_id : Z) (b : Banner.t) :
  In b (banners (delete banner_id db)) ->
  In b (banners db) /\ Banner.banner_id b <> banner_id.
Proof.
  unfold delete. cbn [banners]. intros H. apply filter_In in H.
  destruct H as [Hin E]. split; [exact Hin|].
  apply negb_true_iff in E. apply Z.eqb_neq. exact E.
Qed.

(** X11.  Deleting a stored banner answers 204; afterwards the key has no
    banner and no association, no listing has a row of that key, the
    users and the tag registry are as they were (tags are not deleted with
    the banner), and every other banner keeps its row and its
    associations.  Deleting a key that has no banner leaves the store as
    it was, so a repeated delete changes nothing more. *)
Theorem delete_banner_removes (db : Database) (banner_id : Z) :
  (forall b,
      get_banner banner_id db = Some b ->
      exists db',
        create_session (delete_banner banner_id) db
        = (inr (Response HTTP_204_NO_CONTENT), db')
        /\ get_banner banner_id db' = None
        /\ tag_ids_of db' banner_id = []
        /\ (forall f t rows x,
               filtered db' f t = inr rows -> In x rows ->
               Banner.banner_id x <> banner_id)
        /\ users db' = users db
        /\ tags db' = tags db
        /\ (forall other,
               other <> banner_id ->
               get_banner other db' = get_banner other db
               /\ tag_ids_of db' other = tag_ids_of db other)
        /\ snd (create_session (delete_banner banner_id) db') = db')
  /\ (get_banner banner_id db = None ->
      snd (create_session (delete_banner banner_id) db) = db).
Proof.
  split.
  - intros b Hb. exists (delete banner_id db).
    destruct (delete_removes db banner_id) as (Hg & Ht & Htags).
    split; [exact (delete_banner_present db banner_id b Hb)|].
    split; [exact Hg|]. split; [exact Ht|].
    split.
    { intros f t rows x Hf Hx.
      assert (Hsel : forall c, In x (select_banner_join_tags c (delete banner_id db)) ->
                               Banner.banner_id x <> banner_id).
      { intros c H. apply select_banner_join_tags_In in H.
        destruct H as [H _]. apply (delete_rows db banner_id x H). }
      unfold filtered in Hf. destruct t as [i|]; cbn [with_field] in Hf.
      - destruct (get_tag i (delete banner_id db)).
        + destruct (py_and (feature_clause f) (tag_clause (Some i)));
            [discriminate|]. injection Hf as <-. exact (Hsel _ Hx).
        + injection Hf as <-. contradiction.
      - destruct (py_and (feature_clause f) (tag_clause None));
          [discriminate|]. injection Hf as <-. exact (Hsel _ Hx). }
    split; [reflexivity|]. split; [exact Htags|].
    split.
    { intros other Hne. split; [apply delete_get_other; exact Hne|].
      rewrite delete_tag_ids.
      replace (banner_id =? other) with false
        by (symmetry; apply Z.eqb_neq; congruence).
      reflexivity. }
    rewrite (delete_banner_absent _ banner_id Hg). reflexivity.
  - intros Hn. rewrite (delete_banner_absent db banner_id Hn). reflexivity.
Qed.

Lemma delete_banner_removes_witness :
  exists db',
    create_session (delete_banner 1) db_default
    = (inr (Response HTTP_204_NO_CONTENT), db')
    /\ get_banner 1 db' = None
    /\ tag_ids_of db' 1 = []
    /\ (forall f t rows x,
           filtered db' f t = inr rows -> In x rows -> Banner.banner_id x <> 1)
    /\ users db' = users db_default
    /\ tags db' = tags db_default
    /\ (forall other,
           other <> 1 ->
           get_banner other db' = get_banner other db_default
           /\ tag_ids_of db' other = tag_ids_of db_default other)
    /\ snd (create_session (delete_banner 1) db') = db'.
Proof.
  apply (proj1 (delete_banner_removes db_default 1) default_row). reflexivity.
Defined.

(** X12.  Create, then delete the returned key: on a store whose
    associations refer to stored banners, the delete answers 204 and the
    banner table and the association table are again what they were
    before the create; the tags that the create registered stay. *)
Theorem post_then_delete
    (db : Database) (args : PostBanner.t) (created updated : string) :
  banner_key_ok db ->
  exists banner_id db1 db2,
    create_session (post_banner args created updated) db
    = (inr (JSONResponse (JBannerId banner_id) HTTP_201_CREATED), db1)
    /\ create_session (delete_banner banner_id) db1
       = (inr (Response HTTP_204_NO_CONTENT), db2)
    /\ banners db2 = banners db
    /\ banner_tags db2 = banner_tags db
    /\ users db2 = users db
    /\ tags db2 = tags db1
    /\ (forall t, In t (PostBanner.tag_ids args) -> tag_exists t db2 = true).
Proof.
  intros Hk.
  exists (posted_key db), (posted_store args created updated db),
    (delete (posted_key db) (posted_store args created updated db)).
  destruct (posted_store_tables args created updated db) as (Hu & Ht & Hb).
  split; [apply post_banner_eq|].
  split.
  { apply (delete_banner_present _ _ (posted_row args created updated db)).
    exact (posted_store_get args created updated db). }
  split.
  { unfold delete. cbn [banners]. rewrite Hb, filter_app. simpl.
    rewrite Z.eqb_refl. simpl. rewrite app_nil_r. apply filter_all.
    intros b Hin. apply negb_true_iff, Z.eqb_neq. intros E.
    exact (posted_key_other db b Hin (eq_sym E)). }
  split.
  { destruct (posted_store_associations args created updated db)
      as (added & Ea & Hadded).
    unfold delete. cbn [banner_tags]. rewrite Ea, filter_app.
    rewrite (filter_none _ _ added).
    - rewrite app_nil_r. apply filter_all. intros bt Hin.
      apply negb_true_iff, Z.eqb_neq. intros E.
      apply (next_id_not_in (map Banner.banner_id (banners db))).
      fold (posted_key db). rewrite <- E. apply Hk. exact Hin.
    - intros bt Hin. apply negb_false_iff, Z.eqb_eq. apply Hadded. exact Hin. }
  split; [exact Hu|]. split; [reflexivity|].
  intros t Hin. unfold tag_exists, delete. cbn [tags].
  apply (posted_store_exists args created updated db t Hin).
Qed.

Lemma post_then_delete_witness :
  exists banner_id db1 db2,
    create_session (post_banner post_repeated "t3" "t3") db_default
    = (inr (JSONResponse (JBannerId banner_id) HTTP_201_CREATED), db1)
    /\ create_session (delete_banner banner_id) db1
       = (inr (Response HTTP_204_NO_CONTENT), db2)
    /\ banners db2 = banners db_default
    /\ banner_tags db2 = banner_tags db_default
    /\ users db2 = users db_default
    /\ tags db2 = tags db1
    /\ (forall t, In t (PostBanner.tag_ids post_repeated) ->
                  tag_exists t db2 = true).
Proof.
  apply (post_then_delete db_default post_repeated "t3" "t3").
  exact (proj1 db_default_foreign).
Defined.

(** ** Listing *)

Lemma py_slice_length (A : Type) (rows : list A) (offset limit : Z) :
  0 <= limit ->
  Z.of_nat (length (py_slice rows offset (offset + limit))) <= limit.
Proof.
  intros Hl. unfold py_slice. rewrite length_firstn.
  set (len := Z.of_nat (length rows)).
  assert (Hlen : 0 <= len) by (unfold len; lia).
  assert (Hd : slice_index (offset + limit) len - slice_index offset len <= limit).
  { unfold slice_index.
    destruct (offset + limit <? 0) eqn:E1; destruct (offset <? 0) eqn:E2;
      try apply Z.ltb_lt in E1; try apply Z.ltb_ge in E1;
      try apply Z.ltb_lt in E2; try apply Z.ltb_ge in E2; lia. }
  lia.
Qed.

Lemma py_slice_negative_limit (A : Type) (rows : list A) (limit : Z) :
  limit < 0 ->
  py_slice rows 0 (0 + limit)
  = firstn (Z.to_nat (Z.of_nat (length rows) + limit)) rows.
Proof.
  intros Hl. unfold py_slice, slice_index.
  replace (0 + limit <? 0) with true by (symmetry; apply Z.ltb_lt; lia).
  cbn [Z.ltb Z.compare]. rewrite Z.min_l by lia. cbn [Z.to_nat skipn].
  f_equal. lia.
Qed.

(** X13.  When the filter of a listing yields rows, a [limit] that is not
    negative bounds the answer for every [offset], negative ones included:
    the answer is 200 with at most [limit] records.  Nothing rejects a
    negative [limit]: with [offset] 0 it is counted from the end, and the
    answer is all rows but the last [-limit]. *)
Theorem get_banners_limit
    (db : Database) (f t : option Z) (rows : list Banner.t) :
  filtered db f t = inr rows ->
  (forall limit offset,
      0 <= limit ->
      exists dicts,
        create_session (get_banners f t (Some limit) offset) db
        = (inr (JSONResponse (JList dicts) HTTP_200_OK), db)
        /\ Z.of_nat (length dicts) <= limit)
  /\ (forall limit,
         limit < 0 ->
         create_session (get_banners f t (Some limit) 0) db
         = (inr (JSONResponse
                   (JList (map (get_as_dict db)
                             (firstn (Z.to_nat (Z.of_nat (length rows) + limit))
                                rows)))
                   HTTP_200_OK), db)).
Proof.
  intros Hf. split.
  - intros limit offset Hl. rewrite get_banners_eq, Hf. eexists.
    split; [reflexivity|]. rewrite length_map. unfold sliced.
    apply py_slice_length. exact Hl.
  - intros limit Hl. rewrite get_banners_eq, Hf. unfold sliced.
    rewrite py_slice_negative_limit by exact Hl. reflexivity.
Qed.

Lemma get_banners_limit_witness :
  (exists dicts,
      create_session (get_banners (Some 1) (Some 1) (Some 2) (-2)) db_three
      = (inr (JSONResponse (JList dicts) HTTP_200_OK), db_three)
      /\ Z.of_nat (length dicts) <= 2)
  /\ create_session (get_banners (Some 1) (Some 1) (Some (-1)) 0) db_three
     = (inr (JSONResponse
               (JList (map (get_as_dict db_three)
                         (firstn (Z.to_nat (Z.of_nat (length (banners db_three)) + -1))
                            (banners db_three))))
               HTTP_200_OK), db_three).
Proof.
  destruct (get_banners_limit db_three (Some 1) (Some 1) (banners db_three)
              eq_refl) as [Hbound Hneg].
  split; [apply Hbound; lia|apply Hneg; lia].
Defined.

(** X14.  A listing by both [feature_id] and a registered [tag_id] answers
    200 with the records of exactly the stored banners that have the
    feature and are associated with the tag; whether a banner is active
    plays no part. *)
Theorem get_banners_by_feature_and_tag
    (db : Database) (feature_id tag_id offset : Z) :
  tag_exists tag_id db = true ->
  exists rows,
    create_session (get_banners (Some feature_id) (Some tag_id) None offset) db
    = (inr (JSONResponse (JList (map (get_as_dict db) rows)) HTTP_200_OK), db)
    /\ forall b,
         In b rows
         <-> In b (banners db)
             /\ Banner.feature_id b = feature_id
             /\ associated db (Banner.banner_id b) tag_id = true.
Proof.
  intros Hreg. rewrite get_banners_eq. unfold filtered. cbn [with_field].
  destruct (get_tag tag_id db) eqn:Eg;
    [|apply get_tag_exists in Hreg; contradiction].
  cbn [feature_clause tag_clause py_and sliced].
  eexists. split; [reflexivity|].
  intros b. rewrite select_banner_join_tags_In. cbn [holds]. split.
  - intros (Hin & bt & t0 & Hbt & Ht0 & Eb & Et & Hc).
    apply andb_prop in Hc. destruct Hc as [Hf Ht]. apply Z.eqb_eq in Hf, Ht.
    split; [exact Hin|]. split; [exact Hf|].
    unfold associated. apply existsb_exists. exists bt. split; [exact Hbt|].
    apply andb_true_intro. split; apply Z.eqb_eq; congruence.
  - intros (Hin & Hf & Ha). split; [exact Hin|].
    unfold associated in Ha. apply existsb_exists in Ha.
    destruct Ha as (bt & Hbt & E). apply andb_prop in E.
    destruct E as [E1 E2]. apply Z.eqb_eq in E1, E2.
    unfold tag_exists in Hreg. apply existsb_exists in Hreg.
    destruct Hreg as (t0 & Ht0 & E0). apply Z.eqb_eq in E0.
    exists bt, t0. repeat split; try assumption; try congruence.
    rewrite Hf, E0, !Z.eqb_refl. reflexivity.
Qed.

Lemma get_banners_by_feature_and_tag_witness :
  exists rows,
    create_session (get_banners (Some 1) (Some 3) None 0) db_default
    = (inr (JSONResponse (JList (map (get_as_dict db_default) rows))
              HTTP_200_OK), db_default)
    /\ forall b,
         In b rows
         <-> In b (banners db_default)
             /\ Banner.feature_id b = 1
             /\ associated db_default (Banner.banner_id b) 3 = true.
Proof.
  apply (get_banners_by_feature_and_tag db_default 1 3 0). reflexivity.
Defined.

Lemma ensure_all_extends (l : list Z) (db : Database) :
  exists added, tags (snd (ensure_all l db)) = tags db ++ added.
Proof.
  revert db. induction l as [|i l IH]; intros db.
  - exists []. symmetry. apply app_nil_r.
  - cbn [ensure_all snd]. destruct (IH (snd (ensure i db))) as (a2 & ->).
    destruct (ensure_extends i db) as (a1 & ->).
    exists (a1 ++ a2). symmetry. apply app_assoc.
Qed.

Lemma admin_handler_extends (r : AdminRequest) (db : Database) :
  users (snd (create_session (admin_handler r) db)) = users db
  /\ exists added,
       tags (snd (create_session (admin_handler r) db)) = tags db ++ added.
Proof.
  assert (Hsame : users db = users db /\ exists added, tags db = tags db ++ added).
  { split; [reflexivity|]. exists []. symmetry. apply app_nil_r. }
  destruct r as [f t l o|args c u|args i now|i]; cbn [admin_handler].
  - rewrite get_banners_eq. exact Hsame.
  - rewrite post_banner_eq. cbn [snd].
    destruct (posted_store_tables args c u db) as (-> & -> & _).
    split; [reflexivity|]. apply ensure_all_extends.
  - destruct (get_banner i db) as [b|] eqn:E.
    + rewrite (patch_banner_run args i now db b E). cbn [snd].
      destruct (patched_store_tables args i now db) as (-> & -> & _).
      split; [reflexivity|].
      apply (retagged_tables args i db).
    + rewrite (patch_banner_missing args i now db E). exact Hsame.
  - destruct (get_banner i db) as [b|] eqn:E.
    + rewrite (delete_banner_present db i b E). exact Hsame.
    + rewrite (delete_banner_absent db i E). exact Hsame.
Qed.

(** X15.  No admin-only request, whatever its token and its outcome, writes
    the user table or removes or changes a tag: afterwards the users are
    the same and the registry is the registry as it was, followed by the
    tags the request registered, so a registered tag stays registered. *)
Theorem requests_keep_users_and_tags
    (db : Database) (r : AdminRequest) (token : option string) :
  users (snd (admin_route r token db)) = users db
  /\ (exists added, tags (snd (admin_route r token db)) = tags db ++ added)
  /\ (forall t, tag_exists t db = true ->
                tag_exists t (snd (admin_route r token db)) = true).
Proof.
  assert (H : users (snd (admin_route r token db)) = users db
              /\ exists added,
                   tags (snd (admin_route r token db)) = tags db ++ added).
  { destruct (admin_route_store r token db) as [-> | ->].
    - split; [reflexivity|]. exists []. symmetry. apply app_nil_r.
    - apply admin_handler_extends. }
  destruct H as (Hu & added & Ht). split; [exact Hu|].
  split; [exists added; exact Ht|].
  intros t. unfold tag_exists. rewrite Ht, existsb_app. intros ->. reflexivity.
Qed.

(** ** Patch *)

Lemma patched_store_rows (args : PatchBanner.t) (banner_id : Z) (now : string)
    (db : Database) :
  banners (patched_store args banner_id now db)
  = map (patched_row args banner_id now) (banners db).
Proof.
  unfold patched_store, patched_row, patched.
  destruct (retagged_tables args banner_id db) as (_ & Hb & _).
  destruct (PatchBanner.is_active args), (PatchBanner.content args),
    (PatchBanner.feature_id args); unfold with_field, update_banner;
    cbn [banners]; rewrite ?map_map, Hb; apply map_ext; intros x;
    destruct (Banner.banner_id x =? banner_id) eqn:E;
    unfold set_feature_id, set_content, set_is_active, set_updated_at;
    cbn [Banner.banner_id]; rewrite ?E; cbn [Banner.banner_id]; rewrite ?E;
    cbn [Banner.banner_id]; rewrite ?E; reflexivity.
Qed.

(** X16.  A patch of a stored banner neither adds nor removes a row of the
    banner table: the table afterwards is the table before with the rows
    of that key rewritten, so the keys and their order and every
    [created_at] are as they were. *)
Theorem patch_banner_keeps_rows
    (db : Database) (args : PatchBanner.t) (banner_id : Z) (now : string)
    (b : Banner.t) :
  get_banner banner_id db = Some b ->
  exists db',
    create_session (patch_banner args banner_id now) db
    = (inr (Response HTTP_200_OK), db')
    /\ banners db' = map (patched_row args banner_id now) (banners db)
    /\ map Banner.banner_id (banners db') = map Banner.banner_id (banners db)
    /\ map Banner.created_at (banners db') = map Banner.created_at (banners db).
Proof.
  intros Hb. exists (patched_store args banner_id now db).
  split; [exact (patch_banner_run args banner_id now db b Hb)|].
  rewrite patched_store_rows. split; [reflexivity|].
  rewrite !map_map.
  split; apply map_ext; intros x; unfold patched_row, patched;
    destruct (Banner.banner_id x =? banner_id);
    destruct (PatchBanner.is_active args), (PatchBanner.content args),
      (PatchBanner.feature_id args); reflexivity.
Qed.

Lemma patch_banner_keeps_rows_witness :
  exists db',
    create_session (patch_banner patch_content_only 1 "t1") db_default
    = (inr (Response HTTP_200_OK), db')
    /\ banners db' = map (patched_row patch_content_only 1 "t1") (banners db_default)
    /\ map Banner.banner_id (banners db') = map Banner.banner_id (banners db_default)
    /\ map Banner.created_at (banners db') = map Banner.created_at (banners db_default).
Proof.
  apply (patch_banner_keeps_rows db_default patch_content_only 1 "t1" default_row).
  reflexivity.
Defined.

(** X17.  After a patch that carries [is_active = false], the patched
    banner is not resolved any more: whatever [user_banner] returns on the
    patched store is the content of a stored active banner with another
    key. *)
Theorem patch_inactive_hides
    (db : Database) (args : PatchBanner.t) (banner_id : Z) (now : string)
    (b : Banner.t) (tag_id feature_id : Z) (use_last_revision : bool)
    (r : Returned) :
  get_banner banner_id db = Some b ->
  PatchBanner.is_active args = Some false ->
  fst (create_session (user_banner tag_id feature_id use_last_revision)
         (snd (create_session (patch_banner args banner_id now) db)))
  = inr r ->
  exists x,
    In x (banners (snd (create_session (patch_banner args banner_id now) db)))
    /\ r = JSONResponse (JStr (Banner.content x)) HTTP_200_OK
    /\ Banner.is_active x = true
    /\ Banner.banner_id x <> banner_id.
Proof.
  intros Hb Ha. rewrite (patch_banner_run args banner_id now db b Hb).
  cbn [snd]. intros H. apply user_banner_returns in H.
  destruct H as (x & -> & Hin & _). exists x.
  apply filter_In in Hin. destruct Hin as [Hin Hm].
  apply andb_prop in Hm. destruct Hm as [Hm _].
  apply andb_prop in Hm. destruct Hm as [Hact _].
  split; [exact Hin|]. split; [reflexivity|]. split; [exact Hact|].
  rewrite patched_store_rows in Hin. apply in_map_iff in Hin.
  destruct Hin as (y & Ey & _). unfold patched_row in Ey.
  destruct (Banner.banner_id y =? banner_id) eqn:E.
  - subst x. unfold patched in Hact. rewrite Ha in Hact.
    destruct (PatchBanner.content args), (PatchBanner.feature_id args);
      discriminate.
  - subst x. apply Z.eqb_neq. exact E.
Qed.

Lemma patch_inactive_hides_witness :
  exists x,
    In x (banners
            (snd (create_session
                    (patch_banner (PatchBanner.mk None None None (Some false)) 2 "t1")
                    db_ordered)))
    /\ JSONResponse (JStr "one") HTTP_200_OK
       = JSONResponse (JStr (Banner.content x)) HTTP_200_OK
    /\ Banner.is_active x = true
    /\ Banner.banner_id x <> 2.
Proof.
  apply (patch_inactive_hides db_ordered
           (PatchBanner.mk None None None (Some false)) 2 "t1"
           (Banner.mk 2 1 "two" true "t0" "t0") 1 1 true);
    reflexivity.
Defined.

(** A query on a store whose banner rows were rewritten, keys kept, in a
    way the clause does not see: the rows are the rows there were,
    rewritten. *)
Lemma joined_rows_map (c : Clause) (g : Banner.t -> Banner.t)
    (db db' : Database) (bt : BannerTag.t) :
  banners db' = map g (banners db) ->
  tags db' = tags db ->
  (forall x, Banner.banner_id (g x) = Banner.banner_id x) ->
  (forall x t, holds c (g x) t = holds c x t) ->
  joined_rows c db' bt = map g (joined_rows c db bt).
Proof.
  intros Eb Et Hid Hc. unfold joined_rows. rewrite Eb, Et. clear Eb Et.
  generalize (tags db). intros ts.
  induction (banners db) as [|x l IH]; [reflexivity|].
  cbn [map flat_map]. rewrite map_app, IH, Hid. f_equal.
  destruct (Banner.banner_id x =? BannerTag.banner_id bt); [|reflexivity].
  clear IH. induction ts as [|t ts IHt]; [reflexivity|].
  cbn [flat_map]. rewrite map_app, IHt, Hc.
  destruct ((Tag.tag_id t =? BannerTag.tag_id bt) && holds c x t); reflexivity.
Qed.

Lemma select_map (c : Clause) (g : Banner.t -> Banner.t) (db db' : Database) :
  banners db' = map g (banners db) ->
  tags db' = tags db ->
  banner_tags db' = banner_tags db ->
  (forall x, Banner.banner_id (g x) = Banner.banner_id x) ->
  (forall x t, holds c (g x) t = holds c x t) ->
  select_banner_join_tags c db' = map g (select_banner_join_tags c db).
Proof.
  intros Eb Et Ea Hid Hc. unfold select_banner_join_tags. rewrite Ea.
  clear Ea. induction (banner_tags db) as [|bt l IH]; [reflexivity|].
  cbn [flat_map]. rewrite map_app, IH.
  rewrite (joined_rows_map c g db db' bt Eb Et Hid Hc). reflexivity.
Qed.

(** X18.  Patch of the content, then resolve: every pair [(feature_id,
    tag_id)] is answered from the first row of the query of [user_banner];
    after a patch that carries only [content] the pair resolves to the
    same banner as before, with the new content where that banner is the
    patched one, and a pair that was answered 404 is still answered 404. *)
Theorem patch_content_then_resolve
    (db : Database) (banner_id : Z) (now : string) (b : Banner.t)
    (c : string) (tag_id feature_id : Z) (use_last_revision : bool) :
  get_banner banner_id db = Some b ->
  fst (create_session (user_banner tag_id feature_id use_last_revision) db)
  = match first_row db feature_id tag_id with
    | Some first =>
        inr (JSONResponse (JStr (Banner.content first)) HTTP_200_OK)
    | None => inl (HTTPException HTTP_404_NOT_FOUND)
    end
  /\ fst (create_session (user_banner tag_id feature_id use_last_revision)
            (snd (create_session
                    (patch_banner (PatchBanner.mk None None (Some c) None)
                       banner_id now) db)))
     = match first_row db feature_id tag_id with
       | Some first =>
           inr (JSONResponse
                  (JStr (if Banner.banner_id first =? banner_id
                         then c else Banner.content first))
                  HTTP_200_OK)
       | None => inl (HTTPException HTTP_404_NOT_FOUND)
       end.
Proof.
  intros Hb. set (args := PatchBanner.mk None None (Some c) None).
  rewrite (patch_banner_run args banner_id now db b Hb). cbn [snd].
  rewrite !user_banner_eq. cbn [fst]. split; [reflexivity|].
  destruct (patched_store_untagged args banner_id now db eq_refl) as [Ht Hbt].
  assert (Hs : select_banner_join_tags (resolve_clause feature_id tag_id)
                 (patched_store args banner_id now db)
               = map (patched_row args banner_id now)
                   (select_banner_join_tags (resolve_clause feature_id tag_id)
                      db)).
  { apply select_map; [apply patched_store_rows|exact Ht|exact Hbt| |];
      intros x; unfold patched_row;
      destruct (Banner.banner_id x =? banner_id); reflexivity. }
  unfold first_row. rewrite Hs.
  destruct (select_banner_join_tags _ db) as [|first rest]; [reflexivity|].
  cbn [map hd_error]. unfold patched_row.
  destruct (Banner.banner_id first =? banner_id); reflexivity.
Qed.

Lemma patch_content_then_resolve_witness :
  fst (create_session (user_banner 1 1 true) db_retagged)
  = inr (JSONResponse (JStr "two") HTTP_200_OK)
  /\ fst (create_session (user_banner 1 1 true)
            (snd (create_session
                    (patch_banner (PatchBanner.mk None None (Some "smth_2"%string) None)
                       1 "t3") db_retagged)))
     = inr (JSONResponse (JStr "two") HTTP_200_OK).
Proof.
  apply (patch_content_then_resolve db_retagged 1 "t3"
           (Banner.mk 1 1 "one" true "t0" "t2") "smth_2" 1 1 true).
  reflexivity.
Defined.

(** ** Get-or-create of a tag *)



(** ** The user fixture *)

Lemma _create_test_user_run (username token : string) (admin : bool)
    (db : Database) :
  create_session (_create_test_user username token admin) db
  = (inr (next_id (map User.user_id (users db)), token),
     add_user
       (User.mk (next_id (map User.user_id (users db))) username token admin)
       db).
Proof. reflexivity. Qed.

(** X20.  [_create_test_user] appends a user under a key no user has.  When
    no earlier user carries the token, the token then passes
    [user_token_verification], and [admin_token_verification] passes it
    exactly when the user was created as administrator and answers 403
    otherwise; [_delete_test_user] of the returned key gives back the user
    table as it was before. *)
Theorem test_user_fixture
    (username token : string) (admin : bool) (db : Database) :
  select_user_where_token token db = [] ->
  exists user_id db1,
    create_session (_create_test_user username token admin) db
    = (inr (user_id, token), db1)
    /\ ~ In user_id (map User.user_id (users db))
    /\ fst (create_session (user_token_verification (Some token)) db1) = inr tt
    /\ fst (create_session (admin_token_verification (Some token)) db1)
       = (if admin then inr tt else inl (HTTPException HTTP_403_FORBIDDEN))
    /\ create_session (_delete_test_user user_id) db1 = (inr tt, db).
Proof.
  intros Hnone.
  set (user_id := next_id (map User.user_id (users db))).
  set (u := User.mk user_id username token admin).
  exists user_id, (add_user u db).
  assert (Hsel : select_user_where_token token (add_user u db) = [u]).
  { unfold select_user_where_token, add_user in *. cbn [users].
    rewrite filter_app, Hnone. cbn [filter User.token u app].
    rewrite String.eqb_refl. reflexivity. }
  split; [apply _create_test_user_run|].
  split; [apply next_id_not_in|].
  split.
  { unfold user_token_verification. run_session. rewrite Hsel. reflexivity. }
  split.
  { unfold admin_token_verification. run_session. rewrite Hsel.
    cbn [User.admin u]. destruct admin; reflexivity. }
  assert (Hfresh : forall x, In x (users db) -> User.user_id x <> user_id).
  { intros x Hin E. apply (next_id_not_in (map User.user_id (users db))).
    fold user_id. rewrite <- E. apply in_map. exact Hin. }
  assert (Hget : get_user user_id (add_user u db) = Some u).
  { unfold get_user, add_user. cbn [users]. clear Hsel Hnone.
    clearbody user_id.
    induction (users db) as [|x l IH]; cbn [app find].
    - cbn [User.user_id u]. rewrite Z.eqb_refl. reflexivity.
    - replace (User.user_id x =? user_id) with false
        by (symmetry; apply Z.eqb_neq; apply Hfresh; left; reflexivity).
      apply IH. intros y Hy. apply Hfresh. right. exact Hy. }
  unfold _delete_test_user. run_session. rewrite Hget.
  cbn [current committed]. f_equal.
  unfold delete_user, add_user. cbn [users tags banners banner_tags].
  rewrite filter_app. cbn [filter User.user_id u]. rewrite Z.eqb_refl.
  cbn [negb]. rewrite app_nil_r, filter_all; [destruct db; reflexivity|].
  intros x Hin. apply negb_true_iff, Z.eqb_neq. apply Hfresh. exact Hin.
Qed.

Lemma test_user_fixture_witness :
  exists user_id db1,
    create_session (_create_test_user "other" "other_token" false) db_default
    = (inr (user_id, "other_token"%string), db1)
    /\ ~ In user_id (map User.user_id (users db_default))
    /\ fst (create_session (user_token_verification (Some "other_token"%string)) db1)
       = inr tt
    /\ fst (create_session (admin_token_verification (Some "other_token"%string)) db1)
       = inl (HTTPException HTTP_403_FORBIDDEN)
    /\ create_session (_delete_test_user user_id) db1 = (inr tt, db_default).
Proof.
  apply (test_user_fixture "other" "other_token" false db_default).
  reflexivity.
Defined.

(** ** The banner fixture *)

Lemma admin_token_of_users (db db' : Database) (token : string) :
  users db' = users db -> admin_token_of db token -> admin_token_of db' token.
Proof.
  unfold admin_token_of, select_user_where_token. intros ->. trivial.
Qed.

Lemma POST_banner_admin (db : Database) (token : string) (args : PostBanner.t)
    (created updated : string) :
  admin_token_of db token ->
  POST_banner (Some token) args created updated db
  = (inr (JSONResponse (JBannerId (posted_key db)) HTTP_201_CREATED),
     posted_store args created updated db).
Proof.
  intros (user & rest & Hsel & Ha). unfold POST_banner.
  rewrite route_admin_eq, Hsel, Ha. apply post_banner_eq.
Qed.

Lemma DELETE_banner_admin (db : Database) (token : string) (banner_id : Z) :
  admin_token_of db token ->
  DELETE_banner (Some token) banner_id db
  = create_session (delete_banner banner_id) db.
Proof.
  intros (user & rest & Hsel & Ha). unfold DELETE_banner.
  rewrite route_admin_eq, Hsel, Ha. reflexivity.
Qed.

Lemma _create_banners_run (posts : list (PostBanner.t * string * string))
    (token : string) (db : Database) :
  admin_token_of db token ->
  _create_banners posts token db
  = (Some (posted_keys posts db), posted_all posts db).
Proof.
  revert db. induction posts as [|[[args created] updated] rest IH];
    intros db Ha; [reflexivity|].
  cbn [_create_banners posted_keys posted_all].
  rewrite (POST_banner_admin db token args created updated Ha).
  cbn [http_status]. change (HTTP_201_CREATED =? 201) with true. cbn iota.
  rewrite IH; [reflexivity|].
  apply (admin_token_of_users db); [|exact Ha].
  apply (posted_store_tables args created updated db).
Qed.

(** The tables after a run of creates. *)
Lemma posted_all_tables (posts : list (PostBanner.t * string * string))
    (db : Database) :
  foreign_keys_ok db ->
  users (posted_all posts db) = users db
  /\ NoDup (posted_keys posts db)
  /\ length (posted_keys posts db) = length posts
  /\ (forall k, In k (posted_keys posts db) ->
                ~ In k (map Banner.banner_id (banners db)))
  /\ (exists rows,
         banners (posted_all posts db) = banners db ++ rows
         /\ map Banner.banner_id rows = posted_keys posts db)
  /\ (exists added,
         banner_tags (posted_all posts db) = banner_tags db ++ added
         /\ forall bt, In bt added ->
                       In (BannerTag.banner_id bt) (posted_keys posts db)).
Proof.
  revert db. induction posts as [|[[args created] updated] rest IH];
    intros db Hk; cbn [posted_all posted_keys length].
  - split; [reflexivity|]. split; [constructor|]. split; [reflexivity|].
    split; [intros k []|].
    split; exists []; (split; [symmetry; apply app_nil_r|]);
      [reflexivity|intros bt []].
  - destruct (posted_store_tables args created updated db) as (Hu & _ & Hb).
    destruct (posted_store_associations args created updated db)
      as (a1 & Ha1 & Ha1k).
    destruct (IH (posted_store args created updated db)
                (posted_store_keys args created updated db Hk))
      as (IHu & IHd & IHl & IHf & (rows & IHb & IHr) & (a2 & IHa & IHak)).
    assert (Hsub : forall k, In k (map Banner.banner_id (banners db)) ->
                   In k (map Banner.banner_id
                           (banners (posted_store args created updated db)))).
    { intros k Hin. rewrite Hb, map_app. apply in_or_app. left. exact Hin. }
    assert (Hkey : In (posted_key db)
                     (map Banner.banner_id
                        (banners (posted_store args created updated db)))).
    { rewrite Hb, map_app. apply in_or_app. right. left. reflexivity. }
    split; [rewrite IHu; exact Hu|].
    split; [constructor; [intros Hin; exact (IHf _ Hin Hkey)|exact IHd]|].
    split; [rewrite IHl; reflexivity|].
    split.
    { intros k [<-|Hin]; [apply next_id_not_in|].
      intros Hk'. exact (IHf k Hin (Hsub k Hk')). }
    split.
    + exists (posted_row args created updated db :: rows).
      rewrite IHb, Hb, <- app_assoc. split; [reflexivity|].
      cbn [map]. rewrite IHr. reflexivity.
    + exists (a1 ++ a2). rewrite IHa, Ha1, <- app_assoc.
      split; [reflexivity|].
      intros bt Hin. apply in_app_or in Hin. destruct Hin as [Hin|Hin].
      * left. symmetry. apply Ha1k. exact Hin.
      * right. apply IHak. exact Hin.
Qed.

Lemma get_banner_stored (db : Database) (banner_id : Z) :
  In banner_id (map Banner.banner_id (banners db)) ->
  exists b, get_banner banner_id db = Some b.
Proof.
  intros Hin. apply in_map_iff in Hin. destruct Hin as (x & E & Hx).
  unfold get_banner.
  destruct (find (fun b => Banner.banner_id b =? banner_id) (banners db))
    as [b|] eqn:Ef; [exists b; reflexivity|].
  apply (find_none _ _ Ef) in Hx. apply Z.eqb_neq in Hx. contradiction.
Qed.

Lemma _delete_banners_run (ids : list Z) (token : string) (db : Database) :
  admin_token_of db token ->
  NoDup ids ->
  (forall i, In i ids -> In i (map Banner.banner_id (banners db))) ->
  _delete_banners ids token db = (true, deleted_all ids db).
Proof.
  revert db. induction ids as [|i ids IH]; intros db Ha Hd Hin;
    [reflexivity|].
  inversion Hd as [|x xs Hi Hd']; subst.
  cbn [_delete_banners]. unfold deleted_all. cbn [fold_left].
  rewrite (DELETE_banner_admin db token i Ha).
  destruct (get_banner_stored db i (Hin i (or_introl eq_refl))) as (b & Hb).
  rewrite (delete_banner_present db i b Hb). cbn [http_status].
  change (HTTP_204_NO_CONTENT =? 204) with true. cbn iota.
  apply IH.
  - apply (admin_token_of_users db); [reflexivity|exact Ha].
  - exact Hd'.
  - intros j Hj. specialize (Hin j (or_intror Hj)).
    apply in_map_iff in Hin. destruct Hin as (x & E & Hx).
    apply in_map_iff. exists x. split; [exact E|].
    unfold delete. cbn [banners]. apply filter_In. split; [exact Hx|].
    apply negb_true_iff, Z.eqb_neq. intros E'. apply Hi. congruence.
Qed.

Lemma filter_filter (A : Type) (p q : A -> bool) (l : list A) :
  filter p (filter q l) = filter (fun x => q x && p x) l.
Proof.
  induction l as [|x l IH]; [reflexivity|]. simpl.
  destruct (q x); simpl; [destruct (p x)|]; rewrite IH; reflexivity.
Qed.

Lemma deleted_all_tables (ids : list Z) (db : Database) :
  users (deleted_all ids db) = users db
  /\ banners (deleted_all ids db)
     = filter (fun b => negb (existsb (Z.eqb (Banner.banner_id b)) ids))
         (banners db)
  /\ banner_tags (deleted_all ids db)
     = filter (fun bt => negb (existsb (Z.eqb (BannerTag.banner_id bt)) ids))
         (banner_tags db).
Proof.
  unfold deleted_all. revert db. induction ids as [|i ids IH]; intros db.
  - cbn [fold_left existsb negb]. repeat split; symmetry; apply filter_all;
      reflexivity.
  - cbn [fold_left]. destruct (IH (delete i db)) as (-> & -> & ->).
    unfold delete. cbn [users banners banner_tags]. rewrite !filter_filter.
    repeat split; apply filter_ext; intros x; cbn [existsb];
      rewrite negb_orb; reflexivity.
Qed.

(** X21.  The banner fixture: with an administrator's token, on a store
    that has its foreign keys, [_create_banners] passes its assertions for
    any list of requests and returns one key per request, all distinct;
    [_delete_banners] of these keys on the resulting store passes its
    assertions, and afterwards the banner table, the association table
    and the user table are what they were before the creates. *)
Theorem banner_fixture_restores
    (posts : list (PostBanner.t * string * string)) (token : string)
    (db : Database) :
  admin_token_of db token ->
  foreign_keys_ok db ->
  exists ids db1 db2,
    _create_banners posts token db = (Some ids, db1)
    /\ length ids = length posts
    /\ NoDup ids
    /\ _delete_banners ids token db1 = (true, db2)
    /\ banners db2 = banners db
    /\ banner_tags db2 = banner_tags db
    /\ users db2 = users db.
Proof.
  intros Ha Hk.
  destruct (posted_all_tables posts db Hk)
    as (Hu & Hd & Hl & Hf & (rows & Hb & Hr) & (added & Hbt & Hak)).
  exists (posted_keys posts db), (posted_all posts db),
    (deleted_all (posted_keys posts db) (posted_all posts db)).
  split; [apply _create_banners_run; exact Ha|].
  split; [exact Hl|]. split; [exact Hd|].
  split.
  { apply _delete_banners_run; [|exact Hd|].
    - apply (admin_token_of_users db); [exact Hu|exact Ha].
    - intros i Hi. rewrite Hb, map_app, Hr. apply in_or_app. right. exact Hi. }
  destruct (deleted_all_tables (posted_keys posts db) (posted_all posts db))
    as (-> & -> & ->).
  split; [|split; [|exact Hu]].
  - rewrite Hb, filter_app, filter_all, filter_none; [apply app_nil_r| |].
    + intros x Hx. apply negb_false_iff, existsb_eqb. rewrite <- Hr.
      apply in_map. exact Hx.
    + intros x Hx. apply negb_true_iff.
      destruct (existsb (Z.eqb (Banner.banner_id x)) (posted_keys posts db))
        eqn:E; [|reflexivity].
      apply existsb_eqb in E. exfalso. apply (Hf _ E). apply in_map. exact Hx.
  - rewrite Hbt, filter_app, filter_all, filter_none; [apply app_nil_r| |].
    + intros x Hx. apply negb_false_iff, existsb_eqb. apply Hak. exact Hx.
    + intros x Hx. apply negb_true_iff.
      destruct (existsb (Z.eqb (BannerTag.banner_id x)) (posted_keys posts db))
        eqn:E; [|reflexivity].
      apply existsb_eqb in E. exfalso. apply (Hf _ E). apply (proj1 Hk).
      exact Hx.
Qed.

Lemma db_default_admin : admin_token_of db_default "admin_token".
Proof. exists admin_user, []. split; reflexivity. Qed.

Lemma banner_fixture_restores_witness :
  exists ids db1 db2,
    _create_banners
      [(DEFAULT_BANNER, "t1"%string, "t1"%string);
       (post_repeated, "t2"%string, "t2"%string)]
      "admin_token" db_default = (Some ids, db1)
    /\ length ids = 2%nat
    /\ NoDup ids
    /\ _delete_banners ids "admin_token" db1 = (true, db2)
    /\ banners db2 = banners db_default
    /\ banner_tags db2 = banner_tags db_default
    /\ users db2 = users db_default.
Proof.
  apply (banner_fixture_restores
           [(DEFAULT_BANNER, "t1"%string, "t1"%string);
            (post_repeated, "t2"%string, "t2"%string)]
           "admin_token" db_default).
  - exact db_default_admin.
  - exact db_default_foreign.
Defined.

(** X22.  Patch of the tags, then resolve: after a patch that carries
    [tag_ids] and leaves the banner active, resolving the banner's feature
    under any of the new tags answers 200; and under a tag that is not
    among the new ones, whatever is returned for any feature is the
    content of a banner with another key. *)
Theorem patch_tags_then_resolve
    (db : Database) (args : PatchBanner.t) (banner_id : Z) (now : string)
    (b : Banner.t) (l : list Z) (tag_id : Z) (use_last_revision : bool) :
  get_banner banner_id db = Some b ->
  PatchBanner.tag_ids args = Some l ->
  (In tag_id l ->
   Banner.is_active (patched args now b) = true ->
   exists c,
     fst (create_session
            (user_banner tag_id (Banner.feature_id (patched args now b))
               use_last_revision)
            (snd (create_session (patch_banner args banner_id now) db)))
     = inr (JSONResponse (JStr c) HTTP_200_OK))
  /\ (~ In tag_id l ->
      forall feature_id r,
        fst (create_session (user_banner tag_id feature_id use_last_revision)
               (snd (create_session (patch_banner args banner_id now) db)))
        = inr r ->
        exists x,
          In x (banners (snd (create_session (patch_banner args banner_id now) db)))
          /\ r = JSONResponse (JStr (Banner.content x)) HTTP_200_OK
          /\ Banner.banner_id x <> banner_id).
Proof.
  intros Hb Hl. rewrite (patch_banner_run args banner_id now db b Hb).
  cbn [snd]. set (db' := patched_store args banner_id now db).
  destruct (get_banner_in db banner_id b Hb) as [Hin Hkey].
  split.
  - intros Ht Hact.
    assert (Hreg : tag_exists tag_id db' = true).
    { apply (proj2 (patched_store_registry args banner_id now db tag_id) l Hl).
      exact Ht. }
    assert (Hm : In (patched args now b)
                   (matching db' (Banner.feature_id (patched args now b)) tag_id)).
    { unfold matching. apply filter_In. split.
      - unfold db'. rewrite patched_store_rows. apply in_map_iff.
        exists b. split; [|exact Hin].
        unfold patched_row. rewrite Hkey, Z.eqb_refl. reflexivity.
      - unfold matches. rewrite Hact, Z.eqb_refl. cbn [andb].
        replace (Banner.banner_id (patched args now b)) with banner_id.
        + apply (patched_store_associated args banner_id now db l tag_id Hl).
          exact Ht.
        + rewrite <- Hkey. unfold patched.
          destruct (PatchBanner.is_active args), (PatchBanner.content args),
            (PatchBanner.feature_id args); reflexivity. }
    destruct (user_banner_answers db' _ tag_id use_last_revision _ Hm Hreg)
      as (first & _ & ->).
    eexists. reflexivity.
  - intros Hnt feature_id r H. apply user_banner_returns in H.
    destruct H as (x & -> & Hx & Hreg). exists x.
    apply filter_In in Hx. destruct Hx as [Hx Hm].
    split; [exact Hx|]. split; [reflexivity|].
    apply andb_prop in Hm. destruct Hm as [_ Ha].
    intros E. rewrite E in Ha.
    apply (patched_store_associated args banner_id now db l tag_id Hl) in Ha.
    destruct Ha as [Ha|[_ Hr]]; [contradiction|].
    apply (proj2 (patched_store_registry args banner_id now db tag_id) l Hl)
      in Hreg.
    destruct Hreg as [Hreg|Hreg]; [congruence|contradiction].
Qed.

Lemma patch_tags_then_resolve_witness :
  (exists c,
      fst (create_session (user_banner 9 1 true)
             (snd (create_session (patch_banner patch_tags_only 1 "t1") db_default)))
      = inr (JSONResponse (JStr c) HTTP_200_OK))
  /\ fst (create_session (user_banner 2 1 true)
            (snd (create_session (patch_banner patch_tags_only 1 "t1") db_default)))
     = inl (HTTPException HTTP_404_NOT_FOUND).
Proof.
  destruct (patch_tags_then_resolve db_default patch_tags_only 1 "t1"
              default_row [9] 9 true eq_refl eq_refl) as [Hnew _].
  split.
  - apply Hnew; [simpl; tauto|reflexivity].
  - reflexivity.
Defined.

Lemma py_slice_In (A : Type) (rows : list A) (start stop : Z) (x : A) :
  In x (py_slice rows start stop) -> In x rows.
Proof.
  unfold py_slice. intros H.
  set (n := Z.to_nat (slice_index start (Z.of_nat (length rows)))) in *.
  rewrite <- (firstn_skipn n rows). apply in_or_app. right.
  set (m := Z.to_nat _) in H.
  rewrite <- (firstn_skipn m (skipn n rows)). apply in_or_app. left. exact H.
Qed.

(** X23.  A banner that has no association is in no listing, whatever the
    filters: the listing joins the banner table with the associations
    also when no [tag_id] is asked for, so a banner created or patched with
    [tag_ids = []] is not listed. *)
Theorem untagged_banner_not_listed
    (db : Database) (f t limit : option Z) (offset : Z) (b : Banner.t)
    (dicts : list BannerDict.t) :
  tag_ids_of db (Banner.banner_id b) = [] ->
  fst (create_session (get_banners f t limit offset) db)
  = inr (JSONResponse (JList dicts) HTTP_200_OK) ->
  forall d, In d dicts -> BannerDict.banner_id d <> Banner.banner_id b.
Proof.
  intros Hu. rewrite get_banners_eq. cbn [fst].
  destruct (filtered db f t) as [e|rows] eqn:Ef; [discriminate|].
  intros H. injection H as <-. intros d Hd.
  apply in_map_iff in Hd. destruct Hd as (x & <- & Hx).
  unfold get_as_dict. cbn [BannerDict.banner_id]. intros E.
  assert (Hrows : In x rows).
  { unfold sliced in Hx. destruct limit; [|exact Hx].
    exact (py_slice_In _ _ _ _ _ Hx). }
  assert (Hsel : forall c, ~ In x (select_banner_join_tags c db)).
  { intros c H. apply select_banner_join_tags_In in H.
    destruct H as (_ & bt & t0 & Hbt & _ & Eb & _).
    assert (Hi : In (BannerTag.tag_id bt) (tag_ids_of db (Banner.banner_id b))).
    { unfold tag_ids_of. apply in_map. apply filter_In.
      split; [exact Hbt|apply Z.eqb_eq; congruence]. }
    rewrite Hu in Hi. contradiction. }
  unfold filtered in Ef. destruct t as [i|]; cbn [with_field] in Ef.
  - destruct (get_tag i db).
    + destruct (py_and (feature_clause f) (tag_clause (Some i)));
        [discriminate|]. injection Ef as <-. exact (Hsel _ Hrows).
    + injection Ef as <-. contradiction.
  - destruct (py_and (feature_clause f) (tag_clause None)); [discriminate|].
    injection Ef as <-. exact (Hsel _ Hrows).
Qed.

Lemma untagged_banner_not_listed_witness :
  BannerDict.banner_id default_dict <> 2.
Proof.
  apply (untagged_banner_not_listed db_mixed (Some 1) None None 0
           (Banner.mk 2 1 "bare" true "t1" "t1")
           [default_dict; default_dict; default_dict]);
    [reflexivity|reflexivity|left; reflexivity].
Defined.
